(** * GeoTeacherAI: the SVG editing engine and the generation post-processing

    A shallow embedding of [src/components/DrawingCanvas.tsx] (the editor
    component: transform store, history, control points, pointer handlers,
    style commands) and of the response clean-up of
    [src/services/geminiService.ts].

    Conventions.
    - A JavaScript [number] is an IEEE-754 binary64 value: Rocq's primitive
      [float], with its own [+], [-], [<?], [=?] and [abs].
    - A JavaScript string is a [string]; every character stands for one code
      unit below 256.
    - A DOM element is a record of its tag name, attribute map, inline style
      map and text content; element objects live in a heap indexed by
      identity, and the mounted document lists the identities of its shapes
      in document order.
    - What the browser provides (number formatting and parsing, [Math],
      the XML serializer and parser, layout measurements) is gathered in a
      [Host] record that the definitions take as a parameter.
    - React state and refs are the fields of one [EditorState]; a handler is
      a function from the state before the event to the state after it. *)

From Stdlib Require Import ZArith String Ascii List Bool Lia Floats.
From stdpp Require Import gmap strings list fin_maps pretty.

Set Warnings "-inexact-float".
Local Open Scope string_scope.

(* ===================================================================== *)
(** ** JavaScript values                                                  *)
(* ===================================================================== *)

Module Js.

(** [x || d] on a [string | null]: [null] and the empty string are falsy. *)
Definition or_default (o : option string) (d : string) : string :=
  match o with
  | Some s => if String.eqb s "" then d else s
  | None => d
  end.

(** Truthiness of a [string | null]. *)
Definition truthy (o : option string) : bool :=
  match o with
  | Some s => negb (String.eqb s "")
  | None => false
  end.

(** [a !== b] and [a === b] on numbers. *)
Definition strict_ne (a b : float) : bool := negb (PrimFloat.eqb a b).
Definition strict_eq (a b : float) : bool := PrimFloat.eqb a b.

(** [a > b] and [a < b] on numbers. *)
Definition gt (a b : float) : bool := PrimFloat.ltb b a.
Definition lt (a b : float) : bool := PrimFloat.ltb a b.

Definition is_nan (a : float) : bool := negb (PrimFloat.eqb a a).

(** [Math.min(a, b)] and [Math.max(a, b)]: NaN is contagious, and
    [-0] is below [+0]. *)
Definition Math_min (a b : float) : float :=
  if is_nan a then a else if is_nan b then b
  else if PrimFloat.ltb a b then a
  else if PrimFloat.ltb b a then b
  else if PrimFloat.ltb (1 / a) (1 / b) then a else b.

Definition Math_max (a b : float) : float :=
  if is_nan a then a else if is_nan b then b
  else if PrimFloat.ltb a b then b
  else if PrimFloat.ltb b a then a
  else if PrimFloat.ltb (1 / a) (1 / b) then b else a.

Definition Math_abs (a : float) : float := PrimFloat.abs a.

(** White space of [String.prototype.trim] and of the regular expression
    class [\s], among the code units below 256. *)
Definition is_white (c : ascii) : bool :=
  let n := nat_of_ascii c in
  (Nat.eqb n 9 || Nat.eqb n 10 || Nat.eqb n 11 || Nat.eqb n 12
   || Nat.eqb n 13 || Nat.eqb n 32 || Nat.eqb n 160)%bool.

(** The class [\d]. *)
Definition is_digit (c : ascii) : bool :=
  let n := nat_of_ascii c in (Nat.leb 48 n && Nat.leb n 57)%bool.

Fixpoint trimStart (s : string) : string :=
  match s with
  | String c s' => if is_white c then trimStart s' else s
  | EmptyString => EmptyString
  end.

Fixpoint trimEnd (s : string) : string :=
  match s with
  | String c s' =>
      let r := trimEnd s' in
      if (String.eqb r "" && is_white c)%bool then "" else String c r
  | EmptyString => EmptyString
  end.

Definition trim (s : string) : string := trimEnd (trimStart s).

Definition startsWith (s p : string) : bool := String.prefix p s.

Definition endsWith (s p : string) : bool :=
  (Nat.leb (String.length p) (String.length s)
   && String.eqb
        (String.substring (String.length s - String.length p)
                          (String.length p) s) p)%bool.

(** [s.indexOf(p)], with [None] for [-1]. *)
Definition indexOf (s p : string) : option nat := String.index 0 p s.

Definition includes (s p : string) : bool :=
  match indexOf s p with Some _ => true | None => false end.

(** [s.substring(a, b)]: both ends are clamped to the length and swapped
    when they come in the wrong order. *)
Definition substring (s : string) (a b : nat) : string :=
  let a' := Nat.min a (String.length s) in
  let b' := Nat.min b (String.length s) in
  let lo := Nat.min a' b' in
  let hi := Nat.max a' b' in
  String.substring lo (hi - lo) s.

(** [s.replace(/p/g, '')] for a literal, non-empty pattern [p]: the
    occurrences are found left to right and do not overlap. [skip] counts
    the characters of a match that are still to be dropped. *)
Fixpoint remove_all_from (p : string) (skip : nat) (s : string) : string :=
  match s with
  | EmptyString => EmptyString
  | String c s' =>
      match skip with
      | S k => remove_all_from p k s'
      | O =>
          if String.prefix p s
          then remove_all_from p (String.length p - 1) s'
          else String c (remove_all_from p 0 s')
      end
  end.

Definition remove_all (p s : string) : string := remove_all_from p 0 s.

(** [String.prototype.toLowerCase] on code units below 256. *)
Definition lower_char (c : ascii) : ascii :=
  let n := nat_of_ascii c in
  if ((Nat.leb 65 n && Nat.leb n 90)
      || (Nat.leb 192 n && Nat.leb n 222 && negb (Nat.eqb n 215)))%bool
  then ascii_of_nat (n + 32) else c.

Fixpoint toLowerCase (s : string) : string :=
  match s with
  | EmptyString => EmptyString
  | String c s' => String (lower_char c) (toLowerCase s')
  end.

(** [l.join(sep)] on strings. *)
Fixpoint join (sep : string) (l : list string) : string :=
  match l with
  | [] => ""
  | [x] => x
  | x :: rest => x ++ sep ++ join sep rest
  end.

End Js.

(* ===================================================================== *)
(** ** The document: elements, their attributes, and the element store    *)
(* ===================================================================== *)

(** A DOM element as the editor sees it. [style] is the inline style
    declaration ([el.style.prop = v]); [attributes] is what [getAttribute]
    and [setAttribute] read and write. *)
Record Element := mkElement {
  tagName : string;
  attributes : gmap string string;
  style : gmap string string;
  textContent : string
}.

Definition getAttribute (el : Element) (name : string) : option string :=
  attributes el !! name.

Definition setAttribute (el : Element) (name value : string) : Element :=
  mkElement (tagName el) (<[name := value]> (attributes el)) (style el)
            (textContent el).

Definition hasAttribute (el : Element) (name : string) : bool :=
  match getAttribute el name with Some _ => true | None => false end.

Definition getStyle (el : Element) (prop : string) : string :=
  default "" (style el !! prop).

Definition setStyle (el : Element) (prop value : string) : Element :=
  mkElement (tagName el) (attributes el) (<[prop := value]> (style el))
            (textContent el).

Definition setTextContent (el : Element) (t : string) : Element :=
  mkElement (tagName el) (attributes el) (style el) t.

(** [document.createElementNS(svgNS, tag)]. *)
Definition createElementNS (tag : string) : Element := mkElement tag ∅ ∅ "".

(** What the serializer writes and the parser reads: the [<svg>] element
    and its descendants in document order. *)
Record SvgMarkup := mkSvgMarkup {
  markup_root : Element;
  markup_children : list Element
}.

(** The [<svg>] mounted in the editor: its own element and the identities of
    its descendants in document order. The elements themselves live in the
    editor's heap, so that a reference held in a ref or in the selection
    keeps naming the same object whatever happens to the tree. *)
Record SvgTree := mkSvgTree {
  root : Element;
  children : list nat
}.

Definition treeMarkup (heap : gmap nat Element) (t : SvgTree) : SvgMarkup :=
  mkSvgMarkup (root t) (omap (λ id, heap !! id) (children t)).

(* ===================================================================== *)
(** ** Editor data                                                        *)
(* ===================================================================== *)

Inductive ToolType := ToolSelect | ToolLine | ToolRect | ToolCircle | ToolText.
Inductive DragMode := DragNone | DragVertex | DragMove | DragRotate.
Inductive ControlPointType :=
  CpVertex | CpCenter | CpRadius | CpResize | CpRadiusX | CpRadiusY.

Record Point := mkPoint { pt_x : float; pt_y : float }.

Record ControlPoint := mkControlPoint {
  cp_x : float;
  cp_y : float;
  cp_id : nat;
  cp_type : ControlPointType
}.

Record TransformData := mkTransformData {
  tx : float;
  ty : float;
  rotation : float;
  cx : float;
  cy : float
}.

Record BoundingBox := mkBoundingBox {
  bb_x : float;
  bb_y : float;
  bb_width : float;
  bb_height : float;
  bb_cx : float;
  bb_cy : float
}.

Record DOMRect := mkDOMRect {
  rect_left : float;
  rect_top : float;
  rect_right : float;
  rect_bottom : float
}.

(** What the browser provides. The layout functions take the zoom factor,
    the document as it stands and, where they measure one element, that
    element. *)
Record Host := mkHost {
  (** [String(n)], also used by template literals. *)
  JsString : float → string;
  parseFloat : string → float;
  Math_sqrt : float → float;
  Math_pow : float → float → float;
  Math_atan2 : float → float → float;
  Math_cos : float → float;
  Math_sin : float → float;
  Math_round : float → float;
  Math_PI : float;
  (** [new XMLSerializer().serializeToString(svg)]. *)
  serializeToString : SvgMarkup → string;
  (** [new DOMParser().parseFromString(s, "image/svg+xml").documentElement]. *)
  parseFromString : string → SvgMarkup;
  (** The point of [svg.getScreenCTM().inverse()] applied to a client
      position; [None] when there is no matrix. *)
  svgScreenToLocal : float → SvgMarkup → float → float → option Point;
  (** The same through the matrix of one element. *)
  elScreenToLocal : float → SvgMarkup → Element → float → float → option Point;
  getBoundingClientRect : float → SvgMarkup → Element → DOMRect;
  (** Whether a parsed root carries a [style] object: the parser gives one
      to an element of the SVG namespace, and none to an element of no
      namespace, on which [newSvg.style] is [undefined]. *)
  hasStyle : Element → bool
}.

(* ===================================================================== *)
(** ** Scanning attribute strings                                         *)
(* ===================================================================== *)

(** The pieces of [s] between separators, empty pieces dropped: what
    [s.trim().split(/\s+|,/).filter(p => p !== '')] yields when [sep] is
    white space or a comma. [cur] is the piece being read. *)
Fixpoint tokens_from (sep : ascii → bool) (cur : string) (s : string)
  : list string :=
  match s with
  | EmptyString => if String.eqb cur "" then [] else [cur]
  | String c s' =>
      if sep c
      then (if String.eqb cur "" then tokens_from sep "" s'
            else cur :: tokens_from sep "" s')
      else tokens_from sep (cur ++ String c "") s'
  end.

Definition split_points (s : string) : list string :=
  tokens_from (λ c, (Js.is_white c || Ascii.eqb c ",")%bool) "" (Js.trim s).

(** [s.split(/\s+/)] on a trimmed string: the empty string gives one empty
    piece. *)
Definition split_white (s : string) : list string :=
  if String.eqb s "" then [""] else tokens_from Js.is_white "" s.

(** The longest prefix of [s] in the class [p], and what follows it. *)
Fixpoint span (p : ascii → bool) (s : string) : string * string :=
  match s with
  | String c s' =>
      if p c then let '(a, b) := span p s' in (String c a, b)
      else ("", s)
  | EmptyString => ("", "")
  end.

(** The class [[ML]] under the [i] flag, and the class [[\d.-]]. *)
Definition is_ML (c : ascii) : bool :=
  (Ascii.eqb c "M" || Ascii.eqb c "L" || Ascii.eqb c "m" || Ascii.eqb c "l")%bool.

Definition is_num_char (c : ascii) : bool :=
  (Js.is_digit c || Ascii.eqb c "." || Ascii.eqb c "-")%bool.

(** One attempt of [/[ML]\s*[\d.-]+\s*[\d.-]+/i] at the head of [s]: the
    matched text. Both [\s*] and the first [[\d.-]+] are greedy; when no
    character of the class follows the second [\s*], the only way left for
    the engine is to hand the last character of the first run to the second
    one, with nothing in between. *)
Definition match_command (s : string) : option string :=
  match s with
  | String c s1 =>
      if is_ML c then
        let '(w1, s2) := span Js.is_white s1 in
        let '(n1, s3) := span is_num_char s2 in
        if String.eqb n1 "" then None
        else
          let '(w2, s4) := span Js.is_white s3 in
          let '(n2, _) := span is_num_char s4 in
          if negb (String.eqb n2 "")
          then Some (String c (w1 ++ n1 ++ w2 ++ n2))
          else if Nat.leb 2 (String.length n1)
               then Some (String c (w1 ++ n1))
               else None
      else None
  | EmptyString => None
  end.

(** [d.match(/[ML]\s*[\d.-]+\s*[\d.-]+/gi)]: the matches from left to right,
    each search resuming where the last match ended; the empty list stands
    for [null]. *)
Fixpoint path_commands_from (skip : nat) (s : string) : list string :=
  match s with
  | EmptyString => []
  | String c s' =>
      match skip with
      | S k => path_commands_from k s'
      | O =>
          match match_command s with
          | Some m => m :: path_commands_from (String.length m - 1) s'
          | None => path_commands_from 0 s'
          end
      end
  end.

Definition path_commands (d : string) : list string := path_commands_from 0 d.

(** Positions [0, 1, 2, ...] beside the items, as [forEach((x, index) => ...)]
    and [map] see them. *)
Definition indexed {A} (l : list A) : list (nat * A) := imap (λ i x, (i, x)) l.

(** The attributes [setElementTransform] writes. *)
Definition transformAttrs : list string :=
  ["data-tx"; "data-ty"; "data-rotation"; "data-cx"; "data-cy"; "transform"].

Section Editor.

Variable H : Host.

(* =================================================================== *)
(** ** Transform store                                                  *)
(* =================================================================== *)

Definition numAttr (el : Element) (name : string) : float :=
  parseFloat H (Js.or_default (getAttribute el name) "0").

(** The number [x], written to an attribute and read again by
    [parseFloat(el.getAttribute(..) || '0')], comes back as [x]. *)
Definition reads_back (x : float) : Prop :=
  parseFloat H (Js.or_default (Some (JsString H x)) "0") = x.

Definition getElementTransform (el : Element) : TransformData :=
  let tx := numAttr el "data-tx" in
  let ty := numAttr el "data-ty" in
  let rotation := numAttr el "data-rotation" in
  let cx := numAttr el "data-cx" in
  let cy := numAttr el "data-cy" in
  mkTransformData tx ty rotation cx cy.

(** The value of the [transform] attribute built by [setElementTransform]. *)
Definition transformStr (data : TransformData) : string :=
  let s := "translate(" ++ JsString H (tx data) ++ ", "
                        ++ JsString H (ty data) ++ ")" in
  if Js.strict_ne (rotation data) 0
  then s ++ " rotate(" ++ JsString H (rotation data) ++ ", "
         ++ JsString H (cx data) ++ ", " ++ JsString H (cy data) ++ ")"
  else s.

Definition setElementTransform (el : Element) (data : TransformData)
  : Element :=
  let el := setAttribute el "data-tx" (JsString H (tx data)) in
  let el := setAttribute el "data-ty" (JsString H (ty data)) in
  let el := setAttribute el "data-rotation" (JsString H (rotation data)) in
  let el := setAttribute el "data-cx" (JsString H (cx data)) in
  let el := setAttribute el "data-cy" (JsString H (cy data)) in
  setAttribute el "transform" (transformStr data).

(* =================================================================== *)
(** ** Control points                                                   *)
(* =================================================================== *)

(** The loop [for (i = 0; i < pairs.length; i += 2)] of the polygon case;
    [k] is [i / 2]. A last value without a partner gives no point. *)
Fixpoint pair_points (pairs : list string) (k : nat) : list ControlPoint :=
  match pairs with
  | a :: b :: rest =>
      (if (negb (String.eqb a "") && negb (String.eqb b ""))%bool
       then [mkControlPoint (parseFloat H a) (parseFloat H b) k CpVertex]
       else [])
      ++ pair_points rest (S k)
  | _ => []
  end.

(** One path command: a point only when the command splits into at least
    three pieces at white space. *)
Definition command_point (index : nat) (cmd : string) : list ControlPoint :=
  match split_white (Js.trim cmd) with
  | _ :: p1 :: p2 :: _ =>
      [mkControlPoint (parseFloat H p1) (parseFloat H p2) index CpVertex]
  | _ => []
  end.

Definition parseControlPoints (el : Element) : list ControlPoint :=
  let tagName := Js.toLowerCase (tagName el) in
  if String.eqb tagName "line" then
    [ mkControlPoint (numAttr el "x1") (numAttr el "y1") 0 CpVertex;
      mkControlPoint (numAttr el "x2") (numAttr el "y2") 1 CpVertex ]
  else if String.eqb tagName "circle" then
    let cx := numAttr el "cx" in
    let cy := numAttr el "cy" in
    let r := numAttr el "r" in
    [ mkControlPoint cx cy 0 CpCenter;
      mkControlPoint (cx + r) cy 1 CpRadius ]
  else if String.eqb tagName "ellipse" then
    let cx := numAttr el "cx" in
    let cy := numAttr el "cy" in
    let rx := numAttr el "rx" in
    let ry := numAttr el "ry" in
    [ mkControlPoint cx cy 0 CpCenter;
      mkControlPoint (cx + rx) cy 1 CpRadiusX;
      mkControlPoint cx (cy + ry) 2 CpRadiusY ]
  else if String.eqb tagName "rect" then
    let x := numAttr el "x" in
    let y := numAttr el "y" in
    let w := numAttr el "width" in
    let h := numAttr el "height" in
    [ mkControlPoint x y 0 CpResize;
      mkControlPoint (x + w) (y + h) 1 CpResize ]
  else if (String.eqb tagName "polygon" || String.eqb tagName "polyline")%bool
  then
    let pointsAttr := Js.or_default (getAttribute el "points") "" in
    pair_points (split_points pointsAttr) 0
  else if String.eqb tagName "path" then
    let d := Js.or_default (getAttribute el "d") "" in
    concat (map (λ '(index, cmd), command_point index cmd)
                (indexed (path_commands d)))
  else if String.eqb tagName "text" then
    [ mkControlPoint (numAttr el "x") (numAttr el "y") 0 CpCenter ]
  else [].

Definition setPoint (p : ControlPoint) (x y : float) : ControlPoint :=
  mkControlPoint x y (cp_id p) (cp_type p).

(** [updateElementShape]: the element after the edit, or [None] when the
    function throws (the path case indexing a point that is not there). *)
Definition updateElementShape (el : Element) (pointIndex : nat)
           (newX newY : float) : option Element :=
  let tagName := Js.toLowerCase (tagName el) in
  if String.eqb tagName "line" then
    if Nat.eqb pointIndex 0
    then Some (setAttribute (setAttribute el "x1" (JsString H newX))
                            "y1" (JsString H newY))
    else Some (setAttribute (setAttribute el "x2" (JsString H newX))
                            "y2" (JsString H newY))
  else if String.eqb tagName "circle" then
    if Nat.eqb pointIndex 0
    then Some (setAttribute (setAttribute el "cx" (JsString H newX))
                            "cy" (JsString H newY))
    else
      let cx := numAttr el "cx" in
      let cy := numAttr el "cy" in
      let newR := Math_sqrt H (Math_pow H (newX - cx) 2
                               + Math_pow H (newY - cy) 2) in
      Some (setAttribute el "r" (JsString H newR))
  else if String.eqb tagName "ellipse" then
    if Nat.eqb pointIndex 0
    then Some (setAttribute (setAttribute el "cx" (JsString H newX))
                            "cy" (JsString H newY))
    else if Nat.eqb pointIndex 1 then
      let cx := numAttr el "cx" in
      let newRx := Js.Math_abs (newX - cx) in
      Some (setAttribute el "rx" (JsString H newRx))
    else if Nat.eqb pointIndex 2 then
      let cy := numAttr el "cy" in
      let newRy := Js.Math_abs (newY - cy) in
      Some (setAttribute el "ry" (JsString H newRy))
    else Some el
  else if String.eqb tagName "rect" then
    let x := numAttr el "x" in
    let y := numAttr el "y" in
    let w := numAttr el "width" in
    let h := numAttr el "height" in
    if Nat.eqb pointIndex 0 then
      let newW := ((x + w) - newX)%float in
      let newH := ((y + h) - newY)%float in
      if (Js.gt newW 0 && Js.gt newH 0)%bool then
        let el := setAttribute el "x" (JsString H newX) in
        let el := setAttribute el "y" (JsString H newY) in
        let el := setAttribute el "width" (JsString H newW) in
        Some (setAttribute el "height" (JsString H newH))
      else Some el
    else
      let newW := (newX - x)%float in
      let newH := (newY - y)%float in
      if (Js.gt newW 0 && Js.gt newH 0)%bool then
        let el := setAttribute el "width" (JsString H newW) in
        Some (setAttribute el "height" (JsString H newH))
      else Some el
  else if (String.eqb tagName "polygon" || String.eqb tagName "polyline")%bool
  then
    let currentPoints := parseControlPoints el in
    match currentPoints !! pointIndex with
    | Some p =>
        let currentPoints := <[pointIndex := setPoint p newX newY]> currentPoints in
        let newPointsStr :=
          Js.join " " (map (λ p, JsString H (cp_x p) ++ "," ++ JsString H (cp_y p))
                           currentPoints) in
        Some (setAttribute el "points" newPointsStr)
    | None => Some el
    end
  else if String.eqb tagName "path" then
    let d := Js.or_default (getAttribute el "d") "" in
    let commands := path_commands d in
    match commands !! pointIndex with
    | Some _ =>
        let currentPoints := parseControlPoints el in
        match currentPoints !! pointIndex with
        | None => None
        | Some p =>
            let currentPoints :=
              <[pointIndex := setPoint p newX newY]> currentPoints in
            let newD :=
              String.concat ""
                (map (λ '(idx, p),
                      (if Nat.eqb idx 0 then "M" else "L") ++ " "
                      ++ JsString H (cp_x p) ++ " " ++ JsString H (cp_y p) ++ " ")
                     (indexed currentPoints)) in
            let newD :=
              if Js.includes (Js.toLowerCase d) "z" then newD ++ "Z" else newD in
            Some (setAttribute el "d" newD)
        end
    | None => Some el
    end
  else if String.eqb tagName "text" then
    Some (setAttribute (setAttribute el "x" (JsString H newX))
                       "y" (JsString H newY))
  else Some el.

End Editor.

(* ===================================================================== *)
(** ** Editor state                                                       *)
(* ===================================================================== *)

(** The component's state hooks and refs. A ref that mirrors a state hook
    is the same field: handlers run between renders, when both agree. *)
Record EditorState := mkEditorState {
  (** [scale]: the zoom factor *)
  scale : float;
  (** [tool], mirrored by [toolRef] *)
  tool : ToolType;
  (** every element object created so far *)
  heap : gmap nat Element;
  (** the identity the next new element gets *)
  nextId : nat;
  (** the [<svg>] inside [mountRef], if any *)
  mount : option SvgTree;
  (** [selectedElements], mirrored by [selectedElementsRef] *)
  selectedElements : list nat;
  controlPoints : list ControlPoint;
  selectionBBox : option BoundingBox;
  history : list string;
  historyIndex : Z;
  (** [dragModeRef] *)
  dragMode : DragMode;
  (** [isDraggingPointRef] *)
  isDraggingPoint : option nat;
  (** [isDrawingRef] *)
  isDrawing : bool;
  (** [startPointRef] *)
  startPoint : option Point;
  (** [currentDrawElementRef] *)
  currentDrawElement : option nat;
  (** [didChangeRef] *)
  didChange : bool;
  (** the [currentHexColor] prop, mirrored by its ref *)
  currentHexColor : string;
  (** [rotationCenterRef] *)
  rotationCenter : option Point;
  (** [startTransformsMapRef] *)
  startTransformsMap : gmap nat TransformData
}.

(** Field updates. *)
Definition set_scale (v : float) (st : EditorState) : EditorState :=
  mkEditorState v (tool st) (heap st) (nextId st) (mount st) (selectedElements st) (controlPoints st) (selectionBBox st) (history st) (historyIndex st) (dragMode st) (isDraggingPoint st) (isDrawing st) (startPoint st) (currentDrawElement st) (didChange st) (currentHexColor st) (rotationCenter st) (startTransformsMap st).
Definition set_tool (v : ToolType) (st : EditorState) : EditorState :=
  mkEditorState (scale st) v (heap st) (nextId st) (mount st) (selectedElements st) (controlPoints st) (selectionBBox st) (history st) (historyIndex st) (dragMode st) (isDraggingPoint st) (isDrawing st) (startPoint st) (currentDrawElement st) (didChange st) (currentHexColor st) (rotationCenter st) (startTransformsMap st).
Definition set_heap (v : gmap nat Element) (st : EditorState) : EditorState :=
  mkEditorState (scale st) (tool st) v (nextId st) (mount st) (selectedElements st) (controlPoints st) (selectionBBox st) (history st) (historyIndex st) (dragMode st) (isDraggingPoint st) (isDrawing st) (startPoint st) (currentDrawElement st) (didChange st) (currentHexColor st) (rotationCenter st) (startTransformsMap st).
Definition set_nextId (v : nat) (st : EditorState) : EditorState :=
  mkEditorState (scale st) (tool st) (heap st) v (mount st) (selectedElements st) (controlPoints st) (selectionBBox st) (history st) (historyIndex st) (dragMode st) (isDraggingPoint st) (isDrawing st) (startPoint st) (currentDrawElement st) (didChange st) (currentHexColor st) (rotationCenter st) (startTransformsMap st).
Definition set_mount (v : option SvgTree) (st : EditorState) : EditorState :=
  mkEditorState (scale st) (tool st) (heap st) (nextId st) v (selectedElements st) (controlPoints st) (selectionBBox st) (history st) (historyIndex st) (dragMode st) (isDraggingPoint st) (isDrawing st) (startPoint st) (currentDrawElement st) (didChange st) (currentHexColor st) (rotationCenter st) (startTransformsMap st).
Definition set_selectedElements (v : list nat) (st : EditorState) : EditorState :=
  mkEditorState (scale st) (tool st) (heap st) (nextId st) (mount st) v (controlPoints st) (selectionBBox st) (history st) (historyIndex st) (dragMode st) (isDraggingPoint st) (isDrawing st) (startPoint st) (currentDrawElement st) (didChange st) (currentHexColor st) (rotationCenter st) (startTransformsMap st).
Definition set_controlPoints (v : list ControlPoint) (st : EditorState) : EditorState :=
  mkEditorState (scale st) (tool st) (heap st) (nextId st) (mount st) (selectedElements st) v (selectionBBox st) (history st) (historyIndex st) (dragMode st) (isDraggingPoint st) (isDrawing st) (startPoint st) (currentDrawElement st) (didChange st) (currentHexColor st) (rotationCenter st) (startTransformsMap st).
Definition set_selectionBBox (v : option BoundingBox) (st : EditorState) : EditorState :=
  mkEditorState (scale st) (tool st) (heap st) (nextId st) (mount st) (selectedElements st) (controlPoints st) v (history st) (historyIndex st) (dragMode st) (isDraggingPoint st) (isDrawing st) (startPoint st) (currentDrawElement st) (didChange st) (currentHexColor st) (rotationCenter st) (startTransformsMap st).
Definition set_history (v : list string) (st : EditorState) : EditorState :=
  mkEditorState (scale st) (tool st) (heap st) (nextId st) (mount st) (selectedElements st) (controlPoints st) (selectionBBox st) v (historyIndex st) (dragMode st) (isDraggingPoint st) (isDrawing st) (startPoint st) (currentDrawElement st) (didChange st) (currentHexColor st) (rotationCenter st) (startTransformsMap st).
Definition set_historyIndex (v : Z) (st : EditorState) : EditorState :=
  mkEditorState (scale st) (tool st) (heap st) (nextId st) (mount st) (selectedElements st) (controlPoints st) (selectionBBox st) (history st) v (dragMode st) (isDraggingPoint st) (isDrawing st) (startPoint st) (currentDrawElement st) (didChange st) (currentHexColor st) (rotationCenter st) (startTransformsMap st).
Definition set_dragMode (v : DragMode) (st : EditorState) : EditorState :=
  mkEditorState (scale st) (tool st) (heap st) (nextId st) (mount st) (selectedElements st) (controlPoints st) (selectionBBox st) (history st) (historyIndex st) v (isDraggingPoint st) (isDrawing st) (startPoint st) (currentDrawElement st) (didChange st) (currentHexColor st) (rotationCenter st) (startTransformsMap st).
Definition set_isDraggingPoint (v : option nat) (st : EditorState) : EditorState :=
  mkEditorState (scale st) (tool st) (heap st) (nextId st) (mount st) (selectedElements st) (controlPoints st) (selectionBBox st) (history st) (historyIndex st) (dragMode st) v (isDrawing st) (startPoint st) (currentDrawElement st) (didChange st) (currentHexColor st) (rotationCenter st) (startTransformsMap st).
Definition set_isDrawing (v : bool) (st : EditorState) : EditorState :=
  mkEditorState (scale st) (tool st) (heap st) (nextId st) (mount st) (selectedElements st) (controlPoints st) (selectionBBox st) (history st) (historyIndex st) (dragMode st) (isDraggingPoint st) v (startPoint st) (currentDrawElement st) (didChange st) (currentHexColor st) (rotationCenter st) (startTransformsMap st).
Definition set_startPoint (v : option Point) (st : EditorState) : EditorState :=
  mkEditorState (scale st) (tool st) (heap st) (nextId st) (mount st) (selectedElements st) (controlPoints st) (selectionBBox st) (history st) (historyIndex st) (dragMode st) (isDraggingPoint st) (isDrawing st) v (currentDrawElement st) (didChange st) (currentHexColor st) (rotationCenter st) (startTransformsMap st).
Definition set_currentDrawElement (v : option nat) (st : EditorState) : EditorState :=
  mkEditorState (scale st) (tool st) (heap st) (nextId st) (mount st) (selectedElements st) (controlPoints st) (selectionBBox st) (history st) (historyIndex st) (dragMode st) (isDraggingPoint st) (isDrawing st) (startPoint st) v (didChange st) (currentHexColor st) (rotationCenter st) (startTransformsMap st).
Definition set_didChange (v : bool) (st : EditorState) : EditorState :=
  mkEditorState (scale st) (tool st) (heap st) (nextId st) (mount st) (selectedElements st) (controlPoints st) (selectionBBox st) (history st) (historyIndex st) (dragMode st) (isDraggingPoint st) (isDrawing st) (startPoint st) (currentDrawElement st) v (currentHexColor st) (rotationCenter st) (startTransformsMap st).
Definition set_currentHexColor (v : string) (st : EditorState) : EditorState :=
  mkEditorState (scale st) (tool st) (heap st) (nextId st) (mount st) (selectedElements st) (controlPoints st) (selectionBBox st) (history st) (historyIndex st) (dragMode st) (isDraggingPoint st) (isDrawing st) (startPoint st) (currentDrawElement st) (didChange st) v (rotationCenter st) (startTransformsMap st).
Definition set_rotationCenter (v : option Point) (st : EditorState) : EditorState :=
  mkEditorState (scale st) (tool st) (heap st) (nextId st) (mount st) (selectedElements st) (controlPoints st) (selectionBBox st) (history st) (historyIndex st) (dragMode st) (isDraggingPoint st) (isDrawing st) (startPoint st) (currentDrawElement st) (didChange st) (currentHexColor st) v (startTransformsMap st).
Definition set_startTransformsMap (v : gmap nat TransformData) (st : EditorState) : EditorState :=
  mkEditorState (scale st) (tool st) (heap st) (nextId st) (mount st) (selectedElements st) (controlPoints st) (selectionBBox st) (history st) (historyIndex st) (dragMode st) (isDraggingPoint st) (isDrawing st) (startPoint st) (currentDrawElement st) (didChange st) (currentHexColor st) (rotationCenter st) v.

(** A pointer event: the client position, the element of the mounted
    document under the pointer ([None] when the target is not one of its
    elements), and the modifier keys. *)
Record MouseEvent := mkMouseEvent {
  clientX : float;
  clientY : float;
  target : option nat;
  ctrlKey : bool;
  metaKey : bool;
  shiftKey : bool
}.

(** [l.slice(0, e)]: a negative end counts from the end of the list. *)
Definition slice0 {A} (l : list A) (e : Z) : list A :=
  let len := Z.of_nat (length l) in
  let e' := if (e <? 0)%Z then Z.max (len + e) 0 else Z.min e len in
  take (Z.to_nat e') l.

(** [l[i]] for a numeric index. *)
Definition at_index {A} (l : list A) (i : Z) : option A :=
  if (i <? 0)%Z then None else l !! Z.to_nat i.

Definition validShapeTags : list string :=
  ["line"; "rect"; "circle"; "ellipse"; "path"; "polygon"; "polyline"; "text"].

(** The history index names a snapshot, or is [-1]. *)
Definition validHistory (st : EditorState) : Prop :=
  (-1 ≤ historyIndex st < Z.of_nat (length (history st)))%Z.

(** [{...startTx, tx: startTx.tx + dx, ty: startTx.ty + dy}]. *)
Definition translateBy (startTx : TransformData) (dx dy : float)
  : TransformData :=
  let newTx := (tx startTx + dx)%float in
  let newTy := (ty startTx + dy)%float in
  mkTransformData newTx newTy (rotation startTx) (cx startTx) (cy startTx).

Section Handlers.

Variable H : Host.

(* =================================================================== *)
(** ** Heap and tree                                                    *)
(* =================================================================== *)

(** A new element object. *)
Definition allocElement (el : Element) (st : EditorState)
  : EditorState * nat :=
  (set_nextId (S (nextId st)) (set_heap (<[nextId st := el]> (heap st)) st),
   nextId st).

(** Mutate the object [id] in place. *)
Definition mutate (id : nat) (f : Element → Element) (st : EditorState)
  : EditorState :=
  set_heap (alter f id (heap st)) st.

(** [svg.contains(target)] for the mounted [<svg>]. *)
Definition svgContains (st : EditorState) (id : nat) : bool :=
  match mount st with
  | Some t => bool_decide (id ∈ children t)
  | None => false
  end.

(** [svg.appendChild(el)]. *)
Definition appendChild (id : nat) (st : EditorState) : EditorState :=
  match mount st with
  | Some t => set_mount (Some (mkSvgTree (root t) (children t ++ [id])%list)) st
  | None => st
  end.

(** [el.parentNode.removeChild(el)], when [el] has a parent. *)
Definition removeChild (id : nat) (st : EditorState) : EditorState :=
  match mount st with
  | Some t =>
      set_mount (Some (mkSvgTree (root t) (filter (λ j, j ≠ id) (children t)))) st
  | None => st
  end.

(** The objects of a parsed document, in order, and the tree naming them. *)
Fixpoint allocAll (els : list Element) (st : EditorState)
  : EditorState * list nat :=
  match els with
  | [] => (st, [])
  | el :: rest =>
      let '(st, id) := allocElement el st in
      let '(st, ids) := allocAll rest st in
      (st, id :: ids)
  end.

Definition mountMarkup (m : SvgMarkup) (st : EditorState) : EditorState :=
  let '(st, ids) := allocAll (markup_children m) st in
  set_mount (Some (mkSvgTree (markup_root m) ids)) st.

(** The mounted document as the serializer and the layout see it. *)
Definition currentMarkup (st : EditorState) : option SvgMarkup :=
  treeMarkup (heap st) <$> mount st.

(* =================================================================== *)
(** ** Coordinates and the selection box                                *)
(* =================================================================== *)

Definition getSVGPoint (st : EditorState) (clientX clientY : float) : Point :=
  match currentMarkup st with
  | None => mkPoint 0 0
  | Some m =>
      match svgScreenToLocal H (scale st) m clientX clientY with
      | Some p => p
      | None => mkPoint 0 0
      end
  end.

Definition getLocalPoint (st : EditorState) (clientX clientY : float)
           (el : Element) : Point :=
  match currentMarkup st with
  | None => mkPoint 0 0
  | Some m =>
      match elScreenToLocal H (scale st) m el clientX clientY with
      | Some p => p
      | None => getSVGPoint st clientX clientY
      end
  end.

Definition clientRectOf (st : EditorState) (id : nat) : DOMRect :=
  match currentMarkup st, heap st !! id with
  | Some m, Some el => getBoundingClientRect H (scale st) m el
  | _, _ => mkDOMRect 0 0 0 0
  end.

(** One round of the [forEach] of [updateSelectionBBox] on the running
    [(minX, minY, maxX, maxY)]. *)
Definition growExtents (st : EditorState)
           (acc : float * float * float * float) (id : nat)
  : float * float * float * float :=
  let '(minX, minY, maxX, maxY) := acc in
  let rect := clientRectOf st id in
  let ptTL := getSVGPoint st (rect_left rect) (rect_top rect) in
  let ptBR := getSVGPoint st (rect_right rect) (rect_bottom rect) in
  (Js.Math_min (Js.Math_min minX (pt_x ptTL)) (pt_x ptBR),
   Js.Math_min (Js.Math_min minY (pt_y ptTL)) (pt_y ptBR),
   Js.Math_max (Js.Math_max maxX (pt_x ptTL)) (pt_x ptBR),
   Js.Math_max (Js.Math_max maxY (pt_y ptTL)) (pt_y ptBR)).

(** The value [updateSelectionBBox] hands to [setSelectionBBox]. *)
Definition measureBBox (elements : list nat) (st : EditorState)
  : option BoundingBox :=
  match elements with
  | [] => None
  | _ =>
      let '(minX, minY, maxX, maxY) :=
        foldl (growExtents st)
              (infinity, infinity, neg_infinity, neg_infinity) elements in
      if (Js.strict_eq minX infinity || Js.gt (Js.Math_abs minX) 10000)%bool
      then None
      else Some (mkBoundingBox minX minY (maxX - minX) (maxY - minY)
                               ((minX + maxX) / 2) ((minY + maxY) / 2))
  end.

Definition updateSelectionBBox (elements : list nat) (st : EditorState)
  : EditorState :=
  set_selectionBBox (measureBBox elements st) st.

(* =================================================================== *)
(** ** History                                                          *)
(* =================================================================== *)

Definition getCurrentSVGString (st : EditorState) : option string :=
  serializeToString H <$> currentMarkup st.

(** [addToHistory] as created by the render that saw the index
    [renderedIndex]: the slice uses the index of that render, the two
    state updaters work on the pending state. *)
Definition addToHistoryFrom (renderedIndex : Z) (st : EditorState)
  : EditorState :=
  match getCurrentSVGString st with
  | None => st
  | Some content =>
      if String.eqb content "" then st
      else
        let newHistory :=
          (slice0 (history st) (renderedIndex + 1) ++ [content])%list in
        set_historyIndex (historyIndex st + 1) (set_history newHistory st)
  end.

(** A commit by a handler that has not committed before in the same
    event: the rendered index is the current one. *)
Definition addToHistory (st : EditorState) : EditorState :=
  addToHistoryFrom (historyIndex st) st.

Definition deselect (st : EditorState) : EditorState :=
  set_selectionBBox None (set_controlPoints [] (set_selectedElements [] st)).

(** [restoreState] while the component is mounted, on a snapshot whose
    parsed root carries a [style]: [handleUndo] and [handleRedo] hand it
    snapshots of the history, which the serializer wrote from a mounted
    root. *)
Definition restoreState (content : string) (st : EditorState) : EditorState :=
  let newSvg := parseFromString H content in
  let newRoot := setStyle (setStyle (markup_root newSvg) "display" "block")
                          "overflow" "visible" in
  let st := mountMarkup (mkSvgMarkup newRoot (markup_children newSvg)) st in
  deselect st.

(** [history[i]] handed to [restoreState]; a missing entry would reach the
    parser as the text of [undefined]. *)
Definition historyEntry (st : EditorState) (i : Z) : string :=
  default "undefined" (at_index (history st) i).

Definition handleUndo (st : EditorState) : EditorState :=
  if (historyIndex st >? 0)%Z then
    let newIndex := (historyIndex st - 1)%Z in
    restoreState (historyEntry st newIndex) (set_historyIndex newIndex st)
  else st.

Definition handleRedo (st : EditorState) : EditorState :=
  if (historyIndex st <? Z.of_nat (length (history st)) - 1)%Z then
    let newIndex := (historyIndex st + 1)%Z in
    restoreState (historyEntry st newIndex) (set_historyIndex newIndex st)
  else st.

(** The effect that runs when the [svgContent] prop changes. The body of
    its [try] writes the size and the [viewBox] to the parsed root, then
    sets two properties of [newSvg.style]; on a root without a [style]
    that assignment throws, the [catch] logs the error, and the parsed
    root, which is not mounted yet, is dropped with what was written to
    it: the state is the one the reset before the [try] has left. *)
Definition loadSvgContent (svgContent : option string) (st : EditorState)
  : EditorState :=
  if negb (Js.truthy svgContent) then st
  else
    let st := deselect st in
    let st := set_historyIndex (-1) (set_history [] st) in
    let newSvg := parseFromString H (default "" svgContent) in
    let r := markup_root newSvg in
    if negb (String.eqb (Js.toLowerCase (tagName r)) "svg") then st
    else if negb (hasStyle H r) then st
    else
      let r := setAttribute r "width" "100%" in
      let r := setAttribute r "height" "100%" in
      let r :=
        if negb (hasAttribute r "viewBox") then
          let w := Js.or_default (getAttribute r "width") "500" in
          let h := Js.or_default (getAttribute r "height") "500" in
          setAttribute r "viewBox"
            ("0 0 " ++ JsString H (parseFloat H w) ++ " "
                    ++ JsString H (parseFloat H h))
        else r in
      let r := setStyle (setStyle r "display" "block") "overflow" "visible" in
      let newSvg := mkSvgMarkup r (markup_children newSvg) in
      let st := mountMarkup newSvg st in
      let initialContent := serializeToString H newSvg in
      set_historyIndex 0 (set_history [initialContent] st).

(* =================================================================== *)
(** ** Pointer down                                                     *)
(* =================================================================== *)

(** The element a drawing tool creates at [pt], before the text tool asks
    for its content. *)
Definition newShape (tool : ToolType) (color : string) (pt : Point) : Element :=
  let tagName :=
    match tool with
    | ToolRect => "rect"
    | ToolCircle => "ellipse"
    | ToolText => "text"
    | _ => "line"
    end in
  let newEl := createElementNS tagName in
  let newEl :=
    match tool with
    | ToolText => setAttribute newEl "fill" color
    | _ =>
        let newEl := setAttribute newEl "stroke" color in
        let newEl := setAttribute newEl "stroke-width" "2" in
        setAttribute newEl "fill" "none"
    end in
  match tool with
  | ToolLine =>
      let newEl := setAttribute newEl "x1" (JsString H (pt_x pt)) in
      let newEl := setAttribute newEl "y1" (JsString H (pt_y pt)) in
      let newEl := setAttribute newEl "x2" (JsString H (pt_x pt)) in
      setAttribute newEl "y2" (JsString H (pt_y pt))
  | ToolRect =>
      let newEl := setAttribute newEl "x" (JsString H (pt_x pt)) in
      let newEl := setAttribute newEl "y" (JsString H (pt_y pt)) in
      let newEl := setAttribute newEl "width" "0" in
      setAttribute newEl "height" "0"
  | ToolCircle =>
      let newEl := setAttribute newEl "cx" (JsString H (pt_x pt)) in
      let newEl := setAttribute newEl "cy" (JsString H (pt_y pt)) in
      let newEl := setAttribute newEl "rx" "0" in
      setAttribute newEl "ry" "0"
  | _ => newEl
  end.

(** The text element once the prompt has returned [text]. *)
Definition newText (newEl : Element) (text : string) (pt : Point) : Element :=
  let newEl := setTextContent newEl text in
  let newEl := setAttribute newEl "x" (JsString H (pt_x pt)) in
  let newEl := setAttribute newEl "y" (JsString H (pt_y pt)) in
  let newEl := setAttribute newEl "font-size" "16" in
  let newEl := setAttribute newEl "font-family" "sans-serif" in
  let newEl := setAttribute newEl "text-anchor" "middle" in
  setAttribute newEl "dominant-baseline" "middle".

(** The control points of the object [id]. *)
Definition controlPointsOf (st : EditorState) (id : nat) : list ControlPoint :=
  match heap st !! id with
  | Some el => parseControlPoints H el
  | None => []
  end.

(** [startTransformsMapRef.current.clear()] followed by one [set] per
    element of [ids]. *)
Definition captureTransforms (ids : list nat) (st : EditorState)
  : EditorState :=
  set_startTransformsMap
    (foldl (λ m id,
            match heap st !! id with
            | Some el => <[id := getElementTransform H el]> m
            | None => m
            end) ∅ ids)
    st.

(** The selection after a click on [target] with the selection [sel]. *)
Definition clickSelection (isCtrl : bool) (sel : list nat) (target : nat)
  : list nat :=
  if isCtrl then
    if bool_decide (target ∈ sel)
    then filter (λ el, el ≠ target) sel
    else (sel ++ [target])%list
  else
    if negb (bool_decide (target ∈ sel)) then [target] else sel.

Definition isValidShape (st : EditorState) (id : nat) : bool :=
  match heap st !! id with
  | Some el => bool_decide (Js.toLowerCase (tagName el) ∈ validShapeTags)
  | None => false
  end.

(** [handleMouseDownCanvas]; [answer] is what [prompt] returns when the
    text tool asks. *)
Definition handleMouseDownCanvas (e : MouseEvent) (answer : option string)
           (st : EditorState) : EditorState :=
  let pt := getSVGPoint st (clientX e) (clientY e) in
  match tool st with
  | ToolSelect =>
      match target e with
      | Some target =>
          if (svgContains st target && isValidShape st target)%bool then
            let isCtrl := (ctrlKey e || metaKey e)%bool in
            let newSelection :=
              clickSelection isCtrl (selectedElements st) target in
            let st := set_selectedElements newSelection st in
            let st :=
              match newSelection with
              | [only] => set_controlPoints (controlPointsOf st only) st
              | _ => set_controlPoints [] st
              end in
            let st := updateSelectionBBox newSelection st in
            let st := set_dragMode DragMove st in
            let st := set_startPoint (Some pt) st in
            let st := set_didChange false st in
            captureTransforms newSelection st
          else set_dragMode DragNone (deselect st)
      | None => set_dragMode DragNone (deselect st)
      end
  | tool =>
      match mount st with
      | None => st
      | Some _ =>
          let st := set_isDrawing true st in
          let st := set_didChange false st in
          let st := set_startPoint (Some pt) st in
          let st := deselect st in
          let color := currentHexColor st in
          let newEl := newShape tool color pt in
          match tool with
          | ToolText =>
              if Js.truthy answer then
                let newEl := newText newEl (default "" answer) pt in
                let '(st, id) := allocElement newEl st in
                let st := appendChild id st in
                let st := addToHistory st in
                let st := set_selectedElements [id] st in
                let st := set_controlPoints (parseControlPoints H newEl) st in
                let st := updateSelectionBBox [id] st in
                let st := set_isDrawing false st in
                set_tool ToolSelect st
              else set_isDrawing false st
          | _ =>
              let '(st, id) := allocElement newEl st in
              let st := appendChild id st in
              set_currentDrawElement (Some id) st
          end
      end
  end.

Definition handleBBoxMouseDown (e : MouseEvent) (st : EditorState)
  : EditorState :=
  match tool st with
  | ToolSelect =>
      let st := set_dragMode DragMove st in
      let st := set_startPoint (Some (getSVGPoint st (clientX e) (clientY e))) st in
      let st := set_didChange false st in
      captureTransforms (selectedElements st) st
  | _ => st
  end.

Definition handleRotateMouseDown (e : MouseEvent) (st : EditorState)
  : EditorState :=
  match tool st, selectionBBox st with
  | ToolSelect, Some bbox =>
      let st := set_dragMode DragRotate st in
      let st := set_startPoint (Some (getSVGPoint st (clientX e) (clientY e))) st in
      let st := set_didChange false st in
      let st := set_rotationCenter (Some (mkPoint (bb_cx bbox) (bb_cy bbox))) st in
      captureTransforms (selectedElements st) st
  | _, _ => st
  end.

Definition handleVertexMouseDown (idx : nat) (st : EditorState)
  : EditorState :=
  let st := set_dragMode DragVertex st in
  let st := set_isDraggingPoint (Some idx) st in
  set_didChange false st.

(* =================================================================== *)
(** ** Pointer move                                                     *)
(* =================================================================== *)

(** The [forEach] of the move branch: every selected element with a
    captured transform gets it back with the translate shifted. *)
Definition moveElement (dx dy : float) (st : EditorState) (id : nat)
  : EditorState :=
  match startTransformsMap st !! id with
  | Some startTx =>
      mutate id (λ el, setElementTransform H el (translateBy startTx dx dy)) st
  | None => st
  end.

Definition moveBranch (pt : Point) (st : EditorState) : EditorState :=
  match dragMode st, selectedElements st, startPoint st with
  | DragMove, _ :: _, Some start =>
      let st := set_didChange true st in
      let dx := (pt_x pt - pt_x start)%float in
      let dy := (pt_y pt - pt_y start)%float in
      let st := foldl (moveElement dx dy) st (selectedElements st) in
      updateSelectionBBox (selectedElements st) st
  | _, _, _ => st
  end.

Definition rotateElement (angleDelta cx cy : float) (st : EditorState)
           (id : nat) : EditorState :=
  match startTransformsMap st !! id with
  | Some startTx =>
      mutate id (λ el, setElementTransform H el
                         (mkTransformData (tx startTx) (ty startTx)
                                          (rotation startTx + angleDelta)
                                          cx cy)) st
  | None => st
  end.

Definition rotateBranch (pt : Point) (st : EditorState) : EditorState :=
  match dragMode st, selectedElements st, startPoint st, rotationCenter st with
  | DragRotate, _ :: _, Some start, Some center =>
      let st := set_didChange true st in
      let cx := pt_x center in
      let cy := pt_y center in
      let angleNow := Math_atan2 H (pt_y pt - cy) (pt_x pt - cx) in
      let angleStart := Math_atan2 H (pt_y start - cy) (pt_x start - cx) in
      let angleDelta := ((angleNow - angleStart) * (180 / Math_PI H))%float in
      let st := foldl (rotateElement angleDelta cx cy) st (selectedElements st) in
      updateSelectionBBox (selectedElements st) st
  | _, _, _, _ => st
  end.

(** The pending shape grown from [start] to [pt]. *)
Definition growShape (tool : ToolType) (shift : bool) (start pt : Point)
           (el : Element) : Element :=
  match tool with
  | ToolLine =>
      let '(x2, y2) :=
        if shift then
          let dx := (pt_x pt - pt_x start)%float in
          let dy := (pt_y pt - pt_y start)%float in
          let angle := Math_atan2 H dy dx in
          let snapAngle :=
            (Math_round H (angle / (Math_PI H / 4)) * (Math_PI H / 4))%float in
          let dist := Math_sqrt H (dx * dx + dy * dy) in
          ((pt_x start + dist * Math_cos H snapAngle)%float,
           (pt_y start + dist * Math_sin H snapAngle)%float)
        else (pt_x pt, pt_y pt) in
      setAttribute (setAttribute el "x2" (JsString H x2)) "y2" (JsString H y2)
  | ToolRect =>
      let width := (pt_x pt - pt_x start)%float in
      let height := (pt_y pt - pt_y start)%float in
      let '(width, height) :=
        if shift then
          let size := Js.Math_max (Js.Math_abs width) (Js.Math_abs height) in
          ((size * (if Js.lt width 0 then -1 else 1))%float,
           (size * (if Js.lt height 0 then -1 else 1))%float)
        else (width, height) in
      let el := setAttribute el "x"
                  (JsString H (if Js.lt width 0 then pt_x start + width
                               else pt_x start)%float) in
      let el := setAttribute el "y"
                  (JsString H (if Js.lt height 0 then pt_y start + height
                               else pt_y start)%float) in
      let el := setAttribute el "width" (JsString H (Js.Math_abs width)) in
      setAttribute el "height" (JsString H (Js.Math_abs height))
  | ToolCircle =>
      let rx := Js.Math_abs (pt_x pt - pt_x start) in
      let ry := Js.Math_abs (pt_y pt - pt_y start) in
      let '(rx, ry) :=
        if shift then let r := Js.Math_max rx ry in (r, r) else (rx, ry) in
      setAttribute (setAttribute el "rx" (JsString H rx)) "ry" (JsString H ry)
  | _ => el
  end.

Definition drawBranch (e : MouseEvent) (pt : Point) (st : EditorState)
  : EditorState :=
  match isDrawing st, currentDrawElement st, startPoint st with
  | true, Some el, Some start =>
      let st := set_didChange true st in
      mutate el (growShape (tool st) (shiftKey e) start pt) st
  | _, _, _ => st
  end.

Definition handleMouseMove (e : MouseEvent) (st : EditorState) : EditorState :=
  let pt := getSVGPoint st (clientX e) (clientY e) in
  match dragMode st, isDraggingPoint st, selectedElements st with
  | DragVertex, Some idx, [el] =>
      let obj := default (createElementNS "") (heap st !! el) in
      let localPt := getLocalPoint st (clientX e) (clientY e) obj in
      let st := set_didChange true st in
      match updateElementShape H obj idx (pt_x localPt) (pt_y localPt) with
      | Some obj' =>
          let st := mutate el (λ _, obj') st in
          let st := set_controlPoints (controlPointsOf st el) st in
          updateSelectionBBox [el] st
      | None => st
      end
  | _, _, _ =>
      let st := moveBranch pt st in
      let st := rotateBranch pt st in
      drawBranch e pt st
  end.

(* =================================================================== *)
(** ** Pointer up                                                       *)
(* =================================================================== *)

(** [isTiny]; the tag is compared as it is. *)
Definition isTiny (el : Element) : bool :=
  ((String.eqb (tagName el) "circle" && Js.lt (numAttr H el "r") 1)
   || (String.eqb (tagName el) "ellipse"
       && (Js.lt (numAttr H el "rx") 1 || Js.lt (numAttr H el "ry") 1))
   || (String.eqb (tagName el) "rect" && Js.lt (numAttr H el "width") 1)
   || (String.eqb (tagName el) "line"
       && Js.lt (Js.Math_abs (numAttr H el "x1" - numAttr H el "x2")) 1
       && Js.lt (Js.Math_abs (numAttr H el "y1" - numAttr H el "y2")) 1))%bool.

Definition finishDrag (renderedIndex : Z) (st : EditorState) : EditorState :=
  match dragMode st with
  | DragNone => st
  | _ =>
      let st := set_dragMode DragNone st in
      let st := set_isDraggingPoint None st in
      if didChange st then
        let st := addToHistoryFrom renderedIndex st in
        let st := set_didChange false st in
        updateSelectionBBox (selectedElements st) st
      else st
  end.

Definition finishDrawing (renderedIndex : Z) (st : EditorState)
  : EditorState :=
  if isDrawing st then
    let st := set_isDrawing false st in
    match currentDrawElement st with
    | Some el =>
        let obj := default (createElementNS "") (heap st !! el) in
        let st :=
          if isTiny obj then removeChild el st
          else
            let st := set_selectedElements [el] st in
            let st := set_controlPoints (parseControlPoints H obj) st in
            let st := updateSelectionBBox [el] st in
            let st := addToHistoryFrom renderedIndex st in
            set_tool ToolSelect st in
        set_currentDrawElement None st
    | None => st
    end
  else st.

(** Both halves of [handleMouseUp] call the [addToHistory] of the same
    render. *)
Definition handleMouseUp (st : EditorState) : EditorState :=
  let renderedIndex := historyIndex st in
  finishDrawing renderedIndex (finishDrag renderedIndex st).

(* =================================================================== *)
(** ** Text editing, deletion, style, zoom                              *)
(* =================================================================== *)

(** [handleDoubleClick]; [answer] is what [prompt] returns. *)
Definition handleDoubleClick (e : MouseEvent) (answer : option string)
           (st : EditorState) : EditorState :=
  match tool st, target e with
  | ToolSelect, Some target =>
      match heap st !! target with
      | Some obj =>
          if String.eqb (Js.toLowerCase (tagName obj)) "text" then
            let currentText := textContent obj in
            match answer with
            | Some newText =>
                if negb (String.eqb newText currentText) then
                  let st := mutate target (λ el, setTextContent el newText) st in
                  let st :=
                    if (bool_decide (target ∈ selectedElements st)
                        && Nat.eqb (length (selectedElements st)) 1)%bool
                    then
                      let st := set_controlPoints (controlPointsOf st target) st in
                      updateSelectionBBox [target] st
                    else st in
                  addToHistory st
                else st
            | None => st
            end
          else st
      | None => st
      end
  | _, _ => st
  end.

Definition handleDelete (st : EditorState) : EditorState :=
  match selectedElements st with
  | [] => st
  | _ =>
      let st := foldl (λ st el, removeChild el st) st (selectedElements st) in
      addToHistory (deselect st)
  end.

(** [isDashed], as [handleToggleDash] computes it for one element. *)
Definition isDashed (svgEl : Element) : bool :=
  let attrDash := getAttribute svgEl "stroke-dasharray" in
  let styleDash := getStyle svgEl "stroke-dasharray" in
  ((Js.truthy attrDash && negb (bool_decide (attrDash = Some "none")))
   || (negb (String.eqb styleDash "") && negb (String.eqb styleDash "none")))%bool.

(** One round of the [forEach] of [handleToggleDash]. *)
Definition toggleDash (svgEl : Element) : Element :=
  if isDashed svgEl then
    setStyle (setAttribute svgEl "stroke-dasharray" "none")
             "stroke-dasharray" "none"
  else
    setStyle (setAttribute svgEl "stroke-dasharray" "4 4")
             "stroke-dasharray" "4 4".

Definition handleToggleDash (st : EditorState) : EditorState :=
  match selectedElements st with
  | [] => st
  | _ =>
      let st := foldl (λ st el, mutate el toggleDash st) st (selectedElements st) in
      addToHistory st
  end.

Definition handleChangeStrokeWidth (width : string) (st : EditorState)
  : EditorState :=
  match selectedElements st with
  | [] => st
  | _ =>
      let st :=
        foldl (λ st el,
               mutate el (λ el, setStyle (setAttribute el "stroke-width" width)
                                         "stroke-width" (width ++ "px")) st)
              st (selectedElements st) in
      addToHistory st
  end.

Definition handleZoomIn (st : EditorState) : EditorState :=
  set_scale (Js.Math_min (scale st + 0.2) 3) st.

Definition handleZoomOut (st : EditorState) : EditorState :=
  set_scale (Js.Math_max (scale st - 0.2) 0.5) st.

Definition handleResetZoom (st : EditorState) : EditorState :=
  set_scale 1 st.

(* =================================================================== *)
(** ** The editor as a transition system                                *)
(* =================================================================== *)

(** What can happen to the mounted editor. *)
Inductive Event :=
| SvgContentChanged (svgContent : option string)
| ColorChanged (color : string)
| ToolPicked (t : ToolType)
| MouseDownCanvas (e : MouseEvent) (answer : option string)
| BBoxMouseDown (e : MouseEvent)
| RotateMouseDown (e : MouseEvent)
| VertexMouseDown (idx : nat)
| MouseMove (e : MouseEvent)
| MouseUp
| DoubleClick (e : MouseEvent) (answer : option string)
| Undo
| Redo
| Delete
| ToggleDash
| ChangeStrokeWidth (width : string)
| ZoomIn
| ZoomOut
| ResetZoom.

Definition step (st : EditorState) (ev : Event) : EditorState :=
  match ev with
  | SvgContentChanged c => loadSvgContent c st
  | ColorChanged c => set_currentHexColor c st
  | ToolPicked t => set_tool t st
  | MouseDownCanvas e a => handleMouseDownCanvas e a st
  | BBoxMouseDown e => handleBBoxMouseDown e st
  | RotateMouseDown e => handleRotateMouseDown e st
  | VertexMouseDown idx => handleVertexMouseDown idx st
  | MouseMove e => handleMouseMove e st
  | MouseUp => handleMouseUp st
  | DoubleClick e a => handleDoubleClick e a st
  | Undo => handleUndo st
  | Redo => handleRedo st
  | Delete => handleDelete st
  | ToggleDash => handleToggleDash st
  | ChangeStrokeWidth w => handleChangeStrokeWidth w st
  | ZoomIn => handleZoomIn st
  | ZoomOut => handleZoomOut st
  | ResetZoom => handleResetZoom st
  end.

Definition run (st : EditorState) (evs : list Event) : EditorState :=
  foldl step st evs.

(** The state of a freshly mounted component. *)
Definition initialState (color : string) : EditorState :=
  mkEditorState 1 ToolSelect ∅ 0 None [] [] None [] (-1) DragNone None false
                None None false color None ∅.

Definition reachable (st : EditorState) : Prop :=
  ∃ color evs, st = run (initialState color) evs.

End Handlers.

(* ===================================================================== *)
(** ** Notions used to state the properties                               *)
(* ===================================================================== *)

(** The document [restoreState] mounts for a snapshot: the parsed one, its
    root shown as a block with visible overflow. *)
Definition restoredMarkup (H : Host) (content : string) : SvgMarkup :=
  let newSvg := parseFromString H content in
  mkSvgMarkup (setStyle (setStyle (markup_root newSvg) "display" "block")
                        "overflow" "visible")
              (markup_children newSvg).

(** The control points are those of the only selected shape, or there are
    none. *)
Definition pointsMatchSelection (H : Host) (st : EditorState) : Prop :=
  controlPoints st
  = match selectedElements st with
    | [id] => controlPointsOf H st id
    | _ => []
    end.

(** There are control points only when one shape is selected. *)
Definition pointsNeedOneShape (st : EditorState) : Prop :=
  match selectedElements st with
  | [_] => True
  | _ => controlPoints st = []
  end.

(** The shapes of the mounted document were all created before the next
    element is. *)
Definition treeIsOlder (st : EditorState) : Prop :=
  ∀ t, mount st = Some t → ∀ j, j ∈ children t → j < nextId st.

(** The part of the state [treeIsOlder] talks about. *)
Definition treeView (st : EditorState) : option SvgTree * nat :=
  (mount st, nextId st).

(** The part of the state the selection invariants talk about. *)
Definition selectionView (st : EditorState) : list nat * list ControlPoint :=
  (selectedElements st, controlPoints st).

(** What one event can do to the selection and the control points: leave
    both alone; keep the selection and recompute the points from it; or
    set a selection (none, one shape, or the result of a click on the old
    one) together with the points that go with it. *)
Definition selectionEffect (H : Host) (st st' : EditorState) : Prop :=
  (selectedElements st' = selectedElements st
   ∧ controlPoints st' = controlPoints st)
  ∨ (selectedElements st' = selectedElements st ∧ pointsMatchSelection H st')
  ∨ (pointsMatchSelection H st'
     ∧ (selectedElements st' = []
        ∨ (∃ id, selectedElements st' = [id])
        ∨ (∃ isCtrl target,
             selectedElements st'
             = clickSelection isCtrl (selectedElements st) target))).

(** An edit as the history sees it: a change of the editor that does not
    touch the snapshots or the index, after which the document serializes
    to a non-empty text. *)
Definition editsDocument (H : Host) (edit : EditorState → EditorState)
           (st : EditorState) : Prop :=
  history (edit st) = history st
  ∧ historyIndex (edit st) = historyIndex st
  ∧ ∃ content, getCurrentSVGString H (edit st) = Some content ∧ content ≠ "".

(** One committed edit. *)
Definition commitEdit (H : Host) (st : EditorState)
           (edit : EditorState → EditorState) : EditorState :=
  addToHistory H (edit st).

(** Every edit of the sequence, made on the state the earlier ones leave,
    is an edit of the document. *)
Fixpoint allCommitted (H : Host) (edits : list (EditorState → EditorState))
         (st : EditorState) : Prop :=
  match edits with
  | [] => True
  | edit :: rest =>
      editsDocument H edit st ∧ allCommitted H rest (commitEdit H st edit)
  end.

(* ===================================================================== *)
(** ** The generation service: from the model's reply to SVG markup       *)
(* ===================================================================== *)

Module Gemini.

Record DrawingOptions := mkDrawingOptions {
  strokeColor : string;
  strokeWidth : string;
  annotations : option string
}.

Definition newline : string := String (ascii_of_nat 10) "".

Definition colorMap : list (string * string) :=
  [("black", "#000000"); ("blue", "#2563EB"); ("red", "#DC2626");
   ("green", "#16A34A"); ("orange", "#EA580C")].

Definition widthMap : list (string * string) :=
  [("thin", "1"); ("medium", "2"); ("thick", "4")].

Fixpoint lookupKey (m : list (string * string)) (k : string) : option string :=
  match m with
  | [] => None
  | (k', v) :: rest => if String.eqb k k' then Some v else lookupKey rest k
  end.

Definition buildPrompt (prompt : string) (options : option DrawingOptions)
  : string :=
  match options with
  | None => prompt
  | Some options =>
      let color := Js.or_default (lookupKey colorMap (strokeColor options)) "#000000" in
      let width := Js.or_default (lookupKey widthMap (strokeWidth options)) "2" in
      let fullPrompt :=
        prompt ++ newline ++ newline ++ "[CẤU HÌNH KỸ THUẬT]" ++ newline
               ++ "- Màu nét vẽ: " ++ color ++ newline
               ++ "- Độ dày nét: " ++ width ++ "px" in
      let fullPrompt :=
        if (Js.truthy (annotations options)
            && negb (String.eqb (Js.trim (default "" (annotations options))) ""))%bool
        then fullPrompt ++ newline ++ "- Ghi chú/Số đo cần thêm: "
                        ++ default "" (annotations options)
        else fullPrompt in
      fullPrompt ++ newline ++ newline
        ++ "LƯU Ý CUỐI: Hãy cố gắng phân biệt nét đứt/liền tốt nhất có thể. Người dùng có công cụ để sửa lại thủ công nếu sai, nhưng hãy làm tốt nhất từ đầu."
  end.

(** What awaiting [ai.models.generateContent] gives: an exception with
    its [message], or a response with its [text]. *)
Inductive Upstream :=
| Throws (message : option string)
| Responds (text : option string).

(** The promise returned by [generateGeometrySvg]. *)
Inductive Outcome :=
| Resolved (svg : string)
| Rejected (message : string).

Definition msgNoKey : string :=
  "Vui lòng nhập Gemini API Key để sử dụng tính năng này.".
Definition msgNoReply : string := "Không nhận được phản hồi từ AI.".
Definition msgNotSvg : string :=
  "AI không trả về mã SVG hợp lệ. Vui lòng thử lại.".
Definition msgFallback : string := "Đã xảy ra lỗi khi tạo hình.".

(** The three [replace] calls and the [trim]. *)
Definition stripFences (text : string) : string :=
  Js.trim (Js.remove_all "```"
             (Js.remove_all "```svg" (Js.remove_all "```xml" text))).

(** The body of the [try] once the reply has arrived: the markup, or the
    message of the error it throws. *)
Definition extractSvg (text : option string) : string + string :=
  if negb (Js.truthy text) then inr msgNoReply
  else
    let text := stripFences (default "" text) in
    if (negb (Js.startsWith text "<svg") || negb (Js.endsWith text "</svg>"))%bool
    then
      match Js.indexOf text "<svg", Js.indexOf text "</svg>" with
      | Some startIndex, Some endIndex =>
          inl (Js.substring text startIndex (endIndex + 6))
      | _, _ => inr msgNotSvg
      end
    else inl text.

(** The [catch]: whatever was thrown leaves as a new error with the same
    message, or with the fallback when there is none. *)
Definition rethrow (message : option string) : Outcome :=
  Rejected (Js.or_default message msgFallback).

Definition generateGeometrySvg (prompt : string)
           (options : option DrawingOptions)
           (userApiKey envApiKey : option string)
           (generateContent : string → Upstream) : Outcome :=
  let hasKey := (Js.truthy userApiKey || Js.truthy envApiKey)%bool in
  if negb hasKey then Rejected msgNoKey
  else
    let fullPrompt := buildPrompt prompt options in
    match generateContent fullPrompt with
    | Throws message => rethrow message
    | Responds text =>
        match extractSvg text with
        | inl svg => Resolved svg
        | inr message => rethrow (Some message)
        end
    end.

(** Following the specification's words: the text from the first opening
    root tag through the last closing root tag. *)
Fixpoint lastIndexFrom (p : string) (pos : nat) (s : string) : option nat :=
  match s with
  | EmptyString => None
  | String _ s' =>
      match lastIndexFrom p (S pos) s' with
      | Some i => Some i
      | None => if String.prefix p s then Some pos else None
      end
  end.

Definition firstToLast_spec (text : string) : option string :=
  match Js.indexOf text "<svg", lastIndexFrom "</svg>" 0 text with
  | Some a, Some b => Some (Js.substring text a (b + 6))
  | _, _ => None
  end.

End Gemini.

(* ===================================================================== *)
(** ** A host to run the definitions on                                   *)
(* ===================================================================== *)

(** A small stand-in for the browser: decimal number formatting and parsing
    for numbers with few digits, squares and square roots but no
    trigonometry, a serializer and a parser for flat markup without
    escapes, and a layout in which client coordinates are document
    coordinates. *)
Module TestHost.

Definition quote : string := String (ascii_of_nat 34) "".

(** *** Numbers *)

Definition digitsZ (s : string) : Z :=
  fold_left (λ acc c, (acc * 10 + (Z.of_nat (nat_of_ascii c) - 48))%Z)
            (list_ascii_of_string s) 0%Z.

Definition floatOfZ (z : Z) : float := PrimFloat.of_uint63 (Uint63.of_Z z).

(** The number at the head of [s]: optional sign, digits, optional
    fraction. *)
Definition parseFloat (s : string) : float :=
  let s := Js.trimStart s in
  let '(neg, s) :=
    match s with
    | String "-" r => (true, r)
    | String "+" r => (false, r)
    | _ => (false, s)
    end in
  let '(int_part, r) := span Js.is_digit s in
  let frac_part :=
    match r with
    | String "." r' => fst (span Js.is_digit r')
    | _ => ""
    end in
  if (String.eqb int_part "" && String.eqb frac_part "")%bool then nan
  else
    let v := (floatOfZ (digitsZ (int_part ++ frac_part))
              / floatOfZ (10 ^ Z.of_nat (String.length frac_part)))%float in
    if neg then (- v)%float else v.

(** [m * 2^e * 10^k], rounded to the nearest integer. *)
Definition scaled (m : positive) (e : Z) (k : nat) : Z :=
  let n := (Z.pos m * 10 ^ Z.of_nat k)%Z in
  if (0 <=? e)%Z then (n * 2 ^ e)%Z
  else ((n + 2 ^ (- e - 1)) / 2 ^ (- e))%Z.

Definition padded (k : nat) (s : string) : string :=
  String.concat "" (replicate (k - String.length s) "0") ++ s.

(** The decimal text of [n / 10^k]. *)
Definition decimalText (n : Z) (k : nat) : string :=
  let digits := padded (S k) (pretty (Z.to_N n)) in
  let cut := String.length digits - k in
  let int_part := String.substring 0 cut digits in
  let frac_part := String.substring cut k digits in
  if Nat.eqb k 0 then int_part else int_part ++ "." ++ frac_part.

(** The first number of fraction digits, below [fuel], whose text reads
    back as [x]. *)
Fixpoint shortest (x : float) (m : positive) (e : Z) (k fuel : nat)
  : option string :=
  match fuel with
  | O => None
  | S fuel' =>
      let n := scaled m e k in
      if ((n <? 2 ^ 53)%Z && PrimFloat.eqb (parseFloat (decimalText n k)) x)%bool
      then Some (decimalText n k)
      else shortest x m e (S k) fuel'
  end.

Definition JsString (x : float) : string :=
  match Prim2SF x with
  | S754_nan => "NaN"
  | S754_zero _ => "0"
  | S754_infinity s => if s then "-Infinity" else "Infinity"
  | S754_finite s m e =>
      match shortest (PrimFloat.abs x) m e 0 20 with
      | Some t => if s then "-" ++ t else t
      | None => "NaN"
      end
  end.

Definition Math_pow (x y : float) : float :=
  if PrimFloat.eqb y 2 then (x * x)%float else nan.

(** *** Markup *)

Definition attrText (kv : string * string) : string :=
  " " ++ fst kv ++ "=" ++ quote ++ snd kv ++ quote.

Definition styleText (m : gmap string string) : string :=
  match map_to_list m with
  | [] => ""
  | l => attrText ("style", Js.join ";" (map (λ kv, fst kv ++ ":" ++ snd kv) l))
  end.

Definition elementText (el : Element) (inner : string) : string :=
  "<" ++ tagName el
      ++ String.concat "" (map attrText (map_to_list (attributes el)))
      ++ styleText (style el) ++ ">"
      ++ textContent el ++ inner
      ++ "</" ++ tagName el ++ ">".

Definition serializeToString (m : SvgMarkup) : string :=
  elementText (markup_root m)
    (String.concat "" (map (λ el, elementText el "") (markup_children m))).

Definition isNot (c : ascii) : ascii → bool := λ x, negb (Ascii.eqb x c).

(** [k:v;k:v] into a style map. *)
Definition parseStyle (v : string) : gmap string string :=
  list_to_map
    (map (λ decl, let '(k, r) := span (isNot ":") decl in
                  (k, match r with String _ r' => r' | _ => "" end))
         (tokens_from (λ c, Ascii.eqb c ";") "" v)).

Fixpoint parseAttrs (fuel : nat) (s : string)
  : option (list (string * string) * string) :=
  match fuel with
  | O => None
  | S fuel' =>
      match s with
      | String ">" r => Some ([], r)
      | String " " r =>
          let '(k, r1) := span (isNot "=") r in
          match r1 with
          | String "=" (String q r2) =>
              let '(v, r3) := span (isNot q) r2 in
              match r3 with
              | String _ r4 =>
                  match parseAttrs fuel' r4 with
                  | Some (kvs, rest) => Some ((k, v) :: kvs, rest)
                  | None => None
                  end
              | _ => None
              end
          | _ => None
          end
      | _ => None
      end
  end.

Definition isNameChar (c : ascii) : bool :=
  negb (Ascii.eqb c " " || Ascii.eqb c ">" || Ascii.eqb c "/")%bool.

(** An opening tag: the element without its content, and what follows. *)
Definition parseOpen (s : string) : option (Element * string) :=
  match s with
  | String "<" r =>
      let '(name, r1) := span isNameChar r in
      match parseAttrs (S (String.length r1)) r1 with
      | Some (kvs, rest) =>
          let plain := filter (λ kv, fst kv ≠ "style") kvs in
          let styles :=
            match Gemini.lookupKey kvs "style" with
            | Some v => parseStyle v
            | None => ∅
            end in
          Some (mkElement name (list_to_map plain) styles "", rest)
      | None => None
      end
  | _ => None
  end.

Definition dropClose (name s : string) : option string :=
  let close := "</" ++ name ++ ">" in
  if String.prefix close s
  then Some (String.substring (String.length close)
                              (String.length s - String.length close) s)
  else None.

Fixpoint parseChildren (fuel : nat) (s : string)
  : option (list Element * string) :=
  match fuel with
  | O => None
  | S fuel' =>
      if String.prefix "</" s then Some ([], s)
      else
        match parseOpen s with
        | Some (el, r) =>
            let '(text, r1) := span (isNot "<") r in
            match dropClose (tagName el) r1 with
            | Some r2 =>
                match parseChildren fuel' r2 with
                | Some (els, rest) => Some (setTextContent el text :: els, rest)
                | None => None
                end
            | None => None
            end
        | None => None
        end
  end.

Definition parsererror : SvgMarkup :=
  mkSvgMarkup (createElementNS "parsererror") [].

Definition parseFromString (s : string) : SvgMarkup :=
  match parseOpen s with
  | Some (r, rest) =>
      match parseChildren (S (String.length rest)) rest with
      | Some (els, rest') =>
          match dropClose (tagName r) rest' with
          | Some "" => mkSvgMarkup r els
          | _ => parsererror
          end
      | None => parsererror
      end
  | None => parsererror
  end.

(** A root written without a prefix is in the namespace its [xmlns]
    attribute declares; the elements of the SVG and of the XHTML
    namespace have a [style]. *)
Definition hasStyle (el : Element) : bool :=
  match getAttribute el "xmlns" with
  | Some ns =>
      (String.eqb ns "http://www.w3.org/2000/svg"
       || String.eqb ns "http://www.w3.org/1999/xhtml")%bool
  | None => false
  end.

Definition host : Host :=
  mkHost JsString parseFloat PrimFloat.sqrt Math_pow
         (λ _ _, nan) (λ _, nan) (λ _, nan) (λ _, nan) 3.141592653589793
         serializeToString parseFromString
         (λ _ _ x y, Some (mkPoint x y))
         (λ _ _ _ x y, Some (mkPoint x y))
         (λ _ _ _, mkDOMRect 0 0 0 0)
         hasStyle.

End TestHost.


(** A document and a few editor states to run the definitions on. *)
Module Samples.

Definition svgText : string :=
  "<svg xmlns='http://www.w3.org/2000/svg' viewBox='0 0 500 500'>"
  ++ "<line x1='10' y1='10' x2='100' y2='100' stroke='#000000'></line>"
  ++ "<rect x='10' y='10' width='50' height='50' stroke='#000000'></rect>"
  ++ "<circle cx='200' cy='200' r='30' stroke-dasharray='4 4'></circle>"
  ++ "</svg>".

(** The editor once the document has been loaded. *)
Definition loaded : EditorState :=
  loadSvgContent TestHost.host (Some svgText) (initialState "#000000").

(** Its rectangle, [{x: 10, y: 10, width: 50, height: 50}]. *)
Definition rectEl : Element :=
  default (createElementNS "") (heap loaded !! 1).

(** Two edits of the document: dashing the line, thickening the
    rectangle. *)
Definition dashLine (st : EditorState) : EditorState :=
  mutate 0 toggleDash st.

Definition thickenRect (st : EditorState) : EditorState :=
  mutate 1 (λ el, setAttribute el "stroke-width" "4") st.

(** The editor after both edits have been committed. *)
Definition edited : EditorState :=
  foldl (commitEdit TestHost.host) loaded [dashLine; thickenRect].

(** The three shapes selected. *)
Definition allSelected : EditorState :=
  set_selectedElements [0; 1; 2] loaded.

(** The line and the rectangle selected: two solid shapes. *)
Definition solidSelected : EditorState :=
  set_selectedElements [0; 1] loaded.

(** A press on the line, a release, a press on the rectangle with the
    control key held: both are selected and a move drag has begun at
    [(30, 30)]. *)
Definition pressLine : MouseEvent := mkMouseEvent 20 20 (Some 0) false false false.
Definition pressRectCtrl : MouseEvent :=
  mkMouseEvent 30 30 (Some 1) true false false.

Definition dragging : EditorState :=
  run TestHost.host (initialState "#000000")
      [SvgContentChanged (Some svgText); MouseDownCanvas pressLine None;
       MouseUp; MouseDownCanvas pressRectCtrl None].

(** The line tool picked, and a short stroke from [(10, 10)] to
    [(10.5, 10.3)]. *)
Definition lineTool : EditorState := set_tool ToolLine loaded.
Definition strokeStart : MouseEvent := mkMouseEvent 10 10 None false false false.
Definition strokeEnd : MouseEvent :=
  mkMouseEvent 10.5 10.3 None false false false.

(** The pointer, moved by [(5, 7)]. *)
Definition moveTo : MouseEvent := mkMouseEvent 35 37 None false false false.

End Samples.

(* ===================================================================== *)
(** ** More notions used to state properties                              *)
(* ===================================================================== *)

(** The zoom factor and the history: what only the zoom buttons, the
    commits, undo, redo and a load may change. *)
Definition ledgerView (st : EditorState) : float * list string * Z :=
  (scale st, history st, historyIndex st).

(** What one event can do to the history: nothing; one commit at the
    current index; a move of the index inside the snapshots; a reset to no
    snapshot or to a single one. *)
Definition historyEffect (st st' : EditorState) : Prop :=
  (history st' = history st ∧ historyIndex st' = historyIndex st)
  ∨ (∃ content,
       history st'
       = (slice0 (history st) (historyIndex st + 1) ++ [content])%list
       ∧ historyIndex st' = (historyIndex st + 1)%Z)
  ∨ (history st' = history st
     ∧ (0 ≤ historyIndex st' < Z.of_nat (length (history st)))%Z)
  ∨ (history st' = [] ∧ historyIndex st' = (-1)%Z)
  ∨ (∃ content, history st' = [content] ∧ historyIndex st' = 0%Z).

(** The gesture under way: the drag mode and whether a shape is being
    drawn. *)
Definition gestureView (st : EditorState) : DragMode * bool :=
  (dragMode st, isDrawing st).

(** The events that are pointer presses. *)
Definition isPress (ev : Event) : bool :=
  match ev with
  | MouseDownCanvas _ _ | BBoxMouseDown _ | RotateMouseDown _
  | VertexMouseDown _ => true
  | _ => false
  end.

(** Every press of [evs] comes with the pointer up, and is followed by a
    release before the next press; [pressed] tells whether the pointer is
    down when [evs] begins. *)
Fixpoint pressesAlternate (pressed : bool) (evs : list Event) : bool :=
  match evs with
  | [] => true
  | ev :: rest =>
      if isPress ev then negb pressed && pressesAlternate true rest
      else
        match ev with
        | MouseUp => pressesAlternate false rest
        | _ => pressesAlternate pressed rest
        end
  end.

(** No gesture is under way when the pointer is up, and a drag and a
    drawing are never under way together. *)
Definition oneGesture (pressed : bool) (st : EditorState) : Prop :=
  (pressed = false → dragMode st = DragNone ∧ isDrawing st = false)
  ∧ (dragMode st = DragNone ∨ isDrawing st = false).

(** The attributes that hold the geometry of the shapes the editor
    knows. *)
Definition geometryAttrs : list string :=
  ["x1"; "y1"; "x2"; "y2"; "cx"; "cy"; "r"; "rx"; "ry"; "x"; "y"; "width";
   "height"; "points"; "d"].

(** [el'] is [el] with some of the attributes [names] rewritten. *)
Definition differOnlyIn (names : list string) (el el' : Element) : Prop :=
  tagName el' = tagName el ∧ style el' = style el
  ∧ textContent el' = textContent el
  ∧ ∀ a, a ∉ names → getAttribute el' a = getAttribute el a.

(** [{...startTx, rotation: startTx.rotation + angleDelta, cx, cy}]. *)
Definition rotateBy (startTx : TransformData) (angleDelta cx cy : float)
  : TransformData :=
  mkTransformData (tx startTx) (ty startTx) (rotation startTx + angleDelta)
                  cx cy.

(** What separates the numbers of a [points] attribute. *)
Definition pointSeparator (c : ascii) : bool :=
  (Js.is_white c || Ascii.eqb c ",")%bool.

(** No character of [s] is in the class [sep]. *)
Fixpoint freeOf (sep : ascii → bool) (s : string) : bool :=
  match s with
  | EmptyString => true
  | String c s' => negb (sep c) && freeOf sep s'
  end.

(** The text of the number [v] is one piece of a [points] attribute, and
    reads back as [v]. *)
Definition formatsAsToken (H : Host) (v : float) : Prop :=
  JsString H v ≠ ""
  ∧ freeOf pointSeparator (JsString H v) = true
  ∧ parseFloat H (JsString H v) = v.

(** The [points] attribute written for the vertices [pts]. *)
Definition pointsText (H : Host) (pts : list ControlPoint) : string :=
  Js.join " " (map (λ p, JsString H (cp_x p) ++ "," ++ JsString H (cp_y p))
                   pts).




(* ===================================================================== *)
(** ** Saving the drawing                                                 *)
(* ===================================================================== *)

Definition dquote : string := String (ascii_of_nat 34) "".

(** [xmlns="http://www.w3.org/2000/svg"]. *)
Definition svgNamespaceDecl : string :=
  "xmlns=" ++ dquote ++ "http://www.w3.org/2000/svg" ++ dquote.

(** What is left of [/^<svg[^>]+xmlns="http:\/\/www\.w3\.org\/2000\/svg"/]
    once [<svg] has been read: one or more characters other than [>], then
    the declaration. *)
Fixpoint declFollows (s : string) : bool :=
  match s with
  | EmptyString => false
  | String c s' =>
      if Ascii.eqb c ">" then false
      else (String.prefix svgNamespaceDecl s' || declFollows s')%bool
  end.

(** Whether [source.match] of that expression finds something. *)
Definition declaresNamespace (source : string) : bool :=
  match source with
  | String "<" (String "s" (String "v" (String "g" rest))) => declFollows rest
  | _ => false
  end.

(** [source.replace(/^<svg/, '<svg xmlns="http://www.w3.org/2000/svg"')]. *)
Definition addNamespace (source : string) : string :=
  match source with
  | String "<" (String "s" (String "v" (String "g" rest))) =>
      "<svg " ++ svgNamespaceDecl ++ rest
  | _ => source
  end.

Definition withNamespace (source : string) : string :=
  if negb (declaresNamespace source) then addNamespace source else source.

(** What [handleDownload] hands to the browser: the blob and the name of
    the file. *)
Record Download := mkDownload {
  blobText : string;
  blobType : string;
  fileName : string
}.

(** [handleDownload]; [now] is what [Date.now()] returns. *)
Definition handleDownload (H : Host) (now : float) (st : EditorState)
  : option Download :=
  match currentMarkup st with
  | None => None
  | Some svg =>
      let source := serializeToString H svg in
      let source := withNamespace source in
      Some (mkDownload source "image/svg+xml"
                       ("hinh-hoc-" ++ JsString H now ++ ".svg"))
  end.

(* ===================================================================== *)
(** ** The application shell                                              *)
(* ===================================================================== *)

(** [src/App.tsx]: the prompt form, the generation request and the list of
    past generations. *)
Module App.

Import Gemini.

(** [getColorCode]. *)
Definition getColorCode (color : string) : string :=
  if String.eqb color "blue" then "#2563EB"
  else if String.eqb color "red" then "#DC2626"
  else if String.eqb color "green" then "#16A34A"
  else if String.eqb color "orange" then "#EA580C"
  else "#000000".

(** The colours and the widths the form offers, one button each. *)
Definition palette : list string := ["black"; "blue"; "red"; "green"; "orange"].
Definition widths : list string := ["thin"; "medium"; "thick"].

Record HistoryItem := mkHistoryItem {
  id : string;
  item_prompt : string;
  svgContent : string;
  timestamp : float;
  options : option DrawingOptions
}.

(** The state hooks of [App]. *)
Record AppState := mkAppState {
  prompt : string;
  annotations : string;
  isLoading : bool;
  error : option string;
  currentSvg : option string;
  history : list HistoryItem;
  strokeColor : string;
  strokeWidth : string
}.

Definition set_prompt (v : string) (st : AppState) : AppState :=
  mkAppState v (annotations st) (isLoading st) (error st) (currentSvg st) (history st) (strokeColor st) (strokeWidth st).
Definition set_annotations (v : string) (st : AppState) : AppState :=
  mkAppState (prompt st) v (isLoading st) (error st) (currentSvg st) (history st) (strokeColor st) (strokeWidth st).
Definition set_isLoading (v : bool) (st : AppState) : AppState :=
  mkAppState (prompt st) (annotations st) v (error st) (currentSvg st) (history st) (strokeColor st) (strokeWidth st).
Definition set_error (v : option string) (st : AppState) : AppState :=
  mkAppState (prompt st) (annotations st) (isLoading st) v (currentSvg st) (history st) (strokeColor st) (strokeWidth st).
Definition set_currentSvg (v : option string) (st : AppState) : AppState :=
  mkAppState (prompt st) (annotations st) (isLoading st) (error st) v (history st) (strokeColor st) (strokeWidth st).
Definition set_history (v : list HistoryItem) (st : AppState) : AppState :=
  mkAppState (prompt st) (annotations st) (isLoading st) (error st) (currentSvg st) v (strokeColor st) (strokeWidth st).
Definition set_strokeColor (v : string) (st : AppState) : AppState :=
  mkAppState (prompt st) (annotations st) (isLoading st) (error st) (currentSvg st) (history st) v (strokeWidth st).
Definition set_strokeWidth (v : string) (st : AppState) : AppState :=
  mkAppState (prompt st) (annotations st) (isLoading st) (error st) (currentSvg st) (history st) (strokeColor st) v.

Definition msgCannotDraw : string := "Không thể tạo hình. Vui lòng thử lại.".

(** What [handleGenerate] holds on to while the request is in flight: the
    prompt and the options of the render it was called from. *)
Record Request := mkRequest {
  req_prompt : string;
  req_options : DrawingOptions
}.

(** [handleGenerate] up to the [await]: [None] when the prompt is blank and
    the handler returns at once. *)
Definition startGenerate (st : AppState) : option (AppState * Request) :=
  if String.eqb (Js.trim (prompt st)) "" then None
  else
    let options :=
      mkDrawingOptions (strokeColor st) (strokeWidth st)
                       (Some (annotations st)) in
    Some (set_error None (set_isLoading true st),
          mkRequest (prompt st) options).

(** [handleGenerate] from the [await] on; [now1] and [now2] are what the
    two calls of [Date.now()] return. *)
Definition finishGenerate (H : Host) (request : Request) (outcome : Outcome)
           (now1 now2 : float) (st : AppState) : AppState :=
  let st :=
    match outcome with
    | Resolved svg =>
        let st := set_currentSvg (Some svg) st in
        let newItem :=
          mkHistoryItem (JsString H now1) (req_prompt request) svg now2
                        (Some (req_options request)) in
        set_history (slice0 (newItem :: history st) 10) st
    | Rejected message =>
        set_error (Some (Js.or_default (Some message) msgCannotDraw)) st
    end in
  set_isLoading false st.

(** The outcome of the call [generateGeometrySvg(prompt, options)]. *)
Definition requestOutcome (request : Request) (envApiKey : option string)
           (generateContent : string → Upstream) : Outcome :=
  generateGeometrySvg (req_prompt request) (Some (req_options request))
                      None envApiKey generateContent.

(** [handleGenerate] when nothing else happens while the request is in
    flight. *)
Definition handleGenerate (H : Host) (envApiKey : option string)
           (generateContent : string → Upstream) (now1 now2 : float)
           (st : AppState) : AppState :=
  match startGenerate st with
  | None => st
  | Some (st, request) =>
      finishGenerate H request
        (requestOutcome request envApiKey generateContent) now1 now2 st
  end.

Definition loadHistoryItem (item : HistoryItem) (st : AppState) : AppState :=
  let st := set_prompt (item_prompt item) st in
  let st := set_currentSvg (Some (svgContent item)) st in
  let st :=
    match options item with
    | Some o =>
        let st := set_strokeColor (Gemini.strokeColor o) st in
        let st := set_strokeWidth (Gemini.strokeWidth o) st in
        set_annotations (Js.or_default (Gemini.annotations o) "") st
    | None =>
        let st := set_strokeColor "black" st in
        let st := set_strokeWidth "medium" st in
        set_annotations "" st
    end in
  set_error None st.

Definition clearHistory (st : AppState) : AppState := set_history [] st.

(** The application with the request in flight, if any. *)
Record Session := mkSession {
  ui : AppState;
  inFlight : option Request
}.

(** What can happen to the application. A colour or width button is named
    by its place in the list it is rendered from, a past generation by its
    place in the history. *)
Inductive Event :=
| PromptTyped (text : string)
| AnnotationsTyped (text : string)
| ColorPicked (i : nat)
| WidthPicked (i : nat)
| GeneratePressed
| GenerationSettled (envApiKey : option string)
                    (generateContent : string → Upstream) (now1 now2 : float)
| ItemPicked (i : nat)
| HistoryCleared.

(** The generate button is disabled while a request is loading and while
    the prompt is blank. *)
Definition generateDisabled (st : AppState) : bool :=
  (isLoading st || String.eqb (Js.trim (prompt st)) "")%bool.

Definition step (H : Host) (s : Session) (ev : Event) : Session :=
  match ev with
  | PromptTyped text => mkSession (set_prompt text (ui s)) (inFlight s)
  | AnnotationsTyped text => mkSession (set_annotations text (ui s)) (inFlight s)
  | ColorPicked i =>
      match palette !! i with
      | Some c => mkSession (set_strokeColor c (ui s)) (inFlight s)
      | None => s
      end
  | WidthPicked i =>
      match widths !! i with
      | Some w => mkSession (set_strokeWidth w (ui s)) (inFlight s)
      | None => s
      end
  | GeneratePressed =>
      if generateDisabled (ui s) then s
      else
        match startGenerate (ui s) with
        | Some (st, request) => mkSession st (Some request)
        | None => s
        end
  | GenerationSettled envApiKey generateContent now1 now2 =>
      match inFlight s with
      | Some request =>
          mkSession
            (finishGenerate H request
               (requestOutcome request envApiKey generateContent)
               now1 now2 (ui s))
            None
      | None => s
      end
  | ItemPicked i =>
      match history (ui s) !! i with
      | Some item => mkSession (loadHistoryItem item (ui s)) (inFlight s)
      | None => s
      end
  | HistoryCleared => mkSession (clearHistory (ui s)) (inFlight s)
  end.

Definition initialSession : Session :=
  mkSession (mkAppState "" "" false None None [] "black" "medium") None.

Definition run (H : Host) (evs : list Event) : Session :=
  foldl (step H) initialSession evs.

(** The colour and the width of [o] are among those the form offers. *)
Definition offered (o : DrawingOptions) : Prop :=
  Gemini.strokeColor o ∈ palette ∧ Gemini.strokeWidth o ∈ widths.

End App.

(** What holds of the application whatever has happened to it. *)
Definition appInvariant (s : App.Session) : Prop :=
  (length (App.history (App.ui s)) ≤ 10)%nat
  ∧ App.strokeColor (App.ui s) ∈ App.palette
  ∧ App.strokeWidth (App.ui s) ∈ App.widths
  ∧ Forall (λ item, ∀ o, App.options item = Some o → App.offered o)
           (App.history (App.ui s))
  ∧ (∀ r, App.inFlight s = Some r → App.offered (App.req_options r))
  ∧ App.isLoading (App.ui s)
    = match App.inFlight s with Some _ => true | None => false end.


(* ===================================================================== *)
(** ** More sample data                                                   *)
(* ===================================================================== *)

Module MoreSamples.




(** The line of the sample document, from [(10, 10)] to [(100, 100)],
    and its circle of radius 30 about [(200, 200)]. *)
Definition lineEl : Element :=
  default (createElementNS "") (heap Samples.loaded !! 0).
Definition circleEl : Element :=
  default (createElementNS "") (heap Samples.loaded !! 2).

(** The test host with an arctangent for the four axis directions. *)
Definition axisHost : Host :=
  mkHost (JsString TestHost.host) (parseFloat TestHost.host)
         (Math_sqrt TestHost.host) (Math_pow TestHost.host)
         (λ y x,
            if (PrimFloat.eqb y 0 && PrimFloat.ltb 0 x)%bool then 0%float
            else if (PrimFloat.eqb x 0 && PrimFloat.ltb 0 y)%bool
                 then (3.141592653589793 / 2)%float
                 else if (PrimFloat.eqb y 0 && PrimFloat.ltb x 0)%bool
                      then 3.141592653589793%float
                      else if (PrimFloat.eqb x 0 && PrimFloat.ltb y 0)%bool
                           then (- (3.141592653589793 / 2))%float
                           else nan)
         (Math_cos TestHost.host) (Math_sin TestHost.host)
         (Math_round TestHost.host) (Math_PI TestHost.host)
         (serializeToString TestHost.host) (parseFromString TestHost.host)
         (svgScreenToLocal TestHost.host) (elScreenToLocal TestHost.host)
         (getBoundingClientRect TestHost.host) (hasStyle TestHost.host).

(** The sample's line selected by a click, then released; a press on the
    rotation handle to the east of the selection centre, and a move to the
    south of it. *)
Definition lineSelected : EditorState :=
  run axisHost (initialState "#000000")
      [SvgContentChanged (Some Samples.svgText);
       MouseDownCanvas Samples.pressLine None; MouseUp].
Definition pressEast : MouseEvent := mkMouseEvent 10 0 None false false false.
Definition moveSouth : MouseEvent := mkMouseEvent 0 10 None false false false.

(** The sample with the text tool picked, and with a label added at
    [(200, 300)] and selected. *)
Definition textTool : EditorState := set_tool ToolText Samples.loaded.
Definition labelled : EditorState :=
  handleMouseUp TestHost.host
    (handleMouseDownCanvas TestHost.host
       (mkMouseEvent 200 300 None false false false) (Some "A") textTool).
Definition onLabel : MouseEvent :=
  mkMouseEvent 200 300 (Some 3) false false false.

(** The sample document as it is mounted. *)
Definition loadedMarkup : SvgMarkup :=
  default (mkSvgMarkup (createElementNS "") []) (currentMarkup Samples.loaded).

(** A triangle. *)
Definition triangleEl : Element :=
  setAttribute (createElementNS "polygon") "points" " 10,10 60,10  35,50 ".

(** A press on the sample's line that is not released, the line tool
    picked, and a second press and a move that draw a line from
    [(200, 300)] to [(260, 340)]: a drag and a drawing are under way. *)
Definition drawStart : MouseEvent :=
  mkMouseEvent 200 300 None false false false.
Definition drawEnd : MouseEvent :=
  mkMouseEvent 260 340 None false false false.

Definition twoGestures : EditorState :=
  run TestHost.host (initialState "#000000")
      [SvgContentChanged (Some Samples.svgText);
       MouseDownCanvas Samples.pressLine None; ToolPicked ToolLine;
       MouseDownCanvas drawStart None; MouseMove drawEnd].

(** The rectangle of the sample selected by a press and a release on it,
    and a pointer position to the right of its far corner. *)
Definition pressRect : MouseEvent :=
  mkMouseEvent 30 30 (Some 1) false false false.
Definition rectSelected : EditorState :=
  run TestHost.host (initialState "#000000")
      [SvgContentChanged (Some Samples.svgText);
       MouseDownCanvas pressRect None; MouseUp].
Definition pastCorner : MouseEvent :=
  mkMouseEvent 80 10 None false false false.

(** The rectangle tool picked on the sample, and a pointer position level
    with [(10, 10)], 50 to its right. *)
Definition rectTool : EditorState := set_tool ToolRect Samples.loaded.
Definition flatEnd : MouseEvent :=
  mkMouseEvent 60 10 None false false false.

End MoreSamples.

(* ===================================================================== *)
(** * The definitions at work                                             *)
(* ===================================================================== *)

(** The test host formats and parses the numbers of the samples as a
    browser does. *)
Example host_numbers :
  map TestHost.JsString
      [10; 50; 80; 10.5; 10.3; 0; -20; 0.1; 100; 3.25; -0; 1234567.125]%float
  = ["10"; "50"; "80"; "10.5"; "10.3"; "0"; "-20"; "0.1"; "100"; "3.25"; "0";
     "1234567.125"]
  ∧ map TestHost.parseFloat ["10"; "10.5"; "10.3"; "-20"; "100%"; " 7"; "x"; ".5"]
    = [10; 10.5; 10.3; -20; 100; 7; nan; 0.5]%float.
Proof. split; vm_compute; reflexivity. Qed.

(** What the test host serializes, it parses back to the same document. *)
Example host_markup :
  let text := TestHost.serializeToString (TestHost.parseFromString Samples.svgText) in
  TestHost.serializeToString (TestHost.parseFromString text) = text
  ∧ map tagName (markup_children (TestHost.parseFromString text))
    = ["line"; "rect"; "circle"].
Proof. split; vm_compute; reflexivity. Qed.

(** Control points of a line, a polygon and two paths; a path command
    written without a space after its letter gives no point. *)
Example control_points_by_kind :
  let shape tag name value := setAttribute (createElementNS tag) name value in
  let ids el := map cp_id (parseControlPoints TestHost.host el) in
  let coords el :=
    map (λ p, (cp_x p, cp_y p)) (parseControlPoints TestHost.host el) in
  coords (shape "polygon" "points" "0,0 10,0  10,10")
  = [(0, 0); (10, 0); (10, 10)]%float
  ∧ coords (shape "polyline" "points" "1 2 3") = [(1, 2)]%float
  ∧ coords (shape "path" "d" "M 10 20 L 30 40 Z") = [(10, 20); (30, 40)]%float
  ∧ ids (shape "path" "d" "M 10 20 L 30 40 Z") = [0; 1]
  ∧ coords (shape "path" "d" "M10 20 L 30 40") = [(30, 40)]%float
  ∧ ids (shape "path" "d" "M10 20 L 30 40") = [1]
  ∧ path_commands "M10 20L5-3 C 1 2 3 4 l 7" = ["M10 20"; "L5-3"]
  ∧ coords (setAttribute (shape "circle" "cx" "5") "r" "2") = [(5, 0); (7, 0)]%float.
Proof. cbv zeta. repeat (split; [vm_compute; reflexivity |]). vm_compute; reflexivity. Qed.

(** Moving the second point of a closed path rebuilds its data and keeps
    the closing command; moving a point the path does not have throws. *)
Example path_edit :
  let path d := setAttribute (createElementNS "path") "d" d in
  (updateElementShape TestHost.host (path "M 10 20 L 30 40 Z") 1 35 45
   ≫= λ el, getAttribute el "d") = Some "M 10 20 L 35 45 Z"
  ∧ updateElementShape TestHost.host (path "M10 20 L 30 40") 1 35 45 = None
  ∧ updateElementShape TestHost.host (path "M 10 20") 3 0 0 = Some (path "M 10 20").
Proof. cbv zeta. repeat (split; [vm_compute; reflexivity |]). vm_compute; reflexivity. Qed.

(** Fences and surrounding prose around the markup of a reply. *)
Example reply_cleaning :
  Gemini.stripFences ("```xml" ++ Gemini.newline ++ "<svg></svg>" ++ Gemini.newline ++ "```")
  = "<svg></svg>"
  ∧ Gemini.extractSvg (Some "Here: <svg><svg></svg></svg> done")
    = inl "<svg><svg></svg>"
  ∧ Gemini.extractSvg (Some "no markup") = inr Gemini.msgNotSvg
  ∧ Gemini.extractSvg (Some "") = inr Gemini.msgNoReply.
Proof. repeat (split; [vm_compute; reflexivity |]). vm_compute; reflexivity. Qed.

(* ===================================================================== *)
(** * Properties                                                          *)
(* ===================================================================== *)

(** ** Elements and attributes *)

(** Membership in an explicit list. *)
Ltac in_list :=
  repeat first [apply list_elem_of_here | apply list_elem_of_further].

Lemma getAttribute_setAttribute (el : Element) (k k' v : string) :
  getAttribute (setAttribute el k v) k'
  = if decide (k = k') then Some v else getAttribute el k'.
Proof.
  unfold getAttribute, setAttribute; cbn [attributes]. apply lookup_insert.
Qed.

Lemma getAttribute_set_eq (el : Element) (k v : string) :
  getAttribute (setAttribute el k v) k = Some v.
Proof. rewrite getAttribute_setAttribute. by case_decide. Qed.

Lemma getAttribute_set_ne (el : Element) (k k' v : string) :
  k ≠ k' → getAttribute (setAttribute el k v) k' = getAttribute el k'.
Proof. intros. rewrite getAttribute_setAttribute. by case_decide. Qed.

Lemma numAttr_written (H : Host) (el : Element) (k : string) (x : float) :
  reads_back H x → numAttr H (setAttribute el k (JsString H x)) k = x.
Proof. intros Hx. unfold numAttr. by rewrite getAttribute_set_eq. Qed.

Lemma numAttr_set_ne (H : Host) (el : Element) (k k' v : string) :
  k ≠ k' → numAttr H (setAttribute el k v) k' = numAttr H el k'.
Proof. intros. unfold numAttr. by rewrite getAttribute_set_ne. Qed.

(** ** Transform store *)

Lemma setElementTransform_frame (H : Host) (el : Element) (d : TransformData) :
  tagName (setElementTransform H el d) = tagName el
  ∧ style (setElementTransform H el d) = style el
  ∧ textContent (setElementTransform H el d) = textContent el
  ∧ ∀ name, name ∉ transformAttrs →
      getAttribute (setElementTransform H el d) name = getAttribute el name.
Proof.
  repeat split; try reflexivity.
  intros name Hn. unfold setElementTransform.
  rewrite !getAttribute_set_ne; [done | ..];
    intros <-; apply Hn; unfold transformAttrs; in_list.
Qed.

Lemma setElementTransform_fields (H : Host) (el : Element) (d : TransformData) :
  let el' := setElementTransform H el d in
  getAttribute el' "data-tx" = Some (JsString H (tx d))
  ∧ getAttribute el' "data-ty" = Some (JsString H (ty d))
  ∧ getAttribute el' "data-rotation" = Some (JsString H (rotation d))
  ∧ getAttribute el' "data-cx" = Some (JsString H (cx d))
  ∧ getAttribute el' "data-cy" = Some (JsString H (cy d))
  ∧ getAttribute el' "transform" = Some (transformStr H d).
Proof.
  unfold setElementTransform; cbv zeta.
  repeat split;
    repeat (first [ rewrite getAttribute_set_eq; reflexivity
                  | rewrite getAttribute_set_ne by discriminate ]).
Qed.

Lemma getElementTransform_written (H : Host) (el : Element) (d : TransformData) :
  reads_back H (tx d) → reads_back H (ty d) → reads_back H (rotation d) →
  reads_back H (cx d) → reads_back H (cy d) →
  getElementTransform H (setElementTransform H el d) = d.
Proof.
  intros Htx Hty Hr Hcx Hcy.
  destruct (setElementTransform_fields H el d) as (E1 & E2 & E3 & E4 & E5 & _).
  unfold getElementTransform, numAttr.
  rewrite E1, E2, E3, E4, E5.
  unfold reads_back in *. rewrite Htx, Hty, Hr, Hcx, Hcy. by destruct d.
Qed.

Lemma setElementTransform_idem (H : Host) (el : Element) (d : TransformData) :
  setElementTransform H (setElementTransform H el d) d = setElementTransform H el d.
Proof.
  destruct el as [t a s c].
  cbv [setElementTransform setAttribute attributes tagName style textContent].
  f_equal. apply map_eq; intros k.
  repeat (rewrite (lookup_insert (M := gmap string));
          destruct (decide (_ = k)) as [<- | ?];
          [ repeat first [ rewrite lookup_insert_eq; reflexivity
                         | rewrite lookup_insert_ne by assumption ] |]).
  all: reflexivity.
Qed.

(** C5. [setElementTransform] stores the five fields of [d] and a
    [transform] attribute made of the translate, followed by a rotate about
    the pivot exactly when the rotation is not zero; an element without the
    five attributes reads as the all-zero transform (as far as the host
    parses the text of zero as zero); and a transform whose five numbers
    survive formatting and parsing is read back as it was written. *)
Theorem transform_store_round_trip (H : Host) (el : Element) (d : TransformData) :
  let el' := setElementTransform H el d in
  let translate :=
    "translate(" ++ JsString H (tx d) ++ ", " ++ JsString H (ty d) ++ ")" in
  let rotate :=
    " rotate(" ++ JsString H (rotation d) ++ ", " ++ JsString H (cx d) ++ ", "
               ++ JsString H (cy d) ++ ")" in
  (getAttribute el' "data-tx" = Some (JsString H (tx d))
   ∧ getAttribute el' "data-ty" = Some (JsString H (ty d))
   ∧ getAttribute el' "data-rotation" = Some (JsString H (rotation d))
   ∧ getAttribute el' "data-cx" = Some (JsString H (cx d))
   ∧ getAttribute el' "data-cy" = Some (JsString H (cy d)))
  ∧ getAttribute el' "transform"
    = Some (if PrimFloat.eqb (rotation d) 0 then translate
            else translate ++ rotate)
  ∧ (∀ bare : Element,
       (∀ name, name ∈ transformAttrs → getAttribute bare name = None) →
       parseFloat H "0" = 0%float →
       getElementTransform H bare = mkTransformData 0 0 0 0 0)
  ∧ (reads_back H (tx d) → reads_back H (ty d) → reads_back H (rotation d) →
     reads_back H (cx d) → reads_back H (cy d) →
     getElementTransform H el' = d).
Proof.
  cbv zeta.
  destruct (setElementTransform_fields H el d) as (E1 & E2 & E3 & E4 & E5 & E6).
  split; [by repeat split |]. split.
  - rewrite E6. unfold transformStr, Js.strict_ne.
    by destruct (PrimFloat.eqb (rotation d) 0).
  - split.
    + intros bare Hbare H0. unfold getElementTransform, numAttr.
      rewrite !Hbare by (unfold transformAttrs; in_list).
      simpl. by rewrite H0.
    + apply getElementTransform_written.
Qed.

(** The transform [(12.5, -3)] rotated by 30 degrees about [(50, 50)], on
    an empty [rect], under the test host. *)
Lemma transform_store_round_trip_witness :
  let d := mkTransformData 12.5 (-3) 30 50 50 in
  let el' := setElementTransform TestHost.host (createElementNS "rect") d in
  getAttribute el' "transform" = Some "translate(12.5, -3) rotate(30, 50, 50)"
  ∧ getElementTransform TestHost.host (createElementNS "rect")
    = mkTransformData 0 0 0 0 0
  ∧ getElementTransform TestHost.host el' = d.
Proof.
  cbv zeta.
  pose proof (transform_store_round_trip TestHost.host (createElementNS "rect")
                (mkTransformData 12.5 (-3) 30 50 50)) as (_ & Ht & H0 & Hrt).
  split; [exact Ht |]. split.
  - apply H0; [intros name _; reflexivity | vm_compute; reflexivity].
  - apply Hrt; vm_compute; reflexivity.
Defined.

(** ** Editor state: which fields an operation leaves alone *)


Lemma allocAll_spec (els : list Element) (st : EditorState) :
  let st' := (allocAll els st).1 in
  (allocAll els st).2 = seq (nextId st) (length els)
  ∧ nextId st' = nextId st + length els
  ∧ (∀ j, j < nextId st → heap st' !! j = heap st !! j)
  ∧ (∀ i el, els !! i = Some el → heap st' !! (nextId st + i) = Some el)
  ∧ scale st' = scale st ∧ tool st' = tool st ∧ mount st' = mount st
  ∧ selectedElements st' = selectedElements st
  ∧ controlPoints st' = controlPoints st
  ∧ selectionBBox st' = selectionBBox st
  ∧ history st' = history st ∧ historyIndex st' = historyIndex st
  ∧ dragMode st' = dragMode st ∧ isDraggingPoint st' = isDraggingPoint st
  ∧ isDrawing st' = isDrawing st ∧ startPoint st' = startPoint st
  ∧ currentDrawElement st' = currentDrawElement st
  ∧ didChange st' = didChange st ∧ currentHexColor st' = currentHexColor st
  ∧ rotationCenter st' = rotationCenter st
  ∧ startTransformsMap st' = startTransformsMap st.
Proof.
  revert st. induction els as [| el els IH]; intros st.
  - cbn. rewrite Nat.add_0_r. repeat split; try done.
  - cbn [allocAll]. unfold allocElement.
    set (st1 := set_nextId _ _).
    specialize (IH st1). destruct (allocAll els st1) as [st2 ids].
    cbn [fst snd] in *. cbv zeta in IH.
    destruct IH as (Hids & Hn & Hold & Hnew & IH).
    assert (nextId st1 = S (nextId st)) as E1 by (subst st1; by destruct st).
    assert (heap st1 = <[nextId st := el]> (heap st)) as E2
      by (subst st1; by destruct st).
    rewrite E1 in *.
    split; [cbn [length seq]; by rewrite Hids |].
    split; [cbn [length]; lia |].
    split.
    { intros j Hj. rewrite Hold by lia. rewrite E2.
      apply lookup_insert_ne. lia. }
    split.
    { intros [| i] el' Hi; cbn in Hi.
      - injection Hi as <-. rewrite Nat.add_0_r, Hold by lia.
        rewrite E2. apply lookup_insert_eq.
      - rewrite <- (Hnew i el' Hi). f_equal. lia. }
    subst st1. destruct st; cbn in *. exact IH.
Qed.

Lemma omap_seq_lookup {A} (f : nat → option A) (l : list A) (n : nat) :
  (∀ i x, l !! i = Some x → f (n + i) = Some x) →
  omap f (seq n (length l)) = l.
Proof.
  revert n. induction l as [| a l IH]; intros n Hf; [done |].
  cbn.
  pose proof (Hf 0 a eq_refl) as H0. rewrite Nat.add_0_r in H0. rewrite H0.
  f_equal. apply IH. intros i x Hi.
  replace (S n + i) with (n + S i) by lia. by apply Hf.
Qed.

(** Mounting a document makes it the current one and touches nothing but
    the heap and the tree. *)
Lemma mountMarkup_spec (m : SvgMarkup) (st : EditorState) :
  let st' := mountMarkup m st in
  currentMarkup st' = Some m
  ∧ mount st' = Some (mkSvgTree (markup_root m)
                                (seq (nextId st) (length (markup_children m))))
  ∧ nextId st' = nextId st + length (markup_children m)
  ∧ (∀ j, j < nextId st → heap st' !! j = heap st !! j)
  ∧ selectedElements st' = selectedElements st
  ∧ controlPoints st' = controlPoints st
  ∧ history st' = history st ∧ historyIndex st' = historyIndex st
  ∧ tool st' = tool st ∧ scale st' = scale st.
Proof.
  cbv zeta. unfold mountMarkup.
  pose proof (allocAll_spec (markup_children m) st) as Hs. cbv zeta in Hs.
  destruct (allocAll (markup_children m) st) as [st1 ids]. cbn [fst snd] in Hs.
  destruct Hs as (Hids & Hn & Hold & Hnew & Hsc & Htool & _ & Hsel & Hcp & _
                  & Hh & Hi & _).
  destruct m as [r els]. cbn [markup_root markup_children] in *.
  destruct st1; cbn in *. subst.
  repeat split; try done.
  unfold currentMarkup, treeMarkup; cbn. do 2 f_equal.
  by apply omap_seq_lookup.
Qed.

Lemma deselect_spec (st : EditorState) :
  selectedElements (deselect st) = [] ∧ controlPoints (deselect st) = []
  ∧ selectionBBox (deselect st) = None
  ∧ heap (deselect st) = heap st ∧ mount (deselect st) = mount st
  ∧ nextId (deselect st) = nextId st
  ∧ history (deselect st) = history st
  ∧ historyIndex (deselect st) = historyIndex st
  ∧ tool (deselect st) = tool st ∧ scale (deselect st) = scale st.
Proof. by destruct st. Qed.

Lemma currentMarkup_heap_mount (st st' : EditorState) :
  heap st' = heap st → mount st' = mount st → currentMarkup st' = currentMarkup st.
Proof. unfold currentMarkup. by intros -> ->. Qed.

Lemma restoreState_spec (H : Host) (content : string) (st : EditorState) :
  let st' := restoreState H content st in
  currentMarkup st' = Some (restoredMarkup H content)
  ∧ selectedElements st' = [] ∧ controlPoints st' = []
  ∧ history st' = history st ∧ historyIndex st' = historyIndex st.
Proof.
  cbv zeta. unfold restoreState.
  set (m := mkSvgMarkup _ _).
  destruct (mountMarkup_spec m st) as (Hm & _ & _ & _ & _ & _ & Hh & Hi & _).
  destruct (deselect_spec (mountMarkup m st))
    as (Hs & Hc & _ & Hheap & Hmount & _ & Hh' & Hi' & _).
  rewrite Hs, Hc, Hh', Hi', Hh, Hi.
  rewrite (currentMarkup_heap_mount _ _ Hheap Hmount), Hm.
  done.
Qed.

(** ** History *)

Lemma slice0_take {A} (l : list A) (i : Z) :
  (-1 ≤ i < Z.of_nat (length l))%Z →
  slice0 l (i + 1) = take (Z.to_nat (i + 1)) l.
Proof.
  intros Hi. unfold slice0.
  destruct (Z.ltb_spec (i + 1) 0) as [? | _]; [lia |].
  f_equal. lia.
Qed.

Lemma addToHistory_spec (H : Host) (st : EditorState) (content : string) :
  getCurrentSVGString H st = Some content → content ≠ "" →
  let st' := addToHistory H st in
  history st' = (slice0 (history st) (historyIndex st + 1) ++ [content])%list
  ∧ historyIndex st' = (historyIndex st + 1)%Z
  ∧ heap st' = heap st ∧ mount st' = mount st
  ∧ selectedElements st' = selectedElements st
  ∧ controlPoints st' = controlPoints st.
Proof.
  intros Hc Hne. cbv zeta. unfold addToHistory, addToHistoryFrom. rewrite Hc.
  destruct (String.eqb_spec content "") as [-> | _]; [done |].
  by destruct st.
Qed.

Lemma handleRedo_at_end (H : Host) (st : EditorState) :
  historyIndex st = (Z.of_nat (length (history st)) - 1)%Z →
  handleRedo H st = st.
Proof.
  intros E. unfold handleRedo.
  destruct (Z.ltb_spec (historyIndex st) (Z.of_nat (length (history st)) - 1));
    [lia | done].
Qed.

Lemma handleUndo_history (H : Host) (st : EditorState) :
  history (handleUndo H st) = history st
  ∧ historyIndex (handleUndo H st)
    = (if (historyIndex st >? 0)%Z then historyIndex st - 1 else historyIndex st)%Z.
Proof.
  unfold handleUndo. destruct (historyIndex st >? 0)%Z eqn:E; [| done].
  destruct (restoreState_spec H (historyEntry st (historyIndex st - 1))
              (set_historyIndex (historyIndex st - 1) st))
    as (_ & _ & _ & Hh & Hi).
  rewrite Hh, Hi. by destruct st.
Qed.

Lemma undo_iter_history (H : Host) (K : nat) (st : EditorState) :
  history (Nat.iter K (handleUndo H) st) = history st
  ∧ historyIndex (Nat.iter K (handleUndo H) st)
    = (if (historyIndex st <=? 0)%Z then historyIndex st
       else Z.max 0 (historyIndex st - Z.of_nat K))%Z.
Proof.
  induction K as [| K [IHh IHi]].
  - cbn [Nat.iter nat_rect]. split; [done |].
    destruct (Z.leb_spec (historyIndex st) 0); lia.
  - change (Nat.iter (S K) (handleUndo H) st)
      with (handleUndo H (Nat.iter K (handleUndo H) st)).
    destruct (handleUndo_history H (Nat.iter K (handleUndo H) st)) as [Hh Hi].
    rewrite Hh, Hi, IHh, IHi. split; [done |].
    destruct (Z.leb_spec (historyIndex st) 0) as [Hle | Hgt].
    + destruct (Z.gtb_spec (historyIndex st) 0); [lia | done].
    + destruct (Z.gtb_spec (Z.max 0 (historyIndex st - Z.of_nat K)) 0); lia.
Qed.

Lemma undo_iter_valid (H : Host) (K : nat) (st : EditorState) :
  validHistory st → validHistory (Nat.iter K (handleUndo H) st).
Proof.
  unfold validHistory. intros Hv.
  destruct (undo_iter_history H K st) as [-> ->].
  destruct (Z.leb_spec (historyIndex st) 0); lia.
Qed.

(** C1. From a history whose index names a snapshot (or is [-1]), undo
    [K] times, make an edit and commit it: the commit keeps the snapshots up
    to the index reached by the undos, drops the ones after it, appends the
    new serialization and moves the index to this last snapshot; redo then
    changes nothing. *)
Theorem commit_truncates_redo_branch (H : Host) (st : EditorState) (K : nat)
        (edit : EditorState → EditorState) (content : string) :
  validHistory st →
  let undone := Nat.iter K (handleUndo H) st in
  history (edit undone) = history undone →
  historyIndex (edit undone) = historyIndex undone →
  getCurrentSVGString H (edit undone) = Some content →
  content ≠ "" →
  let st' := addToHistory H (edit undone) in
  history undone = history st
  ∧ historyIndex undone
    = (if (historyIndex st <=? 0)%Z then historyIndex st
       else Z.max 0 (historyIndex st - Z.of_nat K))%Z
  ∧ history st'
    = (take (Z.to_nat (historyIndex undone + 1)) (history st) ++ [content])%list
  ∧ historyIndex st' = (historyIndex undone + 1)%Z
  ∧ historyIndex st' = (Z.of_nat (length (history st')) - 1)%Z
  ∧ handleRedo H st' = st'.
Proof.
  intros Hv undone Eh Ei Hc Hne st'.
  pose proof (undo_iter_valid H K st Hv) as Hv'. fold undone in Hv'.
  destruct (undo_iter_history H K st) as [Hh Hi]. fold undone in Hh, Hi.
  destruct (addToHistory_spec H (edit undone) content Hc Hne)
    as (Hh' & Hi' & _). fold st' in Hh', Hi'.
  unfold validHistory in Hv'.
  rewrite Eh, Ei, slice0_take, Hh in Hh' by exact Hv'.
  rewrite Ei in Hi'.
  assert (historyIndex st' = (Z.of_nat (length (history st')) - 1)%Z) as Hend.
  { rewrite Hi', Hh', length_app, length_take. cbn [length].
    rewrite <- Hh. lia. }
  repeat split; try done.
  by apply handleRedo_at_end.
Qed.

Lemma commitEdit_spec (H : Host) (st : EditorState)
      (edit : EditorState → EditorState) :
  validHistory st → editsDocument H edit st →
  let st' := commitEdit H st edit in
  validHistory st'
  ∧ historyIndex st' = (Z.of_nat (length (history st')) - 1)%Z
  ∧ (0 ≤ historyIndex st')%Z
  ∧ ∃ content, getCurrentSVGString H st' = Some content
               ∧ last (history st') = Some content.
Proof.
  intros Hv (Eh & Ei & content & Hc & Hne). cbv zeta. unfold commitEdit.
  destruct (addToHistory_spec H (edit st) content Hc Hne)
    as (Hh & Hi & Hheap & Hmount & _).
  unfold validHistory in *.
  rewrite Eh, Ei, slice0_take in Hh by exact Hv. rewrite Ei in Hi.
  assert (Z.of_nat (length (history (addToHistory H (edit st))))
          = (historyIndex st + 2)%Z) as Hlen.
  { rewrite Hh, length_app, length_take. cbn [length]. lia. }
  repeat split; try lia.
  exists content. split.
  - unfold getCurrentSVGString in *.
    by rewrite (currentMarkup_heap_mount _ _ Hheap Hmount).
  - rewrite Hh. apply last_snoc.
Qed.

Lemma allCommitted_end (H : Host) (edits : list (EditorState → EditorState))
      (st : EditorState) :
  validHistory st → edits ≠ [] → allCommitted H edits st →
  let st' := foldl (commitEdit H) st edits in
  historyIndex st' = (Z.of_nat (length (history st')) - 1)%Z
  ∧ (0 ≤ historyIndex st')%Z
  ∧ ∃ content, getCurrentSVGString H st' = Some content
               ∧ last (history st') = Some content.
Proof.
  revert st. induction edits as [| edit rest IH]; intros st Hv Hne Hall; [done |].
  destruct Hall as [Hedit Hrest]. cbn [foldl].
  pose proof (commitEdit_spec H st edit Hv Hedit) as Hc. cbv zeta in Hc.
  destruct rest as [| edit' rest'].
  - cbn [foldl]. tauto.
  - apply IH; [tauto | done | done].
Qed.

Lemma handleUndo_at_start (H : Host) (st : EditorState) :
  (historyIndex st ≤ 0)%Z → handleUndo H st = st.
Proof.
  intros E. unfold handleUndo.
  destruct (Z.gtb_spec (historyIndex st) 0); [lia | done].
Qed.

Lemma undo_iter_at_start (H : Host) (n : nat) (st : EditorState) :
  (historyIndex st ≤ 0)%Z → Nat.iter n (handleUndo H) st = st.
Proof.
  intros E. induction n as [| n IH]; [done |].
  change (Nat.iter (S n) (handleUndo H) st)
    with (handleUndo H (Nat.iter n (handleUndo H) st)).
  rewrite IH. by apply handleUndo_at_start.
Qed.

Lemma redo_iter_at_end (H : Host) (n : nat) (st : EditorState) :
  historyIndex st = (Z.of_nat (length (history st)) - 1)%Z →
  Nat.iter n (handleRedo H) st = st.
Proof.
  intros E. induction n as [| n IH]; [done |].
  change (Nat.iter (S n) (handleRedo H) st)
    with (handleRedo H (Nat.iter n (handleRedo H) st)).
  rewrite IH. by apply handleRedo_at_end.
Qed.

Lemma handleRedo_spec (H : Host) (st : EditorState) :
  (historyIndex st < Z.of_nat (length (history st)) - 1)%Z →
  let st' := handleRedo H st in
  history st' = history st
  ∧ historyIndex st' = (historyIndex st + 1)%Z
  ∧ currentMarkup st'
    = Some (restoredMarkup H (historyEntry st (historyIndex st + 1)))
  ∧ selectedElements st' = [] ∧ controlPoints st' = [].
Proof.
  intros E. cbv zeta. unfold handleRedo.
  destruct (Z.ltb_spec (historyIndex st) (Z.of_nat (length (history st)) - 1));
    [| lia].
  destruct (restoreState_spec H (historyEntry st (historyIndex st + 1))
              (set_historyIndex (historyIndex st + 1) st))
    as (Hm & Hs & Hc & Hh & Hi).
  rewrite Hm, Hs, Hc, Hh, Hi. by destruct st.
Qed.

Lemma historyEntry_history (st st' : EditorState) (i : Z) :
  history st' = history st → historyEntry st' i = historyEntry st i.
Proof. unfold historyEntry. by intros ->. Qed.

Lemma historyEntry_last (st : EditorState) (content : string) :
  last (history st) = Some content →
  historyEntry st (Z.of_nat (length (history st)) - 1) = content.
Proof.
  intros Hl. unfold historyEntry, at_index.
  destruct (history st) as [| a l] eqn:E using rev_ind; [done |].
  rewrite last_snoc in Hl. injection Hl as ->.
  rewrite length_app. cbn [length].
  destruct (Z.ltb_spec (Z.of_nat (length l + 1) - 1) 0); [lia |].
  replace (Z.to_nat (Z.of_nat (length l + 1) - 1)) with (length l + 0) by lia.
  by rewrite lookup_app_r, Nat.add_comm, Nat.add_sub by lia.
Qed.

(** Enough redos from below the last snapshot end on it, with the document
    restored from it. *)
Lemma redo_iter_reaches_end (H : Host) (n : nat) (st : EditorState) :
  (-1 ≤ historyIndex st < Z.of_nat (length (history st)) - 1)%Z →
  (Z.of_nat (length (history st)) - 1 ≤ historyIndex st + Z.of_nat n)%Z →
  let st' := Nat.iter n (handleRedo H) st in
  history st' = history st
  ∧ historyIndex st' = (Z.of_nat (length (history st)) - 1)%Z
  ∧ currentMarkup st'
    = Some (restoredMarkup H (historyEntry st (Z.of_nat (length (history st)) - 1))).
Proof.
  revert st. induction n as [| n IH]; intros st Hlo Hhi; [lia |].
  cbv zeta. rewrite Nat.iter_succ_r.
  destruct (handleRedo_spec H st) as (Hh & Hi & Hm & _); [lia |].
  destruct (Z.eq_dec (historyIndex st + 1)%Z
                     (Z.of_nat (length (history st)) - 1)%Z) as [Heq | Hneq].
  - rewrite redo_iter_at_end by (rewrite Hh, Hi; exact Heq).
    rewrite Hh, Hi, Hm, Heq. done.
  - specialize (IH (handleRedo H st)). cbv zeta in IH.
    rewrite Hh, Hi in IH.
    destruct IH as (IHh & IHi & IHm); [lia | lia |].
    rewrite IHh, IHi, IHm. repeat split.
    do 2 f_equal. by apply historyEntry_history.
Qed.

(** C2. After a non-empty sequence of committed edits, as many undos as
    there were edits followed by as many redos end on the snapshot recorded
    by the last commit: the history and the index are as after the last
    edit, and the document is the one restored from that snapshot (or has
    not been touched, when there was nothing to undo). Its serialization is
    the recorded one as soon as the host's serializer writes that snapshot
    again when given the document restored from it. *)
Theorem undo_redo_round_trip (H : Host) (st0 : EditorState)
        (edits : list (EditorState → EditorState)) (recorded : string) :
  validHistory st0 →
  edits ≠ [] →
  allCommitted H edits st0 →
  let stN := foldl (commitEdit H) st0 edits in
  let N := length edits in
  getCurrentSVGString H stN = Some recorded →
  let st' := Nat.iter N (handleRedo H) (Nat.iter N (handleUndo H) stN) in
  last (history stN) = Some recorded
  ∧ history st' = history stN
  ∧ historyIndex st' = historyIndex stN
  ∧ (st' = stN ∨ currentMarkup st' = Some (restoredMarkup H recorded))
  ∧ (serializeToString H (restoredMarkup H recorded) = recorded →
     getCurrentSVGString H st' = Some recorded).
Proof.
  intros Hv Hne Hall stN N Hrec st'.
  destruct (allCommitted_end H edits st0 Hv Hne Hall)
    as (Hend & Hpos & content & Hc & Hlast). fold stN in Hend, Hpos, Hc, Hlast.
  rewrite Hrec in Hc. injection Hc as <-.
  split; [exact Hlast |].
  assert (1 ≤ N)%nat as HN.
  { subst N. destruct edits; [done | cbn [length]; lia]. }
  destruct (Z.eq_dec (historyIndex stN) 0%Z) as [E0 | Hn0].
  - assert (st' = stN) as ->.
    { subst st'. rewrite undo_iter_at_start by lia.
      by rewrite redo_iter_at_end by exact Hend. }
    repeat split; try done. by left.
  - destruct (undo_iter_history H N stN) as [Uh Ui].
    destruct (Z.leb_spec (historyIndex stN) 0) as [? | Hgt]; [lia |].
    set (u := Nat.iter N (handleUndo H) stN) in *.
    destruct (redo_iter_reaches_end H N u) as (Rh & Ri & Rm);
      [rewrite Uh, Ui; lia | rewrite Uh, Ui; lia |].
    fold st' in Rh, Ri, Rm.
    rewrite Uh in Rh, Ri, Rm.
    rewrite (historyEntry_history stN u _ Uh), (historyEntry_last stN recorded Hlast)
      in Rm.
    split; [exact Rh |]. split; [by rewrite Ri, Hend |].
    split; [by right |].
    intros Hrt. unfold getCurrentSVGString. rewrite Rm.
    cbn [fmap option_fmap option_map]. by rewrite Hrt.
Qed.

(** After the two sample edits: one undo, then the rectangle is thickened
    again and committed; the history has three snapshots again, the index
    is on the last, and redo does nothing. *)
Lemma commit_truncates_redo_branch_witness :
  let undone := Nat.iter 1 (handleUndo TestHost.host) Samples.edited in
  let st' := addToHistory TestHost.host (Samples.dashLine undone) in
  length (history Samples.edited) = 3
  ∧ historyIndex Samples.edited = 2%Z
  ∧ historyIndex undone = 1%Z
  ∧ length (history st') = 3
  ∧ historyIndex st' = 2%Z
  ∧ handleRedo TestHost.host st' = st'.
Proof.
  cbv zeta.
  assert (validHistory Samples.edited) as Hv by (unfold validHistory; split; vm_compute; [discriminate | reflexivity]).
  epose proof (commit_truncates_redo_branch TestHost.host Samples.edited 1
                 Samples.dashLine _ Hv) as T.
  edestruct T as (_ & Hi & Hh & Hi' & _ & Hredo);
    [ vm_compute; reflexivity | vm_compute; reflexivity
    | vm_compute; reflexivity | discriminate | ].
  do 5 (split; [vm_compute; reflexivity |]).
  exact Hredo.
Defined.

(** The two sample edits, two undos, two redos: the document serializes as
    it did after the second edit. *)
Lemma undo_redo_round_trip_witness :
  let stN := Samples.edited in
  let st' := Nat.iter 2 (handleRedo TestHost.host)
                      (Nat.iter 2 (handleUndo TestHost.host) stN) in
  getCurrentSVGString TestHost.host st' = getCurrentSVGString TestHost.host stN
  ∧ historyIndex (Nat.iter 2 (handleUndo TestHost.host) stN) = 0%Z
  ∧ historyIndex st' = 2%Z.
Proof.
  cbv zeta.
  assert (validHistory Samples.loaded) as Hv by (unfold validHistory; split; vm_compute; [discriminate | reflexivity]).
  assert (allCommitted TestHost.host [Samples.dashLine; Samples.thickenRect]
                       Samples.loaded) as Hall.
  { split; [| split; [| exact I]];
      (split; [vm_compute; reflexivity |]);
      (split; [vm_compute; reflexivity |]);
      eexists; (split; [vm_compute; reflexivity | discriminate]). }
  epose proof (undo_redo_round_trip TestHost.host Samples.loaded
                 [Samples.dashLine; Samples.thickenRect] _ Hv ltac:(discriminate)
                 Hall) as T.
  edestruct T as (_ & _ & Hi & _ & Hs); [vm_compute; reflexivity |].
  specialize (Hs ltac:(vm_compute; reflexivity)).
  cbn [length] in Hs, Hi.
  split; [etransitivity; [exact Hs | vm_compute; reflexivity] |].
  split; [vm_compute; reflexivity |].
  etransitivity; [exact Hi | vm_compute; reflexivity].
Defined.

(** ** Moving the selection *)

Lemma mutate_spec (id : nat) (f : Element → Element) (st : EditorState) :
  mutate id f st = set_heap (alter f id (heap st)) st.
Proof. reflexivity. Qed.

Lemma set_heap_fields (h : gmap nat Element) (st : EditorState) :
  heap (set_heap h st) = h
  ∧ selectedElements (set_heap h st) = selectedElements st
  ∧ startTransformsMap (set_heap h st) = startTransformsMap st
  ∧ dragMode (set_heap h st) = dragMode st
  ∧ isDrawing (set_heap h st) = isDrawing st
  ∧ startPoint (set_heap h st) = startPoint st
  ∧ rotationCenter (set_heap h st) = rotationCenter st
  ∧ currentDrawElement (set_heap h st) = currentDrawElement st.
Proof. by destruct st. Qed.

Lemma set_heap_set_heap (h h' : gmap nat Element) (st : EditorState) :
  set_heap h (set_heap h' st) = set_heap h st.
Proof. by destruct st. Qed.

Lemma set_heap_id (st : EditorState) : set_heap (heap st) st = st.
Proof. by destruct st. Qed.

Lemma moveElement_spec (H : Host) (dx dy : float) (st : EditorState) (id : nat) :
  let st' := moveElement H dx dy st id in
  st' = set_heap (heap st') st
  ∧ ∀ j, heap st' !! j
         = match startTransformsMap st !! id with
           | Some t0 =>
               if decide (j = id)
               then (λ el, setElementTransform H el (translateBy t0 dx dy))
                      <$> heap st !! j
               else heap st !! j
           | None => heap st !! j
           end.
Proof.
  cbv zeta. unfold moveElement.
  destruct (startTransformsMap st !! id) as [t0 |].
  - rewrite mutate_spec.
    destruct (set_heap_fields (alter (λ el, setElementTransform H el (translateBy t0 dx dy))
                                     id (heap st)) st) as (-> & _).
    split; [done |]. intros j.
    destruct (decide (j = id)) as [-> | Hne].
    + apply lookup_alter_eq.
    + by apply lookup_alter_ne.
  - split; [by rewrite set_heap_id | done].
Qed.

Lemma foldl_moveElement_spec (H : Host) (dx dy : float) (ids : list nat)
      (st : EditorState) :
  let st' := foldl (moveElement H dx dy) st ids in
  st' = set_heap (heap st') st
  ∧ ∀ j, heap st' !! j
         = match startTransformsMap st !! j with
           | Some t0 =>
               if bool_decide (j ∈ ids)
               then (λ el, setElementTransform H el (translateBy t0 dx dy))
                      <$> heap st !! j
               else heap st !! j
           | None => heap st !! j
           end.
Proof.
  revert st. induction ids as [| a ids IH]; intros st; cbv zeta.
  - cbn [foldl]. split; [by rewrite set_heap_id |].
    intros j. by destruct (startTransformsMap st !! j).
  - cbn [foldl].
    destruct (moveElement_spec H dx dy st a) as [E1 L1].
    set (st1 := moveElement H dx dy st a) in *.
    destruct (IH st1) as [E2 L2].
    set (st2 := foldl (moveElement H dx dy) st1 ids) in *.
    assert (startTransformsMap st1 = startTransformsMap st) as Emap.
    { rewrite E1. by destruct st. }
    split.
    { rewrite E2 at 1. rewrite E1. apply set_heap_set_heap. }
    intros j. rewrite L2, Emap, L1.
    destruct (startTransformsMap st !! j) as [t0 |] eqn:Ej.
    + destruct (decide (j = a)) as [-> | Hne].
      * rewrite Ej. rewrite (bool_decide_eq_true_2 (a ∈ a :: ids)) by in_list.
        destruct (bool_decide (a ∈ ids)); [| done].
        destruct (heap st !! a) as [el |]; [| done]. cbn.
        by rewrite setElementTransform_idem.
      * assert (bool_decide (j ∈ a :: ids) = bool_decide (j ∈ ids)) as ->.
        { apply bool_decide_ext. rewrite elem_of_cons. tauto. }
        destruct (startTransformsMap st !! a); by destruct (bool_decide (j ∈ ids)).
    + destruct (startTransformsMap st !! a) eqn:Ea; [| done].
      destruct (decide (j = a)) as [-> | Hne]; [congruence | done].
Qed.

Lemma updateSelectionBBox_spec (H : Host) (ids : list nat) (st : EditorState) :
  updateSelectionBBox H ids st
  = set_selectionBBox (selectionBBox (updateSelectionBBox H ids st)) st.
Proof. unfold updateSelectionBBox. by destruct st. Qed.

Lemma handleMouseMove_not_vertex (H : Host) (e : MouseEvent) (st : EditorState) :
  dragMode st ≠ DragVertex →
  handleMouseMove H e st
  = let pt := getSVGPoint H st (clientX e) (clientY e) in
    drawBranch H e pt (rotateBranch H pt (moveBranch H pt st)).
Proof.
  intros Hd. unfold handleMouseMove. by destruct (dragMode st).
Qed.

Lemma rotateBranch_not_rotate (H : Host) (pt : Point) (st : EditorState) :
  dragMode st ≠ DragRotate → rotateBranch H pt st = st.
Proof. intros Hd. unfold rotateBranch. by destruct (dragMode st). Qed.

Lemma drawBranch_not_drawing (H : Host) (e : MouseEvent) (pt : Point)
      (st : EditorState) :
  isDrawing st = false → drawBranch H e pt st = st.
Proof. intros Hd. unfold drawBranch. by rewrite Hd. Qed.

(** What the move branch does to the state: the heap changes as the fold of
    [moveElement] says, the change flag and the selection box are set, and
    nothing else moves. *)
Lemma moveBranch_spec (H : Host) (pt start : Point) (st : EditorState) :
  dragMode st = DragMove → startPoint st = Some start →
  let dx := (pt_x pt - pt_x start)%float in
  let dy := (pt_y pt - pt_y start)%float in
  let st' := moveBranch H pt st in
  (∃ b c, st' = set_selectionBBox b (set_heap (heap st') (set_didChange c st)))
  ∧ ∀ j, heap st' !! j
         = match startTransformsMap st !! j with
           | Some t0 =>
               if bool_decide (j ∈ selectedElements st)
               then (λ el, setElementTransform H el (translateBy t0 dx dy))
                      <$> heap st !! j
               else heap st !! j
           | None => heap st !! j
           end.
Proof.
  intros Hd Hs. cbv zeta. unfold moveBranch. rewrite Hd, Hs.
  destruct (selectedElements st) as [| a l] eqn:Esel.
  - split.
    + exists (selectionBBox st), (didChange st). by destruct st.
    + intros j. destruct (startTransformsMap st !! j); [| done].
      by rewrite bool_decide_eq_false_2 by apply not_elem_of_nil.
  - set (st1 := set_didChange true st).
    assert (selectedElements st1 = a :: l) as E1 by (subst st1; by destruct st).
    assert (startTransformsMap st1 = startTransformsMap st) as E2
      by (subst st1; by destruct st).
    assert (heap st1 = heap st) as E3 by (subst st1; by destruct st).
    rewrite E1.
    destruct (foldl_moveElement_spec H (pt_x pt - pt_x start) (pt_y pt - pt_y start)
                (a :: l) st1) as [F1 F2].
    set (st2 := foldl _ st1 (a :: l)) in *.
    rewrite (updateSelectionBBox_spec H (selectedElements st2) st2).
    set (b := selectionBBox _).
    assert (heap (set_selectionBBox b st2) = heap st2) as E4 by (by destruct st2).
    split.
    + exists b, true. rewrite E4. by rewrite F1 at 1.
    + intros j. rewrite E4, F2, E2, E3. done.
Qed.

(** C3. A pointer move during a move drag, with no drawing pending: every
    selected shape whose transform was captured at the start of the gesture
    gets that transform back with [(dx, dy)] added to its translate and the
    same rotation and pivot; nothing else about any shape changes, and in
    particular no attribute outside the transform attributes. *)
Theorem move_drag_translates (H : Host) (st : EditorState) (e : MouseEvent)
        (start : Point) :
  dragMode st = DragMove →
  startPoint st = Some start →
  isDrawing st = false →
  let pt := getSVGPoint H st (clientX e) (clientY e) in
  let dx := (pt_x pt - pt_x start)%float in
  let dy := (pt_y pt - pt_y start)%float in
  let st' := handleMouseMove H e st in
  selectedElements st' = selectedElements st
  ∧ (∀ id t0 el,
       id ∈ selectedElements st →
       startTransformsMap st !! id = Some t0 →
       heap st !! id = Some el →
       ∃ el',
         heap st' !! id = Some el'
         ∧ el' = setElementTransform H el (translateBy t0 dx dy)
         ∧ getAttribute el' "data-tx" = Some (JsString H (tx t0 + dx))
         ∧ getAttribute el' "data-ty" = Some (JsString H (ty t0 + dy))
         ∧ getAttribute el' "data-rotation" = Some (JsString H (rotation t0))
         ∧ getAttribute el' "data-cx" = Some (JsString H (cx t0))
         ∧ getAttribute el' "data-cy" = Some (JsString H (cy t0)))
  ∧ (∀ id,
       id ∉ selectedElements st ∨ startTransformsMap st !! id = None →
       heap st' !! id = heap st !! id)
  ∧ (∀ id el,
       heap st !! id = Some el →
       ∃ el',
         heap st' !! id = Some el'
         ∧ tagName el' = tagName el
         ∧ style el' = style el
         ∧ textContent el' = textContent el
         ∧ ∀ name, name ∉ transformAttrs →
             getAttribute el' name = getAttribute el name).
Proof.
  intros Hd Hs Hdraw pt dx dy st'.
  destruct (moveBranch_spec H pt start st Hd Hs) as [(b & c & Est) Hheap].
  fold dx dy in Hheap.
  assert (st' = moveBranch H pt st) as ->.
  { subst st'. rewrite handleMouseMove_not_vertex by (rewrite Hd; discriminate).
    cbv zeta. fold pt.
    rewrite rotateBranch_not_rotate, drawBranch_not_drawing; [done | |].
    - rewrite Est. destruct st; exact Hdraw.
    - rewrite Est. destruct st; cbn in *. rewrite Hd. discriminate. }
  split; [rewrite Est; by destruct st |].
  split; [| split].
  - intros id t0 el Hin Ht0 Hel.
    exists (setElementTransform H el (translateBy t0 dx dy)).
    rewrite Hheap, Ht0, bool_decide_eq_true_2, Hel by done.
    split; [done |]. split; [done |].
    destruct (setElementTransform_fields H el (translateBy t0 dx dy))
      as (E1 & E2 & E3 & E4 & E5 & _).
    by rewrite E1, E2, E3, E4, E5.
  - intros id [Hnot | Hnone]; rewrite Hheap.
    + destruct (startTransformsMap st !! id); [| done].
      by rewrite bool_decide_eq_false_2.
    + by rewrite Hnone.
  - intros id el Hel. rewrite Hheap, Hel.
    destruct (startTransformsMap st !! id) as [t0 |];
      [destruct (bool_decide (id ∈ selectedElements st)) |].
    + eexists. split; [reflexivity |].
      apply setElementTransform_frame.
    + by exists el.
    + by exists el.
Qed.

Lemma not_transform_attr (name : string) :
  bool_decide (name ∈ transformAttrs) = false → name ∉ transformAttrs.
Proof. intros E Hin. by rewrite bool_decide_eq_true_2 in E. Qed.

(** The line and the rectangle of the sample document, dragged by
    [(5, 7)]: the line's translate becomes [(5, 7)], its rotation stays
    zero, and its end points stay where they were. *)
Lemma move_drag_translates_witness :
  let st := Samples.dragging in
  let st' := handleMouseMove TestHost.host Samples.moveTo st in
  selectedElements st = [0; 1]
  ∧ selectedElements st' = selectedElements st
  ∧ ∃ el',
      heap st' !! 0 = Some el'
      ∧ getAttribute el' "data-tx" = Some "5"
      ∧ getAttribute el' "data-ty" = Some "7"
      ∧ getAttribute el' "data-rotation" = Some "0"
      ∧ getAttribute el' "x1" = Some "10"
      ∧ getAttribute el' "y2" = Some "100".
Proof.
  cbv zeta.
  epose proof (move_drag_translates TestHost.host Samples.dragging Samples.moveTo _)
    as T.
  edestruct T as (Hsel & Hmoved & _ & Hframe);
    [vm_compute; reflexivity | vm_compute; reflexivity | vm_compute; reflexivity |].
  split; [vm_compute; reflexivity |].
  split; [exact Hsel |].
  edestruct (Hmoved 0) as (el' & Hl & _ & Etx & Ety & Erot & _);
    [ apply (bool_decide_unpack _); vm_compute; exact I
    | vm_compute; reflexivity | vm_compute; reflexivity |].
  edestruct (Hframe 0) as (el'' & Hl' & _ & _ & _ & Hattr);
    [vm_compute; reflexivity |].
  rewrite Hl in Hl'. injection Hl' as <-.
  exists el'. split; [exact Hl |].
  split; [etransitivity; [exact Etx | vm_compute; reflexivity] |].
  split; [etransitivity; [exact Ety | vm_compute; reflexivity] |].
  split; [etransitivity; [exact Erot | vm_compute; reflexivity] |].
  split; (etransitivity;
          [apply Hattr, not_transform_attr; vm_compute; reflexivity
          | vm_compute; reflexivity]).
Defined.

(** ** Rectangles keep a positive size *)

Lemma float_pos_not_le (v : float) :
  PrimFloat.ltb 0 v = true → PrimFloat.leb v 0 = false.
Proof.
  rewrite ltb_spec, leb_spec.
  change (Prim2SF 0) with (S754_zero false).
  by destruct (Prim2SF v) as [[] | [] | | [] ? ?].
Qed.

Lemma updateElementShape_rect (H : Host) (el : Element) (pointIndex : nat)
      (newX newY : float) :
  Js.toLowerCase (tagName el) = "rect" →
  updateElementShape H el pointIndex newX newY
  = let x := numAttr H el "x" in
    let y := numAttr H el "y" in
    let w := numAttr H el "width" in
    let h := numAttr H el "height" in
    let newW := (if Nat.eqb pointIndex 0 then (x + w) - newX else newX - x)%float in
    let newH := (if Nat.eqb pointIndex 0 then (y + h) - newY else newY - y)%float in
    if (Js.gt newW 0 && Js.gt newH 0)%bool then
      let el := if Nat.eqb pointIndex 0
                then setAttribute (setAttribute el "x" (JsString H newX))
                                  "y" (JsString H newY)
                else el in
      Some (setAttribute (setAttribute el "width" (JsString H newW))
                         "height" (JsString H newH))
    else Some el.
Proof.
  intros Htag. unfold updateElementShape. cbv zeta. rewrite Htag.
  change (String.eqb "rect" "line") with false.
  change (String.eqb "rect" "circle") with false.
  change (String.eqb "rect" "ellipse") with false.
  change (String.eqb "rect" "rect") with true.
  cbv iota. by destruct (Nat.eqb pointIndex 0).
Qed.

(** C4. Editing either resize handle of a rectangle of positive width and
    height, towards any point: the edit is applied only when the width and
    the height it computes are both positive, and is dropped otherwise, so
    the rectangle keeps a positive width and a positive height (the sizes
    the edit writes being numbers that survive formatting and parsing). *)
Theorem rect_edit_keeps_size_positive (H : Host) (el : Element)
        (pointIndex : nat) (newX newY : float) :
  Js.toLowerCase (tagName el) = "rect" →
  let x := numAttr H el "x" in
  let y := numAttr H el "y" in
  let w := numAttr H el "width" in
  let h := numAttr H el "height" in
  let newW := (if Nat.eqb pointIndex 0 then (x + w) - newX else newX - x)%float in
  let newH := (if Nat.eqb pointIndex 0 then (y + h) - newY else newY - y)%float in
  PrimFloat.ltb 0 w = true →
  PrimFloat.ltb 0 h = true →
  reads_back H newW →
  reads_back H newH →
  ∃ el',
    updateElementShape H el pointIndex newX newY = Some el'
    ∧ PrimFloat.ltb 0 (numAttr H el' "width") = true
    ∧ PrimFloat.ltb 0 (numAttr H el' "height") = true
    ∧ PrimFloat.leb (numAttr H el' "width") 0 = false
    ∧ PrimFloat.leb (numAttr H el' "height") 0 = false
    ∧ ((PrimFloat.ltb 0 newW && PrimFloat.ltb 0 newH)%bool = false → el' = el).
Proof.
  intros Htag x y w h newW newH Hw Hh HrW HrH.
  rewrite (updateElementShape_rect H el pointIndex newX newY Htag).
  cbv zeta. fold x y w h. fold newW newH. unfold Js.gt.
  destruct (PrimFloat.ltb 0 newW) eqn:EW; cbn [andb];
    [destruct (PrimFloat.ltb 0 newH) eqn:EH |].
  - eexists. split; [reflexivity |].
    assert (numAttr H (setAttribute
                         (setAttribute
                            (if Nat.eqb pointIndex 0
                             then setAttribute (setAttribute el "x" (JsString H newX))
                                               "y" (JsString H newY)
                             else el) "width" (JsString H newW))
                         "height" (JsString H newH)) "width" = newW) as ->.
    { rewrite numAttr_set_ne by discriminate. by apply numAttr_written. }
    rewrite numAttr_written by done.
    repeat split; try done; by apply float_pos_not_le.
  - exists el. repeat split; try done; by apply float_pos_not_le.
  - exists el. repeat split; try done; by apply float_pos_not_le.
Qed.

(** The rectangle [{x: 10, y: 10, width: 50, height: 50}] of the sample
    document, its top-left handle dragged to [(80, 10)]: the edit computes
    the width [-20], and the rectangle stays as it is. *)
Lemma rect_edit_keeps_size_positive_witness :
  numAttr TestHost.host Samples.rectEl "width" = 50%float
  ∧ updateElementShape TestHost.host Samples.rectEl 0 80 10 = Some Samples.rectEl
  ∧ PrimFloat.leb (numAttr TestHost.host Samples.rectEl "width") 0 = false.
Proof.
  split; [vm_compute; reflexivity |].
  destruct (rect_edit_keeps_size_positive TestHost.host Samples.rectEl 0 80 10)
    as (el' & Hupd & _ & _ & Hle & _ & Hsame);
    [vm_compute; reflexivity .. |].
  rewrite (Hsame ltac:(vm_compute; reflexivity)) in Hupd, Hle.
  split; [exact Hupd | exact Hle].
Defined.

(** ** Releasing the pointer over a pending shape *)

(** Reduce field reads and field updates of an explicit state, and nothing
    else. *)
Ltac fields :=
  cbn [scale tool heap nextId mount selectedElements controlPoints
       selectionBBox history historyIndex dragMode isDraggingPoint isDrawing
       startPoint currentDrawElement didChange currentHexColor rotationCenter
       startTransformsMap
       set_scale set_tool set_heap set_nextId set_mount set_selectedElements
       set_controlPoints set_selectionBBox set_history set_historyIndex
       set_dragMode set_isDraggingPoint set_isDrawing set_startPoint
       set_currentDrawElement set_didChange set_currentHexColor
       set_rotationCenter set_startTransformsMap] in *.

Lemma finishDrag_idle (H : Host) (i : Z) (st : EditorState) :
  dragMode st = DragNone → finishDrag H i st = st.
Proof. intros Hd. unfold finishDrag. by rewrite Hd. Qed.

Lemma tiny_removed (H : Host) (st : EditorState) (el : nat) (obj : Element) :
  dragMode st = DragNone →
  isDrawing st = true →
  currentDrawElement st = Some el →
  heap st !! el = Some obj →
  isTiny H obj = true →
  handleMouseUp H st
  = set_currentDrawElement None (removeChild el (set_isDrawing false st)).
Proof.
  intros Hd Hdraw Hcur Hobj Htiny.
  unfold handleMouseUp. cbv zeta. rewrite finishDrag_idle by done.
  unfold finishDrawing. rewrite Hdraw.
  destruct st; fields. subst. rewrite Hobj.
  change (default (createElementNS "") (Some obj)) with obj.
  by rewrite Htiny.
Qed.

Lemma isTiny_line (H : Host) (el : Element) :
  tagName el = "line" →
  isTiny H el
  = (Js.lt (Js.Math_abs (numAttr H el "x1" - numAttr H el "x2")) 1
     && Js.lt (Js.Math_abs (numAttr H el "y1" - numAttr H el "y2")) 1)%bool.
Proof.
  intros Htag. unfold isTiny. rewrite Htag.
  change (String.eqb "line" "circle") with false.
  change (String.eqb "line" "ellipse") with false.
  change (String.eqb "line" "rect") with false.
  change (String.eqb "line" "line") with true.
  cbn [andb orb]. reflexivity.
Qed.

(** The line drawn from [p1] to [p2] without the constrain key. *)
Lemma drawn_line_attrs (H : Host) (color : string) (p1 p2 : Point) :
  let obj := growShape H ToolLine false p1 p2 (newShape H ToolLine color p1) in
  tagName obj = "line"
  ∧ getAttribute obj "x1" = Some (JsString H (pt_x p1))
  ∧ getAttribute obj "y1" = Some (JsString H (pt_y p1))
  ∧ getAttribute obj "x2" = Some (JsString H (pt_x p2))
  ∧ getAttribute obj "y2" = Some (JsString H (pt_y p2)).
Proof.
  cbv zeta. unfold growShape, newShape. cbv zeta iota.
  split; [reflexivity |].
  repeat split;
    repeat (first [ rewrite getAttribute_set_eq; reflexivity
                  | rewrite getAttribute_set_ne by discriminate ]).
Qed.

Lemma drawn_line_tiny (H : Host) (color : string) (p1 p2 : Point) :
  reads_back H (pt_x p1) → reads_back H (pt_y p1) →
  reads_back H (pt_x p2) → reads_back H (pt_y p2) →
  PrimFloat.ltb (PrimFloat.abs (pt_x p1 - pt_x p2)) 1 = true →
  PrimFloat.ltb (PrimFloat.abs (pt_y p1 - pt_y p2)) 1 = true →
  isTiny H (growShape H ToolLine false p1 p2 (newShape H ToolLine color p1)) = true.
Proof.
  intros Rx1 Ry1 Rx2 Ry2 Hx Hy.
  destruct (drawn_line_attrs H color p1 p2) as (Htag & E1 & E2 & E3 & E4).
  rewrite isTiny_line by exact Htag.
  unfold numAttr. rewrite E1, E2, E3, E4.
  unfold reads_back in *. rewrite Rx1, Ry1, Rx2, Ry2.
  unfold Js.lt, Js.Math_abs. by rewrite Hx, Hy.
Qed.

Lemma filter_fresh (id : nat) (l : list nat) :
  id ∉ l → filter (λ j, j ≠ id) (l ++ [id])%list = l.
Proof.
  intros Hid. rewrite filter_app, filter_cons_False, filter_nil, app_nil_r by auto.
  induction l as [| a l IH]; [done |].
  apply not_elem_of_cons in Hid as [Hne Hid].
  rewrite filter_cons_True by done. f_equal. by apply IH.
Qed.

Lemma omap_ext_in {A B} (f g : A → option B) (l : list A) :
  (∀ x, x ∈ l → f x = g x) → omap f l = omap g l.
Proof.
  intros Hfg. induction l as [| a l IH]; [done |].
  cbn. rewrite (Hfg a) by in_list. rewrite IH; [done |].
  intros x Hx. apply Hfg. by apply list_elem_of_further.
Qed.

(** Pressing with the line tool: the editor starts drawing, drops the
    selection, and appends a new zero-length line to the document. *)
Lemma press_with_line_tool (H : Host) (e : MouseEvent) (a : option string)
      (st : EditorState) (t : SvgTree) :
  tool st = ToolLine → mount st = Some t →
  let pt := getSVGPoint H st (clientX e) (clientY e) in
  handleMouseDownCanvas H e a st
  = mkEditorState (scale st) ToolLine
      (<[nextId st := newShape H ToolLine (currentHexColor st) pt]> (heap st))
      (S (nextId st))
      (Some (mkSvgTree (root t) (children t ++ [nextId st])%list))
      [] [] None (history st) (historyIndex st) (dragMode st)
      (isDraggingPoint st) true (Some pt) (Some (nextId st)) false
      (currentHexColor st) (rotationCenter st) (startTransformsMap st).
Proof.
  intros Htool Hmount. cbv zeta. unfold handleMouseDownCanvas. cbv zeta.
  rewrite Htool, Hmount.
  generalize (getSVGPoint H st (clientX e) (clientY e)). intros pt.
  destruct st; fields. subst.
  unfold deselect, allocElement, appendChild. fields. reflexivity.
Qed.

(** Moving while a line is pending, with no drag under way and the
    constrain key up: the pending line's end follows the pointer. *)
Lemma move_while_drawing_line (H : Host) (e : MouseEvent) (st : EditorState)
      (id : nat) (start : Point) :
  dragMode st = DragNone → tool st = ToolLine → isDrawing st = true →
  currentDrawElement st = Some id → startPoint st = Some start →
  shiftKey e = false →
  let pt := getSVGPoint H st (clientX e) (clientY e) in
  handleMouseMove H e st
  = set_heap (alter (growShape H ToolLine false start pt) id (heap st))
             (set_didChange true st).
Proof.
  intros Hd Htool Hdraw Hcur Hstart Hshift. cbv zeta.
  rewrite handleMouseMove_not_vertex by (rewrite Hd; discriminate). cbv zeta.
  generalize (getSVGPoint H st (clientX e) (clientY e)). intros pt.
  unfold moveBranch. rewrite Hd.
  rewrite rotateBranch_not_rotate by (rewrite Hd; discriminate).
  unfold drawBranch. rewrite Hdraw, Hcur, Hstart, Hshift.
  unfold mutate. destruct st; fields. by subst.
Qed.

(** ** The tree and the counter of identities along every run *)

Lemma treeIsOlder_same_view (st st' : EditorState) :
  treeView st' = treeView st → treeIsOlder st → treeIsOlder st'.
Proof. unfold treeView, treeIsOlder. by intros [= -> ->]. Qed.

Lemma foldl_same_tree {A} (f : EditorState → A → EditorState) (l : list A)
      (st : EditorState) :
  (∀ s a, treeView (f s a) = treeView s) →
  treeView (foldl f st l) = treeView st.
Proof.
  intros Hf. revert st. induction l as [| a l IH]; intros st; [done |].
  cbn [foldl]. by rewrite IH, Hf.
Qed.

Lemma mutate_same_tree (id : nat) (f : Element → Element) (st : EditorState) :
  treeView (mutate id f st) = treeView st.
Proof. by destruct st. Qed.

Lemma addToHistoryFrom_same_tree (H : Host) (i : Z) (st : EditorState) :
  treeView (addToHistoryFrom H i st) = treeView st.
Proof.
  unfold addToHistoryFrom. destruct (getCurrentSVGString H st) as [c |]; [| done].
  destruct (String.eqb c ""); [done |]. by destruct st.
Qed.

Lemma moveBranch_same_tree (H : Host) (pt : Point) (st : EditorState) :
  treeView (moveBranch H pt st) = treeView st.
Proof.
  unfold moveBranch.
  destruct (dragMode st); try done.
  destruct (selectedElements st) as [| a l] eqn:Es; [done |].
  destruct (startPoint st) as [start |]; [| done].
  unfold updateSelectionBBox.
  transitivity (treeView (foldl (moveElement H (pt_x pt - pt_x start)
                                             (pt_y pt - pt_y start))
                                (set_didChange true st)
                                (selectedElements (set_didChange true st)))).
  { by destruct (foldl _ _ _). }
  rewrite foldl_same_tree; [by destruct st |].
  intros s id. unfold moveElement.
  destruct (startTransformsMap s !! id); [apply mutate_same_tree | done].
Qed.

Lemma rotateBranch_same_tree (H : Host) (pt : Point) (st : EditorState) :
  treeView (rotateBranch H pt st) = treeView st.
Proof.
  unfold rotateBranch.
  destruct (dragMode st); try done.
  destruct (selectedElements st) as [| a l] eqn:Es; [done |].
  destruct (startPoint st) as [start |]; [| done].
  destruct (rotationCenter st) as [center |]; [| done]. cbv zeta.
  unfold updateSelectionBBox.
  match goal with
  | |- treeView (set_selectionBBox _ ?s) = _ => transitivity (treeView s)
  end.
  { by destruct (foldl _ _ _). }
  rewrite foldl_same_tree; [by destruct st |].
  intros s id. unfold rotateElement.
  destruct (startTransformsMap s !! id); [apply mutate_same_tree | done].
Qed.

Lemma drawBranch_same_tree (H : Host) (e : MouseEvent) (pt : Point)
      (st : EditorState) :
  treeView (drawBranch H e pt st) = treeView st.
Proof.
  unfold drawBranch.
  destruct (isDrawing st); [| done].
  destruct (currentDrawElement st); [| done].
  destruct (startPoint st); [| done].
  rewrite mutate_same_tree. by destruct st.
Qed.

Lemma handleMouseMove_same_tree (H : Host) (e : MouseEvent) (st : EditorState) :
  treeView (handleMouseMove H e st) = treeView st.
Proof.
  unfold handleMouseMove. cbv zeta.
  generalize (getSVGPoint H st (clientX e) (clientY e)); intros pt.
  assert (treeView (drawBranch H e pt (rotateBranch H pt (moveBranch H pt st)))
          = treeView st) as Hother
    by (by rewrite drawBranch_same_tree, rotateBranch_same_tree,
                   moveBranch_same_tree).
  destruct (dragMode st); try exact Hother.
  destruct (isDraggingPoint st) as [idx |]; [| exact Hother].
  destruct (selectedElements st) as [| el [| ? ?]] eqn:Es; try exact Hother.
  destruct (updateElementShape H _ idx _ _) as [obj' |]; [| by destruct st].
  unfold updateSelectionBBox.
  set (st2 := mutate el (λ _, obj') (set_didChange true st)).
  transitivity (treeView st2); [by destruct st2 |].
  subst st2. rewrite mutate_same_tree. by destruct st.
Qed.

Lemma finishDrag_same_tree (H : Host) (i : Z) (st : EditorState) :
  treeView (finishDrag H i st) = treeView st.
Proof.
  unfold finishDrag.
  assert (∀ s, treeView
                 (if didChange s
                  then updateSelectionBBox H
                         (selectedElements (set_didChange false (addToHistoryFrom H i s)))
                         (set_didChange false (addToHistoryFrom H i s))
                  else s) = treeView s) as Hs.
  { intros s. destruct (didChange s); [| done].
    transitivity (treeView (addToHistoryFrom H i s));
      [by destruct (addToHistoryFrom H i s) | apply addToHistoryFrom_same_tree]. }
  destruct (dragMode st); [done | ..]; cbv zeta;
    (etransitivity; [apply Hs | by destruct st]).
Qed.

Lemma removeChild_older (id : nat) (st : EditorState) :
  treeIsOlder st → treeIsOlder (removeChild id st).
Proof.
  unfold removeChild, treeIsOlder. intros Hwf.
  destruct (mount st) as [t |] eqn:Em; [| by rewrite Em].
  destruct st; fields. subst. intros t' [= <-] j Hj. cbn [children] in Hj.
  apply list_elem_of_filter in Hj as [_ Hj]. by apply (Hwf t).
Qed.

Lemma allocate_append_older (el : Element) (st : EditorState) :
  treeIsOlder st →
  treeIsOlder (appendChild (allocElement el st).2 (allocElement el st).1).
Proof.
  unfold allocElement, appendChild, treeIsOlder. cbn [fst snd]. intros Hwf.
  destruct st as [? ? ? ? [t |] ? ? ? ? ? ? ? ? ? ? ? ? ? ?]; fields.
  - intros t' [= <-] j Hj. cbn [children] in Hj.
    apply elem_of_app in Hj as [Hj | ->%list_elem_of_singleton]; [| lia].
    specialize (Hwf t eq_refl j Hj). lia.
  - done.
Qed.

Lemma mountMarkup_older (m : SvgMarkup) (st : EditorState) :
  treeIsOlder (mountMarkup m st).
Proof.
  destruct (mountMarkup_spec m st) as (_ & Hm & Hn & _).
  unfold treeIsOlder. rewrite Hm, Hn. intros t [= <-] j Hj. cbn [children] in Hj.
  apply elem_of_seq in Hj. lia.
Qed.

Lemma finishDrawing_older (H : Host) (i : Z) (st : EditorState) :
  treeIsOlder st → treeIsOlder (finishDrawing H i st).
Proof.
  intros Hwf. unfold finishDrawing.
  destruct (isDrawing st); [| done]. cbv zeta.
  set (st1 := set_isDrawing false st).
  assert (treeIsOlder st1) as Hwf1
    by (apply (treeIsOlder_same_view st); [by destruct st | done]).
  destruct (currentDrawElement st1) as [el |]; [| done].
  destruct (isTiny H _).
  - apply (treeIsOlder_same_view (removeChild el st1));
      [by destruct (removeChild el st1) | by apply removeChild_older].
  - apply (treeIsOlder_same_view st1); [| done].
    unfold updateSelectionBBox.
    match goal with
    | |- treeView (set_currentDrawElement _ (set_tool _ (addToHistoryFrom _ _ ?s))) = _ =>
        transitivity (treeView (addToHistoryFrom H i s));
        [by destruct (addToHistoryFrom H i s) |];
        rewrite addToHistoryFrom_same_tree
    end.
    by destruct st1.
Qed.

Lemma handleMouseDownCanvas_older (H : Host) (e : MouseEvent)
      (a : option string) (st : EditorState) :
  treeIsOlder st → treeIsOlder (handleMouseDownCanvas H e a st).
Proof.
  intros Hwf. unfold handleMouseDownCanvas. cbv zeta.
  generalize (getSVGPoint H st (clientX e) (clientY e)); intros pt.
  destruct (tool st) eqn:Et.
  - (* select *)
    apply (treeIsOlder_same_view st); [| done].
    destruct (target e) as [target |]; [| by destruct st].
    destruct (_ && _)%bool; [| by destruct st].
    unfold captureTransforms, updateSelectionBBox.
    destruct (clickSelection _ _ _) as [| ? [| ? ?]]; by destruct st.
  - destruct (mount st) eqn:Em; [| done].
    set (st0 := deselect _).
    assert (treeIsOlder st0) as Hwf0
      by (apply (treeIsOlder_same_view st); [subst st0; by destruct st | done]).
    set (newEl := newShape H ToolLine (currentHexColor st0) pt).
    pose proof (allocate_append_older newEl st0 Hwf0) as Hwf1.
    destruct (allocElement newEl st0) as [st1 id]. cbn [fst snd] in Hwf1.
    apply (treeIsOlder_same_view (appendChild id st1));
      [by destruct (appendChild id st1) | done].
  - destruct (mount st) eqn:Em; [| done].
    set (st0 := deselect _).
    assert (treeIsOlder st0) as Hwf0
      by (apply (treeIsOlder_same_view st); [subst st0; by destruct st | done]).
    set (newEl := newShape H ToolRect (currentHexColor st0) pt).
    pose proof (allocate_append_older newEl st0 Hwf0) as Hwf1.
    destruct (allocElement newEl st0) as [st1 id]. cbn [fst snd] in Hwf1.
    apply (treeIsOlder_same_view (appendChild id st1));
      [by destruct (appendChild id st1) | done].
  - destruct (mount st) eqn:Em; [| done].
    set (st0 := deselect _).
    assert (treeIsOlder st0) as Hwf0
      by (apply (treeIsOlder_same_view st); [subst st0; by destruct st | done]).
    set (newEl := newShape H ToolCircle (currentHexColor st0) pt).
    pose proof (allocate_append_older newEl st0 Hwf0) as Hwf1.
    destruct (allocElement newEl st0) as [st1 id]. cbn [fst snd] in Hwf1.
    apply (treeIsOlder_same_view (appendChild id st1));
      [by destruct (appendChild id st1) | done].
  - destruct (mount st) eqn:Em; [| done].
    set (st0 := deselect _).
    assert (treeIsOlder st0) as Hwf0
      by (apply (treeIsOlder_same_view st); [subst st0; by destruct st | done]).
    destruct (Js.truthy a).
    + set (newEl := newText H _ _ _).
      pose proof (allocate_append_older newEl st0 Hwf0) as Hwf1.
      destruct (allocElement newEl st0) as [st1 id]. cbn [fst snd] in Hwf1.
      apply (treeIsOlder_same_view (appendChild id st1)); [| done].
      unfold updateSelectionBBox, addToHistory.
      transitivity (treeView (addToHistoryFrom H (historyIndex (appendChild id st1))
                                               (appendChild id st1)));
        [by destruct (addToHistoryFrom _ _ _) | apply addToHistoryFrom_same_tree].
    + apply (treeIsOlder_same_view st0); [by destruct st0 | done].
Qed.

Lemma step_older (H : Host) (st : EditorState) (ev : Event) :
  treeIsOlder st → treeIsOlder (step H st ev).
Proof.
  intros Hwf. destruct ev; cbn [step].
  - (* load *)
    unfold loadSvgContent.
    destruct (negb (Js.truthy svgContent)); [done |]. cbv zeta.
    destruct (negb (String.eqb _ "svg"));
      [apply (treeIsOlder_same_view st); [by destruct st | done] |].
    destruct (negb (hasStyle H _)).
    + apply (treeIsOlder_same_view st); [by destruct st | done].
    + match goal with
      | |- context [mountMarkup ?m ?s] =>
          pose proof (mountMarkup_older m s) as Hm;
          generalize dependent (mountMarkup m s)
      end.
      intros st1 Hm. apply (treeIsOlder_same_view st1); [by destruct st1 | done].
  - apply (treeIsOlder_same_view st); [by destruct st | done].
  - apply (treeIsOlder_same_view st); [by destruct st | done].
  - by apply handleMouseDownCanvas_older.
  - apply (treeIsOlder_same_view st); [| done].
    unfold handleBBoxMouseDown. by destruct (tool st).
  - apply (treeIsOlder_same_view st); [| done].
    unfold handleRotateMouseDown. by destruct (tool st), (selectionBBox st).
  - apply (treeIsOlder_same_view st); [by destruct st | done].
  - apply (treeIsOlder_same_view st); [apply handleMouseMove_same_tree | done].
  - unfold handleMouseUp. cbv zeta. apply finishDrawing_older.
    apply (treeIsOlder_same_view st); [apply finishDrag_same_tree | done].
  - apply (treeIsOlder_same_view st); [| done].
    unfold handleDoubleClick.
    destruct (tool st); try done.
    destruct (target e) as [target |]; [| done].
    destruct (heap st !! target) as [obj |]; [| done].
    destruct (String.eqb _ "text"); [| done]. cbv zeta.
    destruct answer as [newText |]; [| done].
    destruct (negb _); [| done].
    unfold addToHistory. rewrite addToHistoryFrom_same_tree.
    destruct (_ && _)%bool; unfold updateSelectionBBox; by destruct st.
  - (* undo *)
    unfold handleUndo. destruct (_ >? _)%Z; [| done].
    unfold restoreState. cbv zeta.
    match goal with
    | |- context [mountMarkup ?m ?s] =>
        pose proof (mountMarkup_older m s) as Hm;
        generalize dependent (mountMarkup m s)
    end.
    intros st1 Hm. apply (treeIsOlder_same_view st1); [by destruct st1 | done].
  - unfold handleRedo. destruct (_ <? _)%Z; [| done].
    unfold restoreState. cbv zeta.
    match goal with
    | |- context [mountMarkup ?m ?s] =>
        pose proof (mountMarkup_older m s) as Hm;
        generalize dependent (mountMarkup m s)
    end.
    intros st1 Hm. apply (treeIsOlder_same_view st1); [by destruct st1 | done].
  - (* delete *)
    unfold handleDelete. destruct (selectedElements st) as [| a l]; [done |].
    assert (treeIsOlder (foldl (λ st el, removeChild el st) st (a :: l))) as Hf.
    { generalize (a :: l). intros ids. revert st Hwf.
      induction ids as [| x ids IH]; intros st Hwf; [done |].
      cbn [foldl]. by apply IH, removeChild_older. }
    generalize dependent (foldl (λ st el, removeChild el st) st (a :: l)).
    intros st1 Hf. apply (treeIsOlder_same_view st1); [| done].
    unfold addToHistory. rewrite addToHistoryFrom_same_tree. by destruct st1.
  - apply (treeIsOlder_same_view st); [| done].
    unfold handleToggleDash. destruct (selectedElements st) as [| a l]; [done |].
    unfold addToHistory. rewrite addToHistoryFrom_same_tree.
    apply foldl_same_tree. intros s id. apply mutate_same_tree.
  - apply (treeIsOlder_same_view st); [| done].
    unfold handleChangeStrokeWidth.
    destruct (selectedElements st) as [| a l]; [done |].
    unfold addToHistory. rewrite addToHistoryFrom_same_tree.
    apply foldl_same_tree. intros s id. apply mutate_same_tree.
  - apply (treeIsOlder_same_view st); [by destruct st | done].
  - apply (treeIsOlder_same_view st); [by destruct st | done].
  - apply (treeIsOlder_same_view st); [by destruct st | done].
Qed.

Lemma reachable_older (H : Host) (st : EditorState) :
  reachable H st → treeIsOlder st.
Proof.
  intros (color & evs & ->). unfold run.
  induction evs as [| ev evs IH] using rev_ind; [done |].
  rewrite foldl_snoc. by apply step_older.
Qed.

(** C6. A pending rectangle without height is not discarded. With the
    rectangle tool, a press at [(10, 10)], a move to [(60, 10)] and a
    release on the sample document: the pending rectangle has width 50 and
    height 0, the test made on release looks at the width of a rectangle
    only, and the shape, which cannot be seen, is kept as the fourth shape
    of the document, selected and committed as the second snapshot. *)
Theorem flat_rectangle_is_kept_on_release :
  let st := MoreSamples.rectTool in
  let st' :=
    run TestHost.host st
        [MouseDownCanvas Samples.strokeStart None;
         MouseMove MoreSamples.flatEnd; MouseUp] in
  let obj := default (createElementNS "") (heap st' !! 3) in
  (children <$> mount st) = Some [0; 1; 2]
  ∧ (children <$> mount st') = Some [0; 1; 2; 3]
  ∧ heap st !! 3 = None
  ∧ heap st' !! 3 = Some obj
  ∧ tagName obj = "rect"
  ∧ getAttribute obj "x" = Some "10" ∧ getAttribute obj "y" = Some "10"
  ∧ getAttribute obj "width" = Some "50"
  ∧ getAttribute obj "height" = Some "0"
  ∧ isTiny TestHost.host obj = false
  ∧ selectedElements st' = [3]
  ∧ tool st' = ToolSelect
  ∧ length (history st) = 1
  ∧ length (history st') = 2
  ∧ historyIndex st' = 1%Z.
Proof.
  cbv zeta. do 14 (split; [vm_compute; reflexivity |]).
  vm_compute. reflexivity.
Qed.

(** ** The generation service *)

Lemma substring_length_le (s : string) (n m : nat) :
  (String.length (String.substring n m s) ≤ String.length s - n)%nat.
Proof.
  revert n m. induction s as [| c s IH]; intros [| n] [| m]; cbn; try lia.
  - specialize (IH 0 m). lia.
  - apply IH.
  - apply IH.
Qed.

Lemma indexOf_found (s p : string) (i : nat) :
  Js.indexOf s p = Some i →
  String.substring i (String.length p) s = p
  ∧ (p ≠ "" → (i + String.length p ≤ String.length s)%nat)
  ∧ ∀ j, (j < i)%nat → String.substring j (String.length p) s ≠ p.
Proof.
  intros Hi. unfold Js.indexOf in Hi.
  pose proof (index_correct1 0 i p s Hi) as H1.
  split; [exact H1 |]. split.
  - intros Hp. pose proof (substring_length_le s i (String.length p)) as Hl.
    rewrite H1 in Hl.
    destruct p as [| c p]; [done |]. cbn [String.length] in *. lia.
  - intros j Hj. apply (index_correct2 0 i p s Hi); lia.
Qed.

Lemma Js_substring_in_range (s : string) (a b : nat) :
  (a ≤ b)%nat → (b ≤ String.length s)%nat →
  Js.substring s a b = String.substring a (b - a) s.
Proof.
  intros Hab Hb. unfold Js.substring. cbv zeta.
  rewrite (Nat.min_l a) by lia. rewrite (Nat.min_l b) by lia.
  rewrite Nat.min_l, Nat.max_r by lia. reflexivity.
Qed.

(** The reply of the generation service is not cut at the last closing
    tag: with a nested [<svg>] in a reply that carries prose around the
    markup, the service returns the text up to the first [</svg>], which is
    not what lies between the first [<svg] and the last [</svg>]. *)
Lemma extraction_stops_at_first_closing_tag :
  let reply := "Here: <svg><svg></svg></svg> done" in
  Gemini.generateGeometrySvg "two squares" None (Some "key") None
    (λ _, Gemini.Responds (Some reply))
  = Gemini.Resolved "<svg><svg></svg>"
  ∧ Gemini.firstToLast_spec (Gemini.stripFences reply)
    = Some "<svg><svg></svg></svg>"
  ∧ "<svg><svg></svg>" ≠ "<svg><svg></svg></svg>".
Proof. cbv zeta. split; [| split]; [vm_compute; reflexivity .. | discriminate]. Qed.

(** C7, amended. The service rejects with its own message when no key is
    set, when the model's reply is empty, and when the cleaned reply is not
    wrapped in the root tags and lacks [<svg] or [</svg>]; an error of the
    upstream call is passed on with its message. Otherwise it strips the
    code fences and the surrounding white space; a cleaned reply that starts
    with [<svg] and ends with [</svg>] is returned as it is; in any other
    one whose first [<svg] comes before its first [</svg>], the text from
    that [<svg] through that first [</svg>] is returned. *)
Theorem generation_returns_first_svg_element (prompt : string)
        (options : option Gemini.DrawingOptions)
        (userApiKey envApiKey : option string)
        (generateContent : string → Gemini.Upstream) :
  let outcome :=
    Gemini.generateGeometrySvg prompt options userApiKey envApiKey generateContent in
  let hasKey := (Js.truthy userApiKey || Js.truthy envApiKey)%bool in
  let upstream := generateContent (Gemini.buildPrompt prompt options) in
  (hasKey = false → outcome = Gemini.Rejected Gemini.msgNoKey)
  ∧ (hasKey = true → ∀ message,
       upstream = Gemini.Throws message →
       outcome = Gemini.Rejected (Js.or_default message Gemini.msgFallback))
  ∧ (hasKey = true → ∀ text,
       upstream = Gemini.Responds text →
       let cleaned := Gemini.stripFences (default "" text) in
       let wrapped :=
         (Js.startsWith cleaned "<svg" && Js.endsWith cleaned "</svg>")%bool in
       (Js.truthy text = false → outcome = Gemini.Rejected Gemini.msgNoReply)
       ∧ (Js.truthy text = true → wrapped = true →
          outcome = Gemini.Resolved cleaned)
       ∧ (Js.truthy text = true → wrapped = false →
          ∀ s e,
            Js.indexOf cleaned "<svg" = Some s →
            Js.indexOf cleaned "</svg>" = Some e →
            (s < e)%nat →
            outcome = Gemini.Resolved (String.substring s (e + 6 - s) cleaned)
            ∧ String.substring s 4 cleaned = "<svg"
            ∧ String.substring e 6 cleaned = "</svg>"
            ∧ (∀ j, (j < s)%nat → String.substring j 4 cleaned ≠ "<svg")
            ∧ (∀ j, (j < e)%nat → String.substring j 6 cleaned ≠ "</svg>"))
       ∧ (Js.truthy text = true → wrapped = false →
          Js.indexOf cleaned "<svg" = None ∨ Js.indexOf cleaned "</svg>" = None →
          outcome = Gemini.Rejected Gemini.msgNotSvg)).
Proof.
  cbv zeta. unfold Gemini.generateGeometrySvg.
  split; [by intros -> |].
  split; [intros -> message ->; reflexivity |].
  intros -> text ->. cbn [negb]. unfold Gemini.extractSvg.
  split; [by intros -> |].
  split.
  { intros -> Hw. cbn [negb].
    apply andb_prop in Hw as [-> ->]. reflexivity. }
  assert (∀ a b : bool, (a && b)%bool = false → (negb a || negb b)%bool = true)
    as Hnot by (by intros [] []).
  split.
  - intros -> Hw s e Hs He Hse. cbn [negb]. rewrite (Hnot _ _ Hw), Hs, He.
    apply indexOf_found in Hs as (S1 & _ & S3).
    apply indexOf_found in He as (E1 & E2 & E3).
    cbn [String.length] in *.
    rewrite Js_substring_in_range by (try apply E2; (lia || discriminate)).
    unfold Gemini.rethrow. done.
  - intros -> Hw Hnone. cbn [negb]. rewrite (Hnot _ _ Hw).
    destruct Hnone as [-> | Hn]; [reflexivity |].
    rewrite Hn. by destruct (Js.indexOf _ "<svg").
Qed.

(** A fenced reply with prose before the markup: the fences and the prose
    go, the [<svg>] element stays. *)
Lemma generation_returns_first_svg_element_witness :
  let reply := "Sure! ```svg <svg><line></line></svg> ```" in
  Gemini.stripFences reply = "Sure!  <svg><line></line></svg>"
  ∧ Gemini.generateGeometrySvg "a line" None None (Some "key")
      (λ _, Gemini.Responds (Some reply))
    = Gemini.Resolved (String.substring 7 (25 + 6 - 7)
                         (Gemini.stripFences (default "" (Some reply))))
  ∧ String.substring 7 (25 + 6 - 7) (Gemini.stripFences reply)
    = "<svg><line></line></svg>".
Proof.
  cbv zeta. split; [vm_compute; reflexivity |].
  split; [| vm_compute; reflexivity].
  pose proof (generation_returns_first_svg_element "a line" None None (Some "key")
                (λ _, Gemini.Responds
                        (Some "Sure! ```svg <svg><line></line></svg> ```")))
    as (_ & _ & T).
  destruct (T eq_refl _ eq_refl) as (_ & _ & T' & _).
  apply T'; first [lia | vm_compute; reflexivity].
Defined.

(** ** Style commands *)

Lemma foldl_mutate_spec (f : Element → Element) (ids : list nat)
      (st : EditorState) :
  NoDup ids →
  let st' := foldl (λ st el, mutate el f st) st ids in
  st' = set_heap (heap st') st
  ∧ ∀ j, heap st' !! j
         = if bool_decide (j ∈ ids) then f <$> heap st !! j else heap st !! j.
Proof.
  revert st. induction ids as [| a ids IH]; intros st Hnd; cbv zeta.
  - cbn [foldl]. split; [by rewrite set_heap_id | done].
  - cbn [foldl]. apply NoDup_cons in Hnd as [Ha Hnd].
    destruct (IH (mutate a f st) Hnd) as [E L].
    set (st2 := foldl _ (mutate a f st) ids) in *.
    split.
    + rewrite E at 1. rewrite mutate_spec. apply set_heap_set_heap.
    + intros j. rewrite L, mutate_spec.
      destruct (set_heap_fields (alter f a (heap st)) st) as (-> & _).
      destruct (decide (j = a)) as [-> | Hne].
      * rewrite (bool_decide_eq_false_2 (a ∈ ids)) by done.
        rewrite (bool_decide_eq_true_2 (a ∈ a :: ids)) by in_list.
        apply lookup_alter_eq.
      * rewrite lookup_alter_ne by done.
        apply (f_equal (λ b : bool, if b then _ else _)).
        apply bool_decide_ext. rewrite elem_of_cons. tauto.
Qed.

Lemma isDashed_toggleDash (el : Element) :
  isDashed (toggleDash el) = negb (isDashed el).
Proof.
  unfold toggleDash. destruct (isDashed el) eqn:E; cbn [negb].
  - unfold isDashed, getStyle. cbv zeta.
    destruct el as [t a s c].
    cbv [setStyle setAttribute getAttribute attributes style tagName textContent].
    rewrite !lookup_insert_eq. reflexivity.
  - unfold isDashed, getStyle. cbv zeta.
    destruct el as [t a s c].
    cbv [setStyle setAttribute getAttribute attributes style tagName textContent].
    rewrite !lookup_insert_eq. reflexivity.
Qed.

Lemma toggleDash_solid (el : Element) :
  isDashed el = false →
  getAttribute (toggleDash el) "stroke-dasharray" = Some "4 4"
  ∧ getStyle (toggleDash el) "stroke-dasharray" = "4 4".
Proof.
  intros E. unfold toggleDash. rewrite E.
  destruct el as [t a s c].
  cbv [getStyle setStyle setAttribute getAttribute attributes style tagName
       textContent].
  by rewrite !lookup_insert_eq.
Qed.

Lemma toggleDash_dashed (el : Element) :
  isDashed el = true →
  getAttribute (toggleDash el) "stroke-dasharray" = Some "none"
  ∧ getStyle (toggleDash el) "stroke-dasharray" = "none".
Proof.
  intros E. unfold toggleDash. rewrite E.
  destruct el as [t a s c].
  cbv [getStyle setStyle setAttribute getAttribute attributes style tagName
       textContent].
  by rewrite !lookup_insert_eq.
Qed.

(** The dash command does not make every selected shape dashed: with the
    three shapes of the sample document selected, the circle, which was
    dashed, comes out solid, while the line and the rectangle come out
    dashed. *)
Lemma toggle_dash_undashes_dashed_shape :
  let st := Samples.allSelected in
  let st' := handleToggleDash TestHost.host st in
  selectedElements st = [0; 1; 2]
  ∧ (isDashed <$> heap st !! 2) = Some true
  ∧ (isDashed <$> heap st' !! 0) = Some true
  ∧ (isDashed <$> heap st' !! 1) = Some true
  ∧ (isDashed <$> heap st' !! 2) = Some false
  ∧ (heap st' !! 2 ≫= λ el, getAttribute el "stroke-dasharray") = Some "none".
Proof. cbv zeta. repeat (split; [vm_compute; reflexivity |]). vm_compute; reflexivity. Qed.

(** C8, amended. The dash command, with a non-empty selection without
    repetition, flips every selected shape: a dashed one gets the pattern
    [none], a solid one gets [4 4]; when no selected shape was dashed, all
    are dashed afterwards. No other shape changes, and the command commits
    once: what it leaves is the flipped document committed by one
    [addToHistory], which, when the document serializes to a non-empty text,
    keeps the snapshots up to the index, appends that text and advances the
    index by one. *)
Theorem toggle_dash_flips_each_selected_shape (H : Host) (st : EditorState) :
  selectedElements st ≠ [] →
  NoDup (selectedElements st) →
  let st' := handleToggleDash H st in
  let flipped := foldl (λ st el, mutate el toggleDash st) st (selectedElements st) in
  (∀ id el, id ∈ selectedElements st → heap st !! id = Some el →
     heap st' !! id = Some (toggleDash el)
     ∧ isDashed (toggleDash el) = negb (isDashed el)
     ∧ (isDashed el = false →
        getAttribute (toggleDash el) "stroke-dasharray" = Some "4 4"
        ∧ getStyle (toggleDash el) "stroke-dasharray" = "4 4")
     ∧ (isDashed el = true →
        getAttribute (toggleDash el) "stroke-dasharray" = Some "none"
        ∧ getStyle (toggleDash el) "stroke-dasharray" = "none"))
  ∧ ((∀ id el, id ∈ selectedElements st → heap st !! id = Some el →
        isDashed el = false) →
     ∀ id el', id ∈ selectedElements st → heap st' !! id = Some el' →
       isDashed el' = true)
  ∧ (∀ id, id ∉ selectedElements st → heap st' !! id = heap st !! id)
  ∧ selectedElements st' = selectedElements st
  ∧ st' = addToHistory H flipped
  ∧ history flipped = history st
  ∧ historyIndex flipped = historyIndex st
  ∧ (∀ content,
       getCurrentSVGString H flipped = Some content → content ≠ "" →
       history st'
       = (slice0 (history st) (historyIndex st + 1) ++ [content])%list
       ∧ historyIndex st' = (historyIndex st + 1)%Z
       ∧ (historyIndex st = Z.of_nat (length (history st)) - 1 →
          length (history st') = S (length (history st))))%Z.
Proof.
  intros Hne Hnd st' flipped.
  destruct (foldl_mutate_spec toggleDash (selectedElements st) st Hnd) as [E L].
  fold flipped in E, L.
  assert (st' = addToHistory H flipped) as Est.
  { subst st' flipped. unfold handleToggleDash.
    by destruct (selectedElements st). }
  assert (history flipped = history st ∧ historyIndex flipped = historyIndex st
          ∧ selectedElements flipped = selectedElements st) as (Fh & Fi & Fs).
  { rewrite E. by destruct st. }
  assert (heap st' = heap flipped ∧ selectedElements st' = selectedElements flipped)
    as [Hheap Hsel].
  { rewrite Est. unfold addToHistory, addToHistoryFrom.
    destruct (getCurrentSVGString H flipped) as [c |]; [| done].
    destruct (String.eqb c ""); [done |]. by destruct flipped. }
  split.
  { intros id el Hin Hel. rewrite Hheap, L, bool_decide_eq_true_2, Hel by done.
    split; [done |]. split; [apply isDashed_toggleDash |].
    split; [apply toggleDash_solid | apply toggleDash_dashed]. }
  split.
  { intros Hsolid id el' Hin Hel'.
    rewrite Hheap, L, bool_decide_eq_true_2 in Hel' by done.
    destruct (heap st !! id) as [el |] eqn:Hel; [| done].
    injection Hel' as <-. rewrite isDashed_toggleDash.
    by rewrite (Hsolid id el Hin Hel). }
  split.
  { intros id Hnot. by rewrite Hheap, L, bool_decide_eq_false_2. }
  split; [by rewrite Hsel, Fs |].
  split; [exact Est |]. split; [exact Fh |]. split; [exact Fi |].
  intros content Hc Hnec.
  destruct (addToHistory_spec H flipped content Hc Hnec) as (Hh & Hi & _).
  rewrite <- Est in Hh, Hi. rewrite Fh, Fi in Hh. rewrite Fi in Hi.
  split; [exact Hh |]. split; [exact Hi |].
  intros Hend. rewrite Hh, length_app. cbn [length].
  unfold slice0.
  destruct (Z.ltb_spec (historyIndex st + 1) 0); [lia |].
  rewrite length_take. lia.
Qed.

(** The line and the rectangle of the sample document, both solid,
    selected: after the command both are dashed, the circle is as it was,
    and the history has one more snapshot. *)
Lemma toggle_dash_flips_each_selected_shape_witness :
  let st := Samples.solidSelected in
  let st' := handleToggleDash TestHost.host st in
  selectedElements st = [0; 1]
  ∧ (∀ id el', id ∈ selectedElements st → heap st' !! id = Some el' →
       isDashed el' = true)
  ∧ heap st' !! 2 = heap st !! 2
  ∧ length (history st) = 1
  ∧ length (history st') = 2.
Proof.
  cbv zeta.
  destruct (toggle_dash_flips_each_selected_shape TestHost.host Samples.solidSelected)
    as (_ & Hall & Hother & _).
  - vm_compute. discriminate.
  - apply (bool_decide_unpack _). vm_compute. exact I.
  - split; [vm_compute; reflexivity |].
    split.
    + apply Hall. intros id el Hin Hel.
      assert (id = 0 ∨ id = 1) as [-> | ->].
      { revert Hin. replace (selectedElements Samples.solidSelected) with [0; 1]
          by (vm_compute; reflexivity).
        rewrite elem_of_cons, list_elem_of_singleton. tauto. }
      * revert Hel. replace (heap Samples.solidSelected !! 0)
          with (Some (default (createElementNS "") (heap Samples.solidSelected !! 0)))
          by (vm_compute; reflexivity).
        intros Hel. apply (inj Some) in Hel. subst el. vm_compute. reflexivity.
      * revert Hel. replace (heap Samples.solidSelected !! 1)
          with (Some (default (createElementNS "") (heap Samples.solidSelected !! 1)))
          by (vm_compute; reflexivity).
        intros Hel. apply (inj Some) in Hel. subst el. vm_compute. reflexivity.
    + split; [apply Hother; apply (bool_decide_unpack _); vm_compute; exact I |].
      split; vm_compute; reflexivity.
Defined.

(** ** Selection and control points along every run of the editor *)

(** The selection, the control points and the heap after running the
    helpers that change neither the selection nor the control points. *)
Lemma updateSelectionBBox_view (H : Host) (ids : list nat) (st : EditorState) :
  selectedElements (updateSelectionBBox H ids st) = selectedElements st
  ∧ controlPoints (updateSelectionBBox H ids st) = controlPoints st
  ∧ heap (updateSelectionBBox H ids st) = heap st.
Proof. unfold updateSelectionBBox. by destruct st. Qed.

Lemma addToHistoryFrom_view (H : Host) (i : Z) (st : EditorState) :
  selectedElements (addToHistoryFrom H i st) = selectedElements st
  ∧ controlPoints (addToHistoryFrom H i st) = controlPoints st
  ∧ heap (addToHistoryFrom H i st) = heap st.
Proof.
  unfold addToHistoryFrom. destruct (getCurrentSVGString H st) as [c |]; [| done].
  destruct (String.eqb c ""); [done |]. by destruct st.
Qed.

Lemma captureTransforms_view (H : Host) (ids : list nat) (st : EditorState) :
  selectedElements (captureTransforms H ids st) = selectedElements st
  ∧ controlPoints (captureTransforms H ids st) = controlPoints st
  ∧ heap (captureTransforms H ids st) = heap st.
Proof. unfold captureTransforms. by destruct st. Qed.

Lemma appendChild_view (id : nat) (st : EditorState) :
  selectedElements (appendChild id st) = selectedElements st
  ∧ controlPoints (appendChild id st) = controlPoints st
  ∧ heap (appendChild id st) = heap st.
Proof. unfold appendChild. destruct (mount st); by destruct st. Qed.

Lemma removeChild_view (id : nat) (st : EditorState) :
  selectedElements (removeChild id st) = selectedElements st
  ∧ controlPoints (removeChild id st) = controlPoints st
  ∧ heap (removeChild id st) = heap st.
Proof. unfold removeChild. destruct (mount st); by destruct st. Qed.

Lemma mutate_view (id : nat) (f : Element → Element) (st : EditorState) :
  selectedElements (mutate id f st) = selectedElements st
  ∧ controlPoints (mutate id f st) = controlPoints st.
Proof. unfold mutate. by destruct st. Qed.

Lemma controlPointsOf_heap (H : Host) (st st' : EditorState) (id : nat) :
  heap st' = heap st → controlPointsOf H st' id = controlPointsOf H st id.
Proof. unfold controlPointsOf. by intros ->. Qed.

Lemma pointsMatchSelection_view (H : Host) (st st' : EditorState) :
  selectedElements st' = selectedElements st →
  controlPoints st' = controlPoints st →
  heap st' = heap st →
  pointsMatchSelection H st → pointsMatchSelection H st'.
Proof.
  unfold pointsMatchSelection. intros -> -> Hh ->.
  destruct (selectedElements st) as [| id [| ? ?]]; try done.
  symmetry. by apply controlPointsOf_heap.
Qed.

Lemma deselect_points (H : Host) (st : EditorState) :
  pointsMatchSelection H (deselect st).
Proof. unfold pointsMatchSelection. by destruct st. Qed.

(** A click with the select tool. *)
Lemma handleMouseDownCanvas_select (H : Host) (e : MouseEvent)
      (a : option string) (st : EditorState) :
  tool st = ToolSelect →
  let st' := handleMouseDownCanvas H e a st in
  heap st' = heap st
  ∧ pointsMatchSelection H st'
  ∧ selectedElements st'
    = match target e with
      | Some target =>
          if (svgContains st target && isValidShape st target)%bool
          then clickSelection (ctrlKey e || metaKey e) (selectedElements st) target
          else []
      | None => []
      end.
Proof.
  intros Htool. cbv zeta. unfold handleMouseDownCanvas. cbv zeta. rewrite Htool.
  destruct (target e) as [target |].
  - destruct (svgContains st target && isValidShape st target)%bool.
    + set (sel := clickSelection _ _ _).
      set (st1 := set_selectedElements sel st).
      set (st2 := match sel with
                  | [only] => set_controlPoints (controlPointsOf H st1 only) st1
                  | _ => set_controlPoints [] st1
                  end).
      assert (heap st2 = heap st ∧ selectedElements st2 = sel
              ∧ pointsMatchSelection H st2) as (Hh & Hs & Hp).
      { subst st2 st1. unfold pointsMatchSelection.
        destruct sel as [| only [| ? ?]]; destruct st; fields; done. }
      set (st3 := updateSelectionBBox H sel st2).
      destruct (updateSelectionBBox_view H sel st2) as (Us & Uc & Uh).
      fold st3 in Us, Uc, Uh.
      set (st4 := set_didChange false (set_startPoint _ (set_dragMode DragMove st3))).
      assert (selectedElements st4 = selectedElements st3
              ∧ controlPoints st4 = controlPoints st3 ∧ heap st4 = heap st3)
        as (Ds & Dc & Dh) by (subst st4; by destruct st3).
      destruct (captureTransforms_view H sel st4) as (Cs & Cc & Ch).
      split; [by rewrite Ch, Dh, Uh |].
      split; [| by rewrite Cs, Ds, Us].
      apply (pointsMatchSelection_view H st2); [by rewrite Cs, Ds | by rewrite Cc, Dc
                                               | by rewrite Ch, Dh | done].
    + split; [by destruct st |]. split; [| by destruct st].
      unfold pointsMatchSelection. by destruct st.
  - split; [by destruct st |]. split; [| by destruct st].
    unfold pointsMatchSelection. by destruct st.
Qed.

Lemma effect_keeps (H : Host) (st st' : EditorState) :
  selectedElements st' = selectedElements st →
  controlPoints st' = controlPoints st →
  selectionEffect H st st'.
Proof. intros. by left. Qed.

Lemma effect_cleared (H : Host) (st st' : EditorState) :
  selectedElements st' = [] → controlPoints st' = [] →
  selectionEffect H st st'.
Proof.
  intros Hs Hc. right; right. split; [| by left].
  unfold pointsMatchSelection. by rewrite Hs, Hc.
Qed.

(** An effect after a step that kept the selection and the points. *)
Lemma effect_after_keeps (H : Host) (st st1 st2 : EditorState) :
  selectedElements st1 = selectedElements st →
  controlPoints st1 = controlPoints st →
  selectionEffect H st1 st2 → selectionEffect H st st2.
Proof.
  intros Hs Hc [[Es Ec] | [[Es Ep] | [Ep Es]]].
  - left. by rewrite Es, Ec.
  - right; left. by rewrite Es.
  - right; right. split; [done |]. by rewrite <- Hs.
Qed.

Lemma parseControlPoints_no_tag (H : Host) :
  parseControlPoints H (createElementNS "") = [].
Proof. reflexivity. Qed.

(** A press with a drawing tool. *)
Lemma handleMouseDownCanvas_draw (H : Host) (e : MouseEvent)
      (a : option string) (st : EditorState) :
  tool st ≠ ToolSelect →
  selectionEffect H st (handleMouseDownCanvas H e a st).
Proof.
  intros Htool. unfold handleMouseDownCanvas. cbv zeta.
  generalize (getSVGPoint H st (clientX e) (clientY e)); intros pt.
  destruct (tool st) eqn:Et; [done | | | |];
    (destruct (mount st) as [t |] eqn:Em; [| by apply effect_keeps]).
  1-3: destruct st; fields; subst;
       unfold deselect, allocElement, appendChild; fields;
       by apply effect_cleared.
  (* the text tool *)
  destruct (Js.truthy a).
  - unfold allocElement.
    set (newEl := newText H _ _ _).
    set (st0 := deselect _).
    set (st2 := set_nextId _ (set_heap _ st0)).
    assert (heap st2 !! nextId st0 = Some newEl) as Hnew.
    { subst st2. destruct st0; fields. apply lookup_insert_eq. }
    destruct (appendChild_view (nextId st0) st2) as (_ & _ & Ah).
    set (st3 := appendChild (nextId st0) st2) in *.
    destruct (addToHistoryFrom_view H (historyIndex st3) st3) as (_ & _ & Hh).
    fold (addToHistory H st3) in Hh.
    set (st4 := addToHistory H st3) in *.
    set (st6 := set_controlPoints _ (set_selectedElements _ st4)).
    assert (selectedElements st6 = [nextId st0]
            ∧ controlPoints st6 = parseControlPoints H newEl
            ∧ heap st6 = heap st4) as (S6 & C6 & H6)
      by (subst st6; by destruct st4).
    destruct (updateSelectionBBox_view H [nextId st0] st6) as (Us & Uc & Uh).
    set (st7 := updateSelectionBBox H [nextId st0] st6) in *.
    assert (selectedElements (set_tool ToolSelect (set_isDrawing false st7))
            = selectedElements st7
            ∧ controlPoints (set_tool ToolSelect (set_isDrawing false st7))
              = controlPoints st7
            ∧ heap (set_tool ToolSelect (set_isDrawing false st7)) = heap st7)
      as (S9 & C9 & H9) by (by destruct st7).
    right; right. split; [| right; left; exists (nextId st0); by rewrite S9, Us].
    unfold pointsMatchSelection, controlPointsOf.
    rewrite S9, C9, H9, Us, Uc, Uh, S6, C6, H6, Hh, Ah, Hnew. done.
  - apply effect_cleared; by destruct st.
Qed.

Lemma selectionView_eq (st st' : EditorState) :
  selectionView st' = selectionView st ↔
  selectedElements st' = selectedElements st
  ∧ controlPoints st' = controlPoints st.
Proof.
  unfold selectionView. split; [by intros [= -> ->] | by intros [-> ->]].
Qed.

Lemma effect_same_view (H : Host) (st st' : EditorState) :
  selectionView st' = selectionView st → selectionEffect H st st'.
Proof. intros [Hs Hc]%selectionView_eq. by apply effect_keeps. Qed.

Lemma foldl_same_view {A} (f : EditorState → A → EditorState) (l : list A)
      (st : EditorState) :
  (∀ s a, selectionView (f s a) = selectionView s) →
  selectionView (foldl f st l) = selectionView st.
Proof.
  intros Hf. revert st. induction l as [| a l IH]; intros st; [done |].
  cbn [foldl]. by rewrite IH, Hf.
Qed.

Lemma mutate_same_view (id : nat) (f : Element → Element) (st : EditorState) :
  selectionView (mutate id f st) = selectionView st.
Proof. by destruct st. Qed.

Lemma updateSelectionBBox_same_view (H : Host) (ids : list nat) (st : EditorState) :
  selectionView (updateSelectionBBox H ids st) = selectionView st.
Proof. by destruct st. Qed.

Lemma addToHistoryFrom_same_view (H : Host) (i : Z) (st : EditorState) :
  selectionView (addToHistoryFrom H i st) = selectionView st.
Proof.
  apply selectionView_eq. by destruct (addToHistoryFrom_view H i st) as (-> & -> & _).
Qed.

Lemma addToHistory_same_view (H : Host) (st : EditorState) :
  selectionView (addToHistory H st) = selectionView st.
Proof. apply addToHistoryFrom_same_view. Qed.

Lemma removeChild_same_view (id : nat) (st : EditorState) :
  selectionView (removeChild id st) = selectionView st.
Proof.
  apply selectionView_eq. by destruct (removeChild_view id st) as (-> & -> & _).
Qed.

Lemma captureTransforms_same_view (H : Host) (ids : list nat) (st : EditorState) :
  selectionView (captureTransforms H ids st) = selectionView st.
Proof. by destruct st. Qed.

Lemma moveBranch_same_view (H : Host) (pt : Point) (st : EditorState) :
  selectionView (moveBranch H pt st) = selectionView st.
Proof.
  unfold moveBranch.
  destruct (dragMode st); try done.
  destruct (selectedElements st) as [| a l] eqn:Es; [done |].
  destruct (startPoint st) as [start |]; [| done].
  rewrite updateSelectionBBox_same_view, foldl_same_view; [by destruct st |].
  intros s id. unfold moveElement.
  destruct (startTransformsMap s !! id); [apply mutate_same_view | done].
Qed.

Lemma rotateBranch_same_view (H : Host) (pt : Point) (st : EditorState) :
  selectionView (rotateBranch H pt st) = selectionView st.
Proof.
  unfold rotateBranch.
  destruct (dragMode st); try done.
  destruct (selectedElements st) as [| a l] eqn:Es; [done |].
  destruct (startPoint st) as [start |]; [| done].
  destruct (rotationCenter st) as [center |]; [| done]. cbv zeta.
  rewrite updateSelectionBBox_same_view, foldl_same_view; [by destruct st |].
  intros s id. unfold rotateElement.
  destruct (startTransformsMap s !! id); [apply mutate_same_view | done].
Qed.

Lemma drawBranch_same_view (H : Host) (e : MouseEvent) (pt : Point)
      (st : EditorState) :
  selectionView (drawBranch H e pt st) = selectionView st.
Proof.
  unfold drawBranch.
  destruct (isDrawing st); [| done].
  destruct (currentDrawElement st); [| done].
  destruct (startPoint st); [| done].
  rewrite mutate_same_view. by destruct st.
Qed.

Lemma handleMouseMove_effect (H : Host) (e : MouseEvent) (st : EditorState) :
  selectionEffect H st (handleMouseMove H e st).
Proof.
  unfold handleMouseMove. cbv zeta.
  generalize (getSVGPoint H st (clientX e) (clientY e)); intros pt.
  assert (selectionEffect H st (drawBranch H e pt (rotateBranch H pt (moveBranch H pt st))))
    as Hother.
  { apply effect_same_view.
    by rewrite drawBranch_same_view, rotateBranch_same_view, moveBranch_same_view. }
  destruct (dragMode st); try exact Hother.
  destruct (isDraggingPoint st) as [idx |]; [| exact Hother].
  destruct (selectedElements st) as [| el [| ? ?]] eqn:Es; try exact Hother.
  generalize (getLocalPoint H st (clientX e) (clientY e)
                (default (createElementNS "") (heap st !! el))); intros localPt.
  destruct (updateElementShape H _ idx _ _) as [obj' |].
  - set (st2 := mutate el (λ _, obj') (set_didChange true st)).
    assert (selectedElements st2 = [el]) as S2 by (subst st2; by destruct st).
    set (st3 := set_controlPoints (controlPointsOf H st2 el) st2).
    assert (selectedElements st3 = [el]
            ∧ controlPoints st3 = controlPointsOf H st2 el
            ∧ heap st3 = heap st2) as (S3 & C3 & H3)
      by (subst st3; by destruct st2).
    destruct (updateSelectionBBox_view H [el] st3) as (Us & Uc & Uh).
    right; left. rewrite Us, S3. split; [done |].
    unfold pointsMatchSelection. rewrite Us, Uc, S3, C3.
    apply controlPointsOf_heap. by rewrite Uh, H3.
  - apply effect_keeps; by destruct st.
Qed.

Lemma finishDrag_same_view (H : Host) (i : Z) (st : EditorState) :
  selectionView (finishDrag H i st) = selectionView st.
Proof.
  unfold finishDrag.
  assert (∀ s, selectionView
                 (if didChange s
                  then updateSelectionBBox H
                         (selectedElements (set_didChange false (addToHistoryFrom H i s)))
                         (set_didChange false (addToHistoryFrom H i s))
                  else s) = selectionView s) as Hs.
  { intros s. destruct (didChange s); [| done].
    rewrite updateSelectionBBox_same_view.
    transitivity (selectionView (addToHistoryFrom H i s));
      [by destruct (addToHistoryFrom H i s) | apply addToHistoryFrom_same_view]. }
  destruct (dragMode st); [done | ..]; cbv zeta;
    (etransitivity; [apply Hs | by destruct st]).
Qed.

Lemma finishDrawing_effect (H : Host) (i : Z) (st : EditorState) :
  selectionEffect H st (finishDrawing H i st).
Proof.
  unfold finishDrawing.
  destruct (isDrawing st); [| by apply effect_keeps].
  cbv zeta.
  set (st1 := set_isDrawing false st).
  assert (selectionView st1 = selectionView st ∧ heap st1 = heap st
          ∧ currentDrawElement st1 = currentDrawElement st) as (V1 & H1 & C1)
    by (subst st1; by destruct st).
  rewrite C1. destruct (currentDrawElement st) as [el |];
    [| by apply effect_same_view].
  set (obj := default (createElementNS "") (heap st1 !! el)).
  destruct (isTiny H obj).
  - apply effect_same_view. rewrite <- V1, <- (removeChild_same_view el st1).
    by destruct (removeChild el st1).
  - set (st3 := set_controlPoints (parseControlPoints H obj)
                                  (set_selectedElements [el] st1)).
    assert (selectedElements st3 = [el]
            ∧ controlPoints st3 = parseControlPoints H obj
            ∧ heap st3 = heap st1) as (S3 & C3 & H3)
      by (subst st3; by destruct st1).
    destruct (updateSelectionBBox_view H [el] st3) as (Us & Uc & Uh).
    set (st4 := updateSelectionBBox H [el] st3) in *.
    destruct (addToHistoryFrom_view H i st4) as (As & Ac & Ah).
    set (st5 := addToHistoryFrom H i st4) in *.
    assert (selectedElements (set_currentDrawElement None (set_tool ToolSelect st5))
            = selectedElements st5
            ∧ controlPoints (set_currentDrawElement None (set_tool ToolSelect st5))
              = controlPoints st5
            ∧ heap (set_currentDrawElement None (set_tool ToolSelect st5)) = heap st5)
      as (S6 & C6 & H6) by (by destruct st5).
    right; right. split; [| right; left; exists el; by rewrite S6, As, Us].
    unfold pointsMatchSelection, controlPointsOf.
    rewrite S6, C6, H6, As, Ac, Ah, Us, Uc, Uh, S3, C3, H3.
    subst obj. destruct (heap st1 !! el); [done |].
    apply parseControlPoints_no_tag.
Qed.

Lemma handleMouseUp_effect (H : Host) (st : EditorState) :
  selectionEffect H st (handleMouseUp H st).
Proof.
  unfold handleMouseUp. cbv zeta.
  pose proof (finishDrag_same_view H (historyIndex st) st) as [Hs Hc]%selectionView_eq.
  apply (effect_after_keeps H st _ _ Hs Hc), finishDrawing_effect.
Qed.

Lemma handleDoubleClick_effect (H : Host) (e : MouseEvent) (a : option string)
      (st : EditorState) :
  selectionEffect H st (handleDoubleClick H e a st).
Proof.
  unfold handleDoubleClick.
  destruct (tool st); try by apply effect_keeps.
  destruct (target e) as [target |]; [| by apply effect_keeps].
  destruct (heap st !! target) as [obj |]; [| by apply effect_keeps].
  destruct (String.eqb _ "text"); [| by apply effect_keeps].
  cbv zeta. destruct a as [newText |]; [| by apply effect_keeps].
  destruct (negb _); [| by apply effect_keeps].
  set (st1 := mutate target (λ el, setTextContent el newText) st).
  assert (selectedElements st1 = selectedElements st
          ∧ controlPoints st1 = controlPoints st) as [S1 C1]
    by (subst st1; by destruct st).
  destruct (bool_decide (target ∈ selectedElements st1)
            && Nat.eqb (length (selectedElements st1)) 1)%bool eqn:Econd.
  - apply andb_prop in Econd as [Hin Hlen].
    apply bool_decide_eq_true_1 in Hin. apply Nat.eqb_eq in Hlen.
    assert (selectedElements st1 = [target]) as Esel.
    { destruct (selectedElements st1) as [| x [| ? ?]]; try done.
      apply list_elem_of_singleton in Hin. by subst. }
    set (st2 := set_controlPoints (controlPointsOf H st1 target) st1).
    assert (selectedElements st2 = selectedElements st1
            ∧ controlPoints st2 = controlPointsOf H st1 target
            ∧ heap st2 = heap st1) as (S2 & C2 & H2)
      by (subst st2; by destruct st1).
    destruct (updateSelectionBBox_view H [target] st2) as (Us & Uc & Uh).
    set (st3 := updateSelectionBBox H [target] st2) in *.
    destruct (addToHistoryFrom_view H (historyIndex st3) st3) as (As & Ac & Ah).
    fold (addToHistory H st3) in As, Ac, Ah.
    right; left. split; [by rewrite As, Us, S2 |].
    unfold pointsMatchSelection. rewrite As, Ac, Us, Uc, S2, C2, Esel.
    apply controlPointsOf_heap. by rewrite Ah, Uh, H2.
  - apply effect_same_view. rewrite addToHistory_same_view.
    by apply selectionView_eq.
Qed.

Lemma restoreState_effect (H : Host) (content : string) (st0 st : EditorState) :
  selectionEffect H st0 (restoreState H content st).
Proof.
  destruct (restoreState_spec H content st) as (_ & Hs & Hc & _).
  by apply effect_cleared.
Qed.

Lemma handleUndo_effect (H : Host) (st : EditorState) :
  selectionEffect H st (handleUndo H st).
Proof.
  unfold handleUndo. destruct (_ >? _)%Z; [| by apply effect_keeps].
  apply restoreState_effect.
Qed.

Lemma handleRedo_effect (H : Host) (st : EditorState) :
  selectionEffect H st (handleRedo H st).
Proof.
  unfold handleRedo. destruct (_ <? _)%Z; [| by apply effect_keeps].
  apply restoreState_effect.
Qed.

Lemma handleDelete_effect (H : Host) (st : EditorState) :
  selectionEffect H st (handleDelete H st).
Proof.
  unfold handleDelete.
  destruct (selectedElements st) as [| a l]; [by apply effect_keeps |].
  generalize (foldl (λ st el, removeChild el st) st (a :: l)); intros st1.
  destruct (addToHistoryFrom_view H (historyIndex (deselect st1)) (deselect st1))
    as (As & Ac & _).
  apply effect_cleared.
  - unfold addToHistory. rewrite As. by destruct st1.
  - unfold addToHistory. rewrite Ac. by destruct st1.
Qed.

Lemma handleToggleDash_same_view (H : Host) (st : EditorState) :
  selectionView (handleToggleDash H st) = selectionView st.
Proof.
  unfold handleToggleDash.
  destruct (selectedElements st) as [| a l]; [done |].
  rewrite addToHistory_same_view. apply foldl_same_view.
  intros s id. apply mutate_same_view.
Qed.

Lemma handleChangeStrokeWidth_same_view (H : Host) (w : string) (st : EditorState) :
  selectionView (handleChangeStrokeWidth H w st) = selectionView st.
Proof.
  unfold handleChangeStrokeWidth.
  destruct (selectedElements st) as [| a l]; [done |].
  rewrite addToHistory_same_view. apply foldl_same_view.
  intros s id. apply mutate_same_view.
Qed.

Lemma loadSvgContent_effect (H : Host) (c : option string) (st : EditorState) :
  selectionEffect H st (loadSvgContent H c st).
Proof.
  unfold loadSvgContent.
  destruct (negb (Js.truthy c)); [by apply effect_keeps |].
  cbv zeta.
  destruct (negb (String.eqb _ "svg")); [apply effect_cleared; by destruct st |].
  destruct (negb (hasStyle H _)); [apply effect_cleared; by destruct st |].
  match goal with
  | |- context [mountMarkup ?m ?s] =>
      destruct (mountMarkup_spec m s) as (_ & _ & _ & _ & Hs & Hc & _);
      generalize dependent (mountMarkup m s)
  end.
  intros st1 Hs Hc.
  apply effect_cleared.
  - transitivity (selectedElements st1); [by destruct st1 |].
    rewrite Hs. by destruct st.
  - transitivity (controlPoints st1); [by destruct st1 |].
    rewrite Hc. by destruct st.
Qed.

Lemma handleMouseDownCanvas_effect (H : Host) (e : MouseEvent)
      (a : option string) (st : EditorState) :
  selectionEffect H st (handleMouseDownCanvas H e a st).
Proof.
  assert (tool st = ToolSelect ∨ tool st ≠ ToolSelect) as [Hsel | Hdraw]
    by (destruct (tool st); (by left) || (by right)).
  - destruct (handleMouseDownCanvas_select H e a st Hsel) as (_ & Hp & Hs).
    right; right. split; [exact Hp |]. rewrite Hs.
    destruct (target e) as [t |]; [| by left].
    destruct (_ && _)%bool; [| by left].
    right; right. by eexists _, _.
  - by apply handleMouseDownCanvas_draw.
Qed.

(** Every event has one of the three effects. *)
Lemma step_effect (H : Host) (st : EditorState) (ev : Event) :
  selectionEffect H st (step H st ev).
Proof.
  destruct ev; cbn [step].
  - apply loadSvgContent_effect.
  - apply effect_keeps; by destruct st.
  - apply effect_keeps; by destruct st.
  - apply handleMouseDownCanvas_effect.
  - apply effect_same_view. unfold handleBBoxMouseDown.
    by destruct (tool st).
  - apply effect_same_view. unfold handleRotateMouseDown.
    destruct (tool st); try done. by destruct (selectionBBox st).
  - apply effect_keeps; by destruct st.
  - apply handleMouseMove_effect.
  - apply handleMouseUp_effect.
  - apply handleDoubleClick_effect.
  - apply handleUndo_effect.
  - apply handleRedo_effect.
  - apply handleDelete_effect.
  - apply effect_same_view, handleToggleDash_same_view.
  - apply effect_same_view, handleChangeStrokeWidth_same_view.
  - apply effect_keeps; by destruct st.
  - apply effect_keeps; by destruct st.
  - apply effect_keeps; by destruct st.
Qed.

Lemma pointsMatch_needOne (H : Host) (st : EditorState) :
  pointsMatchSelection H st → pointsNeedOneShape st.
Proof.
  unfold pointsMatchSelection, pointsNeedOneShape.
  by destruct (selectedElements st) as [| ? [| ? ?]].
Qed.

Lemma effect_preserves_needOne (H : Host) (st st' : EditorState) :
  selectionEffect H st st' → pointsNeedOneShape st → pointsNeedOneShape st'.
Proof.
  intros [[Es Ec] | [[_ Hp] | [Hp _]]] Hinv.
  - unfold pointsNeedOneShape in *. by rewrite Es, Ec.
  - by apply (pointsMatch_needOne H).
  - by apply (pointsMatch_needOne H).
Qed.

Lemma clickSelection_NoDup (isCtrl : bool) (sel : list nat) (target : nat) :
  NoDup sel → NoDup (clickSelection isCtrl sel target).
Proof.
  intros Hnd. unfold clickSelection.
  destruct isCtrl; destruct (bool_decide (target ∈ sel)) eqn:E; cbn [negb].
  - by apply NoDup_filter.
  - apply bool_decide_eq_false_1 in E.
    apply NoDup_app. repeat split; [done | | apply NoDup_singleton].
    intros x Hx ->%list_elem_of_singleton. done.
  - done.
  - apply NoDup_singleton.
Qed.

Lemma effect_preserves_NoDup (H : Host) (st st' : EditorState) :
  selectionEffect H st st' →
  NoDup (selectedElements st) → NoDup (selectedElements st').
Proof.
  intros [[Es _] | [[Es _] | [_ [Es | [[id Es] | (c & t & Es)]]]]] Hnd;
    rewrite Es; try done.
  - apply NoDup_nil_2.
  - apply NoDup_singleton.
  - by apply clickSelection_NoDup.
Qed.

(** Both invariants hold in every state the editor can reach. *)
Lemma reachable_invariants (H : Host) (st : EditorState) :
  reachable H st → pointsNeedOneShape st ∧ NoDup (selectedElements st).
Proof.
  intros (color & evs & ->). unfold run.
  induction evs as [| ev evs IH] using rev_ind.
  - cbn [foldl]. split; [done | apply NoDup_nil_2].
  - rewrite foldl_snoc. destruct IH as [I1 I2].
    pose proof (step_effect H (foldl (step H) (initialState color) evs) ev) as He.
    split; [by apply (effect_preserves_needOne H _ _ He)
           | by apply (effect_preserves_NoDup H _ _ He)].
Qed.

(** C9. In every state the editor can reach, there are control points
    only when exactly one shape is selected; and whatever the state, an
    event that changes the selection leaves as control points those of the
    only selected shape, or none when the selection is empty or has
    several shapes. *)
Theorem control_points_follow_single_selection (H : Host) :
  (∀ st : EditorState,
     reachable H st →
     controlPoints st ≠ [] →
     ∃ id, selectedElements st = [id])
  ∧ (∀ (st : EditorState) (ev : Event),
       selectedElements (step H st ev) ≠ selectedElements st →
       controlPoints (step H st ev)
       = match selectedElements (step H st ev) with
         | [id] => controlPointsOf H (step H st ev) id
         | _ => []
         end).
Proof.
  split.
  - intros st Hr Hcp. destruct (reachable_invariants H st Hr) as [Hinv _].
    unfold pointsNeedOneShape in Hinv.
    destruct (selectedElements st) as [| id [| ? ?]]; try done. by exists id.
  - intros st ev Hchg.
    destruct (step_effect H st ev) as [[Es _] | [[Es _] | [Hp _]]]; done.
Qed.

(** The sample drag: with the line and the rectangle selected there are no
    control points; after the first press, on the line alone, there were
    the two end points of the line. *)
Lemma control_points_follow_single_selection_witness :
  let one := run TestHost.host (initialState "#000000")
                 [SvgContentChanged (Some Samples.svgText);
                  MouseDownCanvas Samples.pressLine None] in
  selectedElements one = [0]
  ∧ map cp_x (controlPoints one) = [10; 100]%float
  ∧ selectedElements Samples.dragging = [0; 1]
  ∧ controlPoints Samples.dragging = []
  ∧ (controlPoints one ≠ [] → ∃ id, selectedElements one = [id]).
Proof.
  cbv zeta.
  do 4 (split; [vm_compute; reflexivity |]).
  apply (proj1 (control_points_follow_single_selection TestHost.host)).
  by eexists _, _.
Defined.

(** C10. A press with the select tool on a shape of the document while
    Ctrl or Cmd is held: a shape that was selected leaves the selection,
    the others staying in their order; a shape that was not selected is
    added at the end; a selection without repetition stays so. And no
    selection the editor can reach has a repetition. *)
Theorem ctrl_click_toggles_membership (H : Host) :
  (∀ (st : EditorState) (e : MouseEvent) (answer : option string) (shape : nat),
     tool st = ToolSelect →
     target e = Some shape →
     svgContains st shape = true →
     isValidShape st shape = true →
     (ctrlKey e || metaKey e)%bool = true →
     let sel := selectedElements st in
     let sel' := selectedElements (handleMouseDownCanvas H e answer st) in
     (shape ∈ sel →
      sel' = filter (λ el, el ≠ shape) sel
      ∧ (shape ∉ sel')
      ∧ (∀ el, el ≠ shape → el ∈ sel → el ∈ sel')
      ∧ sublist sel' sel)
     ∧ (shape ∉ sel → sel' = (sel ++ [shape])%list)
     ∧ (NoDup sel → NoDup sel'))
  ∧ (∀ st : EditorState, reachable H st → NoDup (selectedElements st)).
Proof.
  split.
  - intros st e answer shape Htool Ht Hc Hv Hctrl sel sel'.
    destruct (handleMouseDownCanvas_select H e answer st Htool) as (_ & _ & Hs).
    fold sel' in Hs. rewrite Ht, Hc, Hv, Hctrl in Hs. cbn [andb] in Hs.
    fold sel in Hs. unfold clickSelection in Hs.
    split; [| split].
    + intros Hin. rewrite bool_decide_eq_true_2 in Hs by done.
      rewrite Hs. split; [done |]. split; [| split].
      * rewrite list_elem_of_filter. tauto.
      * intros el Hne Hel. by apply list_elem_of_filter.
      * apply sublist_filter.
    + intros Hnot. by rewrite bool_decide_eq_false_2 in Hs.
    + intros Hnd. rewrite Hs. by apply (clickSelection_NoDup true).
  - intros st Hr. by destruct (reachable_invariants H st Hr).
Qed.

(** The sample drag, then a release and a press on the rectangle with
    the control key held again: the rectangle leaves the selection and the
    line stays. *)
Lemma ctrl_click_toggles_membership_witness :
  let st := handleMouseUp TestHost.host Samples.dragging in
  let sel' := selectedElements
                (handleMouseDownCanvas TestHost.host Samples.pressRectCtrl None st) in
  selectedElements st = [0; 1]
  ∧ sel' = filter (λ el, el ≠ 1) (selectedElements st)
  ∧ sel' = [0].
Proof.
  cbv zeta.
  destruct (proj1 (ctrl_click_toggles_membership TestHost.host)
              (handleMouseUp TestHost.host Samples.dragging)
              Samples.pressRectCtrl None 1) as (Hin & _);
    [vm_compute; reflexivity .. |].
  destruct Hin as (Hs & _); [apply (bool_decide_unpack _); vm_compute; exact I |].
  split; [vm_compute; reflexivity |].
  split; [exact Hs | vm_compute; reflexivity].
Defined.

(* ===================================================================== *)
(** * Further properties of the editor                                    *)
(* ===================================================================== *)

(** ** Loading a document *)


(** Mounting a document in normal form: new objects, a new tree, and
    nothing else. *)
Lemma mountMarkup_normal_form (m : SvgMarkup) (st : EditorState) :
  ∃ h, mountMarkup m st
       = set_mount (Some (mkSvgTree (markup_root m)
                            (seq (nextId st) (length (markup_children m)))))
           (set_nextId (nextId st + length (markup_children m))
              (set_heap h st))
       ∧ treeMarkup h (mkSvgTree (markup_root m)
                         (seq (nextId st) (length (markup_children m)))) = m
       ∧ (∀ j, j < nextId st → h !! j = heap st !! j).
Proof.
  unfold mountMarkup.
  pose proof (allocAll_spec (markup_children m) st) as Hs. cbv zeta in Hs.
  destruct (allocAll (markup_children m) st) as [st1 ids]. cbn [fst snd] in Hs.
  destruct Hs as (Hids & Hn & Hold & Hnew & Hrest).
  exists (heap st1). split; [| split; [| exact Hold]].
  - destruct st1, st; cbn in *.
    destruct Hrest as (? & ? & ? & ? & ? & ? & ? & ? & ? & ? & ? & ? & ? & ?
                       & ? & ? & ?).
    by subst.
  - destruct m as [r els]. unfold treeMarkup. cbn [root children markup_root
      markup_children] in *. f_equal. by apply omap_seq_lookup.
Qed.









(** ** The history along every event *)

Lemma ledger_fields (st st' : EditorState) :
  ledgerView st' = ledgerView st →
  scale st' = scale st ∧ history st' = history st
  ∧ historyIndex st' = historyIndex st.
Proof. unfold ledgerView. by intros [= -> -> ->]. Qed.

Lemma foldl_same_ledger {A} (f : EditorState → A → EditorState) (l : list A)
      (st : EditorState) :
  (∀ s a, ledgerView (f s a) = ledgerView s) →
  ledgerView (foldl f st l) = ledgerView st.
Proof.
  intros Hf. revert st. induction l as [| a l IH]; intros st; [done |].
  cbn [foldl]. by rewrite IH, Hf.
Qed.

Lemma mutate_same_ledger (id : nat) (f : Element → Element) (st : EditorState) :
  ledgerView (mutate id f st) = ledgerView st.
Proof. by destruct st. Qed.

Lemma removeChild_same_ledger (id : nat) (st : EditorState) :
  ledgerView (removeChild id st) = ledgerView st.
Proof. unfold removeChild. destruct (mount st) eqn:E; by destruct st. Qed.

Lemma appendChild_same_ledger (id : nat) (st : EditorState) :
  ledgerView (appendChild id st) = ledgerView st.
Proof. unfold appendChild. destruct (mount st) eqn:E; by destruct st. Qed.

Lemma mountMarkup_same_ledger (m : SvgMarkup) (st : EditorState) :
  ledgerView (mountMarkup m st) = ledgerView st.
Proof.
  destruct (mountMarkup_normal_form m st) as (h & -> & _). by destruct st.
Qed.

Lemma moveBranch_same_ledger (H : Host) (pt : Point) (st : EditorState) :
  ledgerView (moveBranch H pt st) = ledgerView st.
Proof.
  unfold moveBranch.
  destruct (dragMode st); try done.
  destruct (selectedElements st) as [| a l] eqn:Es; [done |].
  destruct (startPoint st) as [start |]; [| done].
  unfold updateSelectionBBox.
  transitivity (ledgerView (foldl (moveElement H (pt_x pt - pt_x start)
                                               (pt_y pt - pt_y start))
                                  (set_didChange true st)
                                  (selectedElements (set_didChange true st)))).
  { by destruct (foldl _ _ _). }
  rewrite foldl_same_ledger; [by destruct st |].
  intros s id. unfold moveElement.
  destruct (startTransformsMap s !! id); [apply mutate_same_ledger | done].
Qed.

Lemma rotateBranch_same_ledger (H : Host) (pt : Point) (st : EditorState) :
  ledgerView (rotateBranch H pt st) = ledgerView st.
Proof.
  unfold rotateBranch.
  destruct (dragMode st); try done.
  destruct (selectedElements st) as [| a l] eqn:Es; [done |].
  destruct (startPoint st) as [start |]; [| done].
  destruct (rotationCenter st) as [center |]; [| done]. cbv zeta.
  unfold updateSelectionBBox.
  match goal with
  | |- ledgerView (set_selectionBBox _ ?s) = _ => transitivity (ledgerView s)
  end.
  { by destruct (foldl _ _ _). }
  rewrite foldl_same_ledger; [by destruct st |].
  intros s id. unfold rotateElement.
  destruct (startTransformsMap s !! id); [apply mutate_same_ledger | done].
Qed.

Lemma drawBranch_same_ledger (H : Host) (e : MouseEvent) (pt : Point)
      (st : EditorState) :
  ledgerView (drawBranch H e pt st) = ledgerView st.
Proof.
  unfold drawBranch.
  destruct (isDrawing st); [| done].
  destruct (currentDrawElement st); [| done].
  destruct (startPoint st); [| done].
  rewrite mutate_same_ledger. by destruct st.
Qed.

Lemma handleMouseMove_same_ledger (H : Host) (e : MouseEvent)
      (st : EditorState) :
  ledgerView (handleMouseMove H e st) = ledgerView st.
Proof.
  unfold handleMouseMove. cbv zeta.
  generalize (getSVGPoint H st (clientX e) (clientY e)); intros pt.
  assert (ledgerView (drawBranch H e pt (rotateBranch H pt (moveBranch H pt st)))
          = ledgerView st) as Hother
    by (by rewrite drawBranch_same_ledger, rotateBranch_same_ledger,
                   moveBranch_same_ledger).
  destruct (dragMode st); try exact Hother.
  destruct (isDraggingPoint st) as [idx |]; [| exact Hother].
  destruct (selectedElements st) as [| el [| ? ?]] eqn:Es; try exact Hother.
  destruct (updateElementShape H _ idx _ _) as [obj' |]; [| by destruct st].
  unfold updateSelectionBBox.
  set (st2 := mutate el (λ _, obj') (set_didChange true st)).
  transitivity (ledgerView st2); [by destruct st2 |].
  subst st2. rewrite mutate_same_ledger. by destruct st.
Qed.

(** A commit, and what it does to the history. *)
Lemma addToHistory_effect (H : Host) (st : EditorState) :
  scale (addToHistory H st) = scale st
  ∧ historyEffect st (addToHistory H st).
Proof.
  unfold addToHistory, addToHistoryFrom.
  destruct (getCurrentSVGString H st) as [c |]; [| split; [done | by left]].
  destruct (String.eqb c ""); [split; [done | by left] |].
  split; [by destruct st |]. right; left. exists c. by destruct st.
Qed.

Lemma historyEffect_same_ledger (st st1 st' : EditorState) :
  ledgerView st1 = ledgerView st → ledgerView st' = ledgerView (st1) →
  historyEffect st st'.
Proof.
  intros [_ [E1 E2]]%ledger_fields [_ [E3 E4]]%ledger_fields.
  left. by rewrite E3, E4.
Qed.

(** An effect seen from a state with the same history, and followed by
    steps that keep the history. *)
Lemma historyEffect_between (st0 st st' st1 : EditorState) :
  ledgerView st = ledgerView st0 → ledgerView st1 = ledgerView st' →
  scale st' = scale st ∧ historyEffect st st' →
  scale st1 = scale st0 ∧ historyEffect st0 st1.
Proof.
  intros (Es & Eh & Ei)%ledger_fields (Es' & Eh' & Ei')%ledger_fields [Hs He].
  split; [congruence |].
  unfold historyEffect in *. rewrite Eh', Ei', <- Eh, <- Ei. exact He.
Qed.

Lemma restoreState_same_ledger (H : Host) (content : string)
      (st : EditorState) :
  ledgerView (restoreState H content st) = ledgerView st.
Proof.
  unfold restoreState. cbv zeta.
  match goal with
  | |- ledgerView (deselect ?s) = _ => transitivity (ledgerView s)
  end; [by destruct (mountMarkup _ _) | apply mountMarkup_same_ledger].
Qed.

Lemma handleUndo_ledger (H : Host) (st : EditorState) :
  validHistory st →
  scale (handleUndo H st) = scale st ∧ historyEffect st (handleUndo H st).
Proof.
  intros Hv. unfold handleUndo.
  destruct (Z.gtb_spec (historyIndex st) 0) as [Hgt | _];
    [| split; [done | by left]].
  destruct (ledger_fields _ _
              (restoreState_same_ledger H (historyEntry st (historyIndex st - 1))
                 (set_historyIndex (historyIndex st - 1) st)))
    as (Es & Eh & Ei).
  cbv zeta. rewrite Es. split; [by destruct st |].
  right; right; left. rewrite Eh, Ei. unfold validHistory in Hv.
  destruct st; cbn in *. split; [done | lia].
Qed.

Lemma handleRedo_ledger (H : Host) (st : EditorState) :
  validHistory st →
  scale (handleRedo H st) = scale st ∧ historyEffect st (handleRedo H st).
Proof.
  intros Hv. unfold handleRedo.
  destruct (Z.ltb_spec (historyIndex st) (Z.of_nat (length (history st)) - 1))
    as [Hlt | _]; [| split; [done | by left]].
  destruct (ledger_fields _ _
              (restoreState_same_ledger H (historyEntry st (historyIndex st + 1))
                 (set_historyIndex (historyIndex st + 1) st)))
    as (Es & Eh & Ei).
  cbv zeta. rewrite Es. split; [by destruct st |].
  right; right; left. rewrite Eh, Ei. unfold validHistory in Hv.
  destruct st; cbn in *. split; [done | lia].
Qed.

Lemma loadSvgContent_ledger (H : Host) (c : option string) (st : EditorState) :
  scale (loadSvgContent H c st) = scale st
  ∧ historyEffect st (loadSvgContent H c st).
Proof.
  unfold loadSvgContent.
  destruct (negb (Js.truthy c)); [split; [done | by left] |]. cbv zeta.
  destruct (negb (String.eqb _ "svg"));
    [split; [by destruct st |]; do 3 right; left; by destruct st |].
  destruct (negb (hasStyle H _)).
  - split; [by destruct st |]. do 3 right. left. by destruct st.
  - match goal with
    | |- context [mountMarkup ?m ?s] =>
        destruct (ledger_fields _ _ (mountMarkup_same_ledger m s)) as (Es & _);
        generalize dependent (mountMarkup m s)
    end.
    intros st1 Es. split.
    + transitivity (scale st1); [by destruct st1 |]. rewrite Es. by destruct st.
    + do 4 right. eexists. by destruct st1.
Qed.

Lemma finishDrag_ledger (H : Host) (st : EditorState) :
  scale (finishDrag H (historyIndex st) st) = scale st
  ∧ historyEffect st (finishDrag H (historyIndex st) st).
Proof.
  unfold finishDrag.
  assert (∀ s, ledgerView s = ledgerView st →
               scale (if didChange s
                      then updateSelectionBBox H
                             (selectedElements
                                (set_didChange false
                                   (addToHistoryFrom H (historyIndex st) s)))
                             (set_didChange false
                                (addToHistoryFrom H (historyIndex st) s))
                      else s) = scale st
               ∧ historyEffect st
                   (if didChange s
                    then updateSelectionBBox H
                           (selectedElements
                              (set_didChange false
                                 (addToHistoryFrom H (historyIndex st) s)))
                           (set_didChange false
                              (addToHistoryFrom H (historyIndex st) s))
                    else s)) as Hs.
  { intros s Es. destruct (didChange s).
    - apply (historyEffect_between st s (addToHistory H s) _ Es).
      + unfold addToHistory.
        destruct (ledger_fields _ _ Es) as (_ & _ & ->).
        by destruct (addToHistoryFrom H (historyIndex st) s).
      + apply addToHistory_effect.
    - destruct (ledger_fields _ _ Es) as (? & ? & ?). split; [done | by left]. }
  destruct (dragMode st); [split; [done | by left] | ..]; cbv zeta;
    apply Hs; by destruct st.
Qed.

Lemma finishDrawing_ledger (H : Host) (st : EditorState) :
  scale (finishDrawing H (historyIndex st) st) = scale st
  ∧ historyEffect st (finishDrawing H (historyIndex st) st).
Proof.
  unfold finishDrawing.
  destruct (isDrawing st); [| split; [done | by left]]. cbv zeta.
  set (st1 := set_isDrawing false st).
  assert (ledgerView st1 = ledgerView st) as E1 by (by destruct st).
  destruct (currentDrawElement st1) as [el |];
    [| destruct (ledger_fields _ _ E1) as (? & ? & ?); split; [done | by left]].
  destruct (isTiny H _).
  - assert (ledgerView (set_currentDrawElement None (removeChild el st1))
            = ledgerView st) as E2.
    { transitivity (ledgerView (removeChild el st1));
        [by destruct (removeChild el st1) |].
      by rewrite removeChild_same_ledger. }
    destruct (ledger_fields _ _ E2) as (? & ? & ?). split; [done | by left].
  - match goal with
    | |- context [addToHistoryFrom H _ ?s] =>
        assert (ledgerView s = ledgerView st) as E2
          by (unfold updateSelectionBBox; by destruct st);
        apply (historyEffect_between st s (addToHistory H s) _ E2);
        [ unfold addToHistory; destruct (ledger_fields _ _ E2) as (_ & _ & ->);
          by destruct (addToHistoryFrom H (historyIndex st) s)
        | apply addToHistory_effect ]
    end.
Qed.

Lemma finishDrag_idle_ledger (H : Host) (i : Z) (st : EditorState) :
  isDrawing (finishDrag H i st) = isDrawing st.
Proof.
  unfold finishDrag.
  destruct (dragMode st); [done | ..]; cbv zeta;
    (destruct (didChange _);
     [ unfold updateSelectionBBox, addToHistoryFrom;
       destruct (getCurrentSVGString H _) as [c |];
       [destruct (String.eqb c "") |]; by destruct st
     | by destruct st ]).
Qed.

Lemma finishDrawing_idle (H : Host) (i : Z) (st : EditorState) :
  isDrawing st = false → finishDrawing H i st = st.
Proof. unfold finishDrawing. by intros ->. Qed.

(** A release that ends a drag or a drawing, not both. *)
Lemma handleMouseUp_ledger (H : Host) (st : EditorState) :
  dragMode st = DragNone ∨ isDrawing st = false →
  scale (handleMouseUp H st) = scale st
  ∧ historyEffect st (handleMouseUp H st).
Proof.
  intros [Hd | Hw]; unfold handleMouseUp; cbv zeta.
  - rewrite finishDrag_idle by done. apply finishDrawing_ledger.
  - rewrite finishDrawing_idle by (by rewrite finishDrag_idle_ledger).
    apply finishDrag_ledger.
Qed.

Lemma handleMouseDownCanvas_ledger (H : Host) (e : MouseEvent)
      (a : option string) (st : EditorState) :
  scale (handleMouseDownCanvas H e a st) = scale st
  ∧ historyEffect st (handleMouseDownCanvas H e a st).
Proof.
  assert (∀ st', ledgerView st' = ledgerView st →
                 scale st' = scale st ∧ historyEffect st st') as Hsame.
  { intros st' (? & ? & ?)%ledger_fields. split; [done | by left]. }
  unfold handleMouseDownCanvas. cbv zeta.
  generalize (getSVGPoint H st (clientX e) (clientY e)); intros pt.
  destruct (tool st) eqn:Et.
  - apply Hsame.
    destruct (target e) as [target |]; [| by destruct st].
    destruct (_ && _)%bool; [| by destruct st].
    unfold captureTransforms, updateSelectionBBox.
    destruct (clickSelection _ _ _) as [| ? [| ? ?]]; by destruct st.
  - destruct (mount st) eqn:Em; [| by apply Hsame]. apply Hsame.
    unfold allocElement.
    match goal with
    | |- ledgerView (set_currentDrawElement _ (appendChild ?i ?s)) = _ =>
        transitivity (ledgerView (appendChild i s));
        [by destruct (appendChild i s) | rewrite appendChild_same_ledger]
    end.
    by destruct st.
  - destruct (mount st) eqn:Em; [| by apply Hsame]. apply Hsame.
    unfold allocElement.
    match goal with
    | |- ledgerView (set_currentDrawElement _ (appendChild ?i ?s)) = _ =>
        transitivity (ledgerView (appendChild i s));
        [by destruct (appendChild i s) | rewrite appendChild_same_ledger]
    end.
    by destruct st.
  - destruct (mount st) eqn:Em; [| by apply Hsame]. apply Hsame.
    unfold allocElement.
    match goal with
    | |- ledgerView (set_currentDrawElement _ (appendChild ?i ?s)) = _ =>
        transitivity (ledgerView (appendChild i s));
        [by destruct (appendChild i s) | rewrite appendChild_same_ledger]
    end.
    by destruct st.
  - destruct (mount st) eqn:Em; [| by apply Hsame].
    destruct (Js.truthy a); [| apply Hsame; by destruct st].
    unfold allocElement.
    match goal with
    | |- context [addToHistory H (appendChild ?i ?s)] =>
        apply (historyEffect_between st (appendChild i s)
                 (addToHistory H (appendChild i s)));
        [ rewrite appendChild_same_ledger; by destruct st
        | unfold updateSelectionBBox;
          by destruct (addToHistory H (appendChild i s))
        | apply addToHistory_effect ]
    end.
Qed.

Lemma handleDoubleClick_ledger (H : Host) (e : MouseEvent) (a : option string)
      (st : EditorState) :
  scale (handleDoubleClick H e a st) = scale st
  ∧ historyEffect st (handleDoubleClick H e a st).
Proof.
  assert (scale st = scale st ∧ historyEffect st st) as Hsame
    by (split; [done | by left]).
  unfold handleDoubleClick.
  destruct (tool st); try exact Hsame.
  destruct (target e) as [target |]; [| exact Hsame].
  destruct (heap st !! target) as [obj |]; [| exact Hsame].
  destruct (String.eqb _ "text"); [| exact Hsame]. cbv zeta.
  destruct a as [newText |]; [| exact Hsame].
  destruct (negb _); [| exact Hsame].
  match goal with
  | |- context [addToHistory H ?s] =>
      apply (historyEffect_between st s (addToHistory H s));
      [ | done | apply addToHistory_effect ]
  end.
  destruct (_ && _)%bool; unfold updateSelectionBBox; by destruct st.
Qed.

Lemma handleDelete_ledger (H : Host) (st : EditorState) :
  scale (handleDelete H st) = scale st ∧ historyEffect st (handleDelete H st).
Proof.
  unfold handleDelete.
  destruct (selectedElements st) as [| a l]; [split; [done | by left] |].
  match goal with
  | |- context [addToHistory H ?s] =>
      apply (historyEffect_between st s (addToHistory H s));
      [ | done | apply addToHistory_effect ]
  end.
  match goal with
  | |- ledgerView (deselect ?s) = _ =>
      transitivity (ledgerView s); [by destruct s |]
  end.
  apply foldl_same_ledger. intros s id. apply removeChild_same_ledger.
Qed.

Lemma style_command_ledger (H : Host) (f : Element → Element) (ids : list nat)
      (st : EditorState) :
  scale (addToHistory H (foldl (λ st el, mutate el f st) st ids)) = scale st
  ∧ historyEffect st (addToHistory H (foldl (λ st el, mutate el f st) st ids)).
Proof.
  apply (historyEffect_between st (foldl (λ st el, mutate el f st) st ids)
           (addToHistory H (foldl (λ st el, mutate el f st) st ids)));
    [ | done | apply addToHistory_effect ].
  apply foldl_same_ledger. intros s id. apply mutate_same_ledger.
Qed.

(** Every event but a zoom keeps the zoom factor; every event but a
    release that ends both a drag and a drawing has one of the listed
    effects on the history. *)
Lemma step_ledger (H : Host) (st : EditorState) (ev : Event) :
  validHistory st →
  (ev = MouseUp → dragMode st = DragNone ∨ isDrawing st = false) →
  historyEffect st (step H st ev)
  ∧ (ev ∉ [ZoomIn; ZoomOut; ResetZoom] → scale (step H st ev) = scale st).
Proof.
  intros Hv Hup.
  assert (∀ st', scale st' = scale st ∧ historyEffect st st' →
                 historyEffect st st'
                 ∧ (ev ∉ [ZoomIn; ZoomOut; ResetZoom] → scale st' = scale st))
    as Hboth by tauto.
  assert (∀ st', ledgerView st' = ledgerView st →
                 scale st' = scale st ∧ historyEffect st st') as Hsame.
  { intros st' (? & ? & ?)%ledger_fields. split; [done | by left]. }
  destruct ev; cbn [step].
  - apply Hboth, loadSvgContent_ledger.
  - apply Hboth, Hsame. by destruct st.
  - apply Hboth, Hsame. by destruct st.
  - apply Hboth, handleMouseDownCanvas_ledger.
  - apply Hboth, Hsame. unfold handleBBoxMouseDown. by destruct (tool st).
  - apply Hboth, Hsame. unfold handleRotateMouseDown.
    by destruct (tool st), (selectionBBox st).
  - apply Hboth, Hsame. by destruct st.
  - apply Hboth, Hsame, handleMouseMove_same_ledger.
  - apply Hboth, handleMouseUp_ledger. by apply Hup.
  - apply Hboth, handleDoubleClick_ledger.
  - by apply Hboth, handleUndo_ledger.
  - by apply Hboth, handleRedo_ledger.
  - apply Hboth, handleDelete_ledger.
  - apply Hboth. unfold handleToggleDash.
    destruct (selectedElements st) as [| a l] eqn:E; [by apply Hsame |].
    apply style_command_ledger.
  - apply Hboth. unfold handleChangeStrokeWidth.
    destruct (selectedElements st) as [| a l] eqn:E; [by apply Hsame |].
    apply (style_command_ledger H
             (λ el, setStyle (setAttribute el "stroke-width" width)
                             "stroke-width" (width ++ "px"))).
  - split; [left; by destruct st |]. intros Hn. exfalso. apply Hn. in_list.
  - split; [left; by destruct st |]. intros Hn. exfalso. apply Hn. in_list.
  - split; [left; by destruct st |]. intros Hn. exfalso. apply Hn. in_list.
Qed.

Lemma historyEffect_valid (st st' : EditorState) :
  validHistory st → historyEffect st st' → validHistory st'.
Proof.
  unfold validHistory, historyEffect.
  intros Hv [[-> ->] | [(c & -> & ->) | [[-> Hi] | [[-> ->] | (c & -> & ->)]]]].
  - done.
  - rewrite slice0_take by done. rewrite length_app, length_take. cbn [length].
    lia.
  - lia.
  - cbn. lia.
  - cbn. lia.
Qed.

(** ** The gesture along every event *)

Lemma foldl_same_gesture {A} (f : EditorState → A → EditorState) (l : list A)
      (st : EditorState) :
  (∀ s a, gestureView (f s a) = gestureView s) →
  gestureView (foldl f st l) = gestureView st.
Proof.
  intros Hf. revert st. induction l as [| a l IH]; intros st; [done |].
  cbn [foldl]. by rewrite IH, Hf.
Qed.

Lemma mutate_same_gesture (id : nat) (f : Element → Element) (st : EditorState) :
  gestureView (mutate id f st) = gestureView st.
Proof. by destruct st. Qed.

Lemma removeChild_same_gesture (id : nat) (st : EditorState) :
  gestureView (removeChild id st) = gestureView st.
Proof. unfold removeChild. destruct (mount st) eqn:E; by destruct st. Qed.

Lemma appendChild_same_gesture (id : nat) (st : EditorState) :
  gestureView (appendChild id st) = gestureView st.
Proof. unfold appendChild. destruct (mount st) eqn:E; by destruct st. Qed.

Lemma mountMarkup_same_gesture (m : SvgMarkup) (st : EditorState) :
  gestureView (mountMarkup m st) = gestureView st.
Proof.
  destruct (mountMarkup_normal_form m st) as (h & -> & _). by destruct st.
Qed.

Lemma addToHistoryFrom_same_gesture (H : Host) (i : Z) (st : EditorState) :
  gestureView (addToHistoryFrom H i st) = gestureView st.
Proof.
  unfold addToHistoryFrom. destruct (getCurrentSVGString H st) as [c |]; [| done].
  destruct (String.eqb c ""); [done |]. by destruct st.
Qed.

Lemma restoreState_same_gesture (H : Host) (content : string)
      (st : EditorState) :
  gestureView (restoreState H content st) = gestureView st.
Proof.
  unfold restoreState. cbv zeta.
  match goal with
  | |- gestureView (deselect ?s) = _ => transitivity (gestureView s)
  end; [by destruct (mountMarkup _ _) | apply mountMarkup_same_gesture].
Qed.

Lemma moveBranch_same_gesture (H : Host) (pt : Point) (st : EditorState) :
  gestureView (moveBranch H pt st) = gestureView st.
Proof.
  unfold moveBranch.
  destruct (dragMode st) eqn:Ed; try done.
  destruct (selectedElements st) as [| a l] eqn:Es; [done |].
  destruct (startPoint st) as [start |]; [| done].
  unfold updateSelectionBBox.
  transitivity (gestureView (foldl (moveElement H (pt_x pt - pt_x start)
                                                (pt_y pt - pt_y start))
                                   (set_didChange true st)
                                   (selectedElements (set_didChange true st)))).
  { by destruct (foldl _ _ _). }
  rewrite foldl_same_gesture; [by destruct st |].
  intros s id. unfold moveElement.
  destruct (startTransformsMap s !! id); [apply mutate_same_gesture | done].
Qed.

Lemma rotateBranch_same_gesture (H : Host) (pt : Point) (st : EditorState) :
  gestureView (rotateBranch H pt st) = gestureView st.
Proof.
  unfold rotateBranch.
  destruct (dragMode st) eqn:Ed; try done.
  destruct (selectedElements st) as [| a l] eqn:Es; [done |].
  destruct (startPoint st) as [start |]; [| done].
  destruct (rotationCenter st) as [center |]; [| done]. cbv zeta.
  unfold updateSelectionBBox.
  match goal with
  | |- gestureView (set_selectionBBox _ ?s) = _ => transitivity (gestureView s)
  end.
  { by destruct (foldl _ _ _). }
  rewrite foldl_same_gesture; [by destruct st |].
  intros s id. unfold rotateElement.
  destruct (startTransformsMap s !! id); [apply mutate_same_gesture | done].
Qed.

Lemma drawBranch_same_gesture (H : Host) (e : MouseEvent) (pt : Point)
      (st : EditorState) :
  gestureView (drawBranch H e pt st) = gestureView st.
Proof.
  unfold drawBranch.
  destruct (isDrawing st) eqn:Ed; [| done].
  destruct (currentDrawElement st); [| done].
  destruct (startPoint st); [| done].
  rewrite mutate_same_gesture. by destruct st.
Qed.

Lemma handleMouseMove_same_gesture (H : Host) (e : MouseEvent)
      (st : EditorState) :
  gestureView (handleMouseMove H e st) = gestureView st.
Proof.
  unfold handleMouseMove. cbv zeta.
  generalize (getSVGPoint H st (clientX e) (clientY e)); intros pt.
  assert (gestureView (drawBranch H e pt (rotateBranch H pt (moveBranch H pt st)))
          = gestureView st) as Hother
    by (by rewrite drawBranch_same_gesture, rotateBranch_same_gesture,
                   moveBranch_same_gesture).
  destruct (dragMode st) eqn:Ed; try exact Hother.
  destruct (isDraggingPoint st) as [idx |]; [| exact Hother].
  destruct (selectedElements st) as [| el [| ? ?]] eqn:Es; try exact Hother.
  destruct (updateElementShape H _ idx _ _) as [obj' |]; [| by destruct st].
  unfold updateSelectionBBox.
  set (st2 := mutate el (λ _, obj') (set_didChange true st)).
  transitivity (gestureView st2); [by destruct st2 |].
  subst st2. rewrite mutate_same_gesture. by destruct st.
Qed.

Lemma step_same_gesture (H : Host) (st : EditorState) (ev : Event) :
  isPress ev = false → ev ≠ MouseUp →
  gestureView (step H st ev) = gestureView st.
Proof.
  intros Hp Hup. destruct ev; try discriminate Hp; try done; cbn [step].
  - unfold loadSvgContent.
    destruct (negb (Js.truthy svgContent)); [done |]. cbv zeta.
    destruct (negb (String.eqb _ "svg")); [by destruct st |].
    destruct (negb (hasStyle H _)); [by destruct st |].
    match goal with
    | |- context [mountMarkup ?m ?s] =>
        pose proof (mountMarkup_same_gesture m s) as Hm;
        generalize dependent (mountMarkup m s)
    end.
    intros st1 Hm. transitivity (gestureView st1); [by destruct st1 |].
    rewrite Hm. by destruct st.
  - apply handleMouseMove_same_gesture.
  - unfold handleDoubleClick.
    destruct (tool st); try done.
    destruct (target e) as [target |]; [| done].
    destruct (heap st !! target) as [obj |]; [| done].
    destruct (String.eqb _ "text"); [| done]. cbv zeta.
    destruct answer as [newText |]; [| done].
    destruct (negb _); [| done].
    unfold addToHistory. rewrite addToHistoryFrom_same_gesture.
    destruct (_ && _)%bool; unfold updateSelectionBBox; by destruct st.
  - unfold handleUndo. destruct (_ >? _)%Z; [| done].
    rewrite restoreState_same_gesture. by destruct st.
  - unfold handleRedo. destruct (_ <? _)%Z; [| done].
    rewrite restoreState_same_gesture. by destruct st.
  - unfold handleDelete. destruct (selectedElements st) as [| a l]; [done |].
    unfold addToHistory. rewrite addToHistoryFrom_same_gesture.
    match goal with
    | |- gestureView (deselect ?s) = _ =>
        transitivity (gestureView s); [by destruct s |]
    end.
    apply foldl_same_gesture. intros s id. apply removeChild_same_gesture.
  - unfold handleToggleDash. destruct (selectedElements st) as [| a l]; [done |].
    unfold addToHistory. rewrite addToHistoryFrom_same_gesture.
    apply foldl_same_gesture. intros s id. apply mutate_same_gesture.
  - unfold handleChangeStrokeWidth.
    destruct (selectedElements st) as [| a l]; [done |].
    unfold addToHistory. rewrite addToHistoryFrom_same_gesture.
    apply foldl_same_gesture. intros s id. apply mutate_same_gesture.
Qed.

(** A release ends whatever gesture was under way. *)
Lemma handleMouseUp_ends_gesture (H : Host) (st : EditorState) :
  dragMode (handleMouseUp H st) = DragNone
  ∧ isDrawing (handleMouseUp H st) = false.
Proof.
  unfold handleMouseUp. cbv zeta.
  generalize (historyIndex st). intros i.
  assert (dragMode (finishDrag H i st) = DragNone) as Hd.
  { unfold finishDrag. destruct (dragMode st) eqn:Ed; [done | ..]; cbv zeta;
      (destruct (didChange _);
       [ unfold updateSelectionBBox;
         match goal with
         | |- context [addToHistoryFrom H i ?s] =>
             pose proof (addToHistoryFrom_same_gesture H i s) as Hg;
             generalize dependent (addToHistoryFrom H i s)
         end;
         intros s1 Hg; transitivity (dragMode s1); [by destruct s1 |];
         unfold gestureView in Hg; injection Hg as -> _; by destruct st
       | by destruct st ]). }
  generalize dependent (finishDrag H i st). intros st1 Hd.
  unfold finishDrawing.
  destruct (isDrawing st1) eqn:Ew; [| done]. cbv zeta.
  destruct (currentDrawElement (set_isDrawing false st1)) as [el |];
    [| by destruct st1].
  destruct (isTiny H _).
  - pose proof (removeChild_same_gesture el (set_isDrawing false st1)) as Hg.
    generalize dependent (removeChild el (set_isDrawing false st1)).
    intros s Hg. unfold gestureView in Hg. injection Hg as E1 E2.
    split.
    + transitivity (dragMode s); [by destruct s |]. rewrite E1. by destruct st1.
    + transitivity (isDrawing s); [by destruct s |]. rewrite E2. by destruct st1.
  - match goal with
    | |- context [addToHistoryFrom H i ?s] =>
        pose proof (addToHistoryFrom_same_gesture H i s) as Hg;
        assert (gestureView s = (DragNone, false)) as Hs
          by (rewrite <- Hd; unfold updateSelectionBBox; by destruct st1);
        generalize dependent (addToHistoryFrom H i s)
    end.
    intros s1 Hg. rewrite Hs in Hg. unfold gestureView in Hg.
    injection Hg as E1 E2.
    split.
    + transitivity (dragMode s1); [by destruct s1 | done].
    + transitivity (isDrawing s1); [by destruct s1 | done].
Qed.

(** A press made with no gesture under way starts a drag or a drawing,
    not both. *)
Lemma press_starts_one_gesture (H : Host) (st : EditorState) (ev : Event) :
  isPress ev = true →
  dragMode st = DragNone → isDrawing st = false →
  dragMode (step H st ev) = DragNone ∨ isDrawing (step H st ev) = false.
Proof.
  intros Hp Hd Hw. destruct ev; try discriminate Hp; cbn [step].
  - unfold handleMouseDownCanvas. cbv zeta.
    generalize (getSVGPoint H st (clientX e) (clientY e)); intros pt.
    destruct (tool st) eqn:Et.
    + right.
      destruct (target e) as [target |]; [| by destruct st].
      destruct (_ && _)%bool; [| by destruct st].
      unfold captureTransforms, updateSelectionBBox.
      destruct (clickSelection _ _ _) as [| ? [| ? ?]]; by destruct st.
    + left. destruct (mount st) eqn:Em; [| done]. unfold allocElement.
      match goal with
      | |- dragMode (set_currentDrawElement _ (appendChild ?i ?s)) = _ =>
          pose proof (appendChild_same_gesture i s) as Hg;
          assert (dragMode s = DragNone) as Hs by (by destruct st);
          generalize dependent (appendChild i s)
      end.
      intros s1 [= E1 _]. transitivity (dragMode s1); [by destruct s1 |].
      by rewrite E1.
    + left. destruct (mount st) eqn:Em; [| done]. unfold allocElement.
      match goal with
      | |- dragMode (set_currentDrawElement _ (appendChild ?i ?s)) = _ =>
          pose proof (appendChild_same_gesture i s) as Hg;
          assert (dragMode s = DragNone) as Hs by (by destruct st);
          generalize dependent (appendChild i s)
      end.
      intros s1 [= E1 _]. transitivity (dragMode s1); [by destruct s1 |].
      by rewrite E1.
    + left. destruct (mount st) eqn:Em; [| done]. unfold allocElement.
      match goal with
      | |- dragMode (set_currentDrawElement _ (appendChild ?i ?s)) = _ =>
          pose proof (appendChild_same_gesture i s) as Hg;
          assert (dragMode s = DragNone) as Hs by (by destruct st);
          generalize dependent (appendChild i s)
      end.
      intros s1 [= E1 _]. transitivity (dragMode s1); [by destruct s1 |].
      by rewrite E1.
    + right. destruct (mount st) eqn:Em; [| done].
      destruct (Js.truthy answer); by destruct (addToHistory _ _) || by destruct st.
  - right. unfold handleBBoxMouseDown. by destruct (tool st).
  - right. unfold handleRotateMouseDown.
    by destruct (tool st), (selectionBBox st).
  - right. by destruct st.
Qed.

Lemma run_one_gesture (H : Host) (evs : list Event) (pressed : bool)
      (st : EditorState) :
  pressesAlternate pressed evs = true → oneGesture pressed st →
  ∀ before ev after, evs = (before ++ ev :: after)%list →
    ev = MouseUp →
    dragMode (run H st before) = DragNone
    ∨ isDrawing (run H st before) = false.
Proof.
  revert pressed st. induction evs as [| ev0 evs IH];
    intros pressed st Hp Hone before ev after Hsplit Hev.
  { by destruct before. }
  destruct before as [| b before]; cbn in Hsplit.
  { apply Hone. }
  injection Hsplit as -> ->. unfold run. cbn [foldl].
  cbn [pressesAlternate] in Hp.
  destruct (isPress b) eqn:Hb.
  - apply andb_prop in Hp as [Hnp Hp]. apply negb_true_iff in Hnp. subst pressed.
    destruct Hone as [Hup _]. destruct (Hup eq_refl) as [Hd Hw].
    eapply (IH true (step H st b) Hp); [| reflexivity | done].
    split; [done |]. by apply press_starts_one_gesture.
  - assert (b = MouseUp ∨ b ≠ MouseUp) as [-> | Hne]
      by (destruct b; (by left) || (by right)).
    + eapply (IH false (handleMouseUp H st) Hp); [| reflexivity | done].
      destruct (handleMouseUp_ends_gesture H st) as [Hd Hw].
      split; [done | by left].
    + assert (pressesAlternate pressed (before ++ ev :: after) = true) as Hp'
        by (by destruct b).
      eapply (IH pressed (step H st b) Hp'); [| reflexivity | done].
      pose proof (step_same_gesture H st b Hb Hne) as Hg.
      unfold gestureView in Hg. injection Hg as E1 E2.
      unfold oneGesture. by rewrite E1, E2.
Qed.

Lemma pressesAlternate_prefix (evs rest : list Event) (pressed : bool) :
  pressesAlternate pressed (evs ++ rest) = true →
  pressesAlternate pressed evs = true.
Proof.
  revert pressed. induction evs as [| ev evs IH]; intros pressed Hp; [done |].
  cbn [app pressesAlternate] in *.
  destruct (isPress ev).
  - apply andb_prop in Hp as [-> Hp]. cbn [andb]. by apply IH.
  - destruct ev; by apply IH.
Qed.

(** X4. In a run in which every press is followed by a release before the next
    press, the history index names a snapshot (or is [-1] while there is
    none) after every event: a release then ends a drag or a drawing,
    never both, and commits at most once. *)
Theorem history_index_names_a_snapshot (H : Host) (st : EditorState)
        (pressed : bool) (evs : list Event) :
  validHistory st → oneGesture pressed st →
  pressesAlternate pressed evs = true →
  validHistory (run H st evs).
Proof.
  intros Hv Hone. induction evs as [| ev evs IH] using rev_ind; [done |].
  intros Hp. unfold run. rewrite foldl_snoc.
  apply (historyEffect_valid (foldl (step H) st evs)).
  - apply IH. by apply (pressesAlternate_prefix evs [ev]).
  - apply step_ledger.
    + apply IH. by apply (pressesAlternate_prefix evs [ev]).
    + intros Hup.
      by apply (run_one_gesture H (evs ++ [ev]) pressed st Hp Hone evs ev []).
Qed.

(** The sample document loaded, its line pressed and released, its
    rectangle pressed with the control key, dragged and released, and the
    drag undone. *)
Lemma history_index_names_a_snapshot_witness :
  validHistory
    (run TestHost.host (initialState "#000000")
       [SvgContentChanged (Some Samples.svgText);
        MouseDownCanvas Samples.pressLine None; MouseUp;
        MouseDownCanvas Samples.pressRectCtrl None;
        MouseMove Samples.moveTo; MouseUp; Undo]).
Proof.
  apply (history_index_names_a_snapshot TestHost.host
           (initialState "#000000") false).
  - unfold validHistory. cbn. lia.
  - split; [intros _; split; reflexivity | left; reflexivity].
  - vm_compute. reflexivity.
Defined.

(** ** Zoom *)









(** ** Undo and redo *)

Lemma historyEntry_lookup (st : EditorState) (i : Z) (content : string) :
  (0 ≤ i)%Z → history st !! Z.to_nat i = Some content →
  historyEntry st i = content.
Proof.
  intros Hi Hl. unfold historyEntry, at_index.
  destruct (Z.ltb_spec i 0); [lia |]. by rewrite Hl.
Qed.

Lemma handleUndo_spec (H : Host) (st : EditorState) :
  (0 < historyIndex st)%Z →
  let st' := handleUndo H st in
  history st' = history st
  ∧ historyIndex st' = (historyIndex st - 1)%Z
  ∧ currentMarkup st'
    = Some (restoredMarkup H (historyEntry st (historyIndex st - 1)))
  ∧ selectedElements st' = [] ∧ controlPoints st' = [].
Proof.
  intros E. cbv zeta. unfold handleUndo.
  destruct (Z.gtb_spec (historyIndex st) 0); [| lia].
  destruct (restoreState_spec H (historyEntry st (historyIndex st - 1))
              (set_historyIndex (historyIndex st - 1) st))
    as (Hm & Hs & Hc & Hh & Hi).
  rewrite Hm, Hs, Hc, Hh, Hi. by destruct st.
Qed.

(** X6. Undo and redo are moves along the same list of snapshots: neither
    changes the list; from a snapshot that has one before it, undo mounts
    the one before and redo then mounts the one undo left; from a
    snapshot that has one after it, redo mounts the one after and undo
    then mounts the one redo left. Both clear the selection. *)
Theorem undo_and_redo_walk_the_snapshots (H : Host) (st : EditorState)
        (cur : string) :
  (0 ≤ historyIndex st)%Z →
  history st !! Z.to_nat (historyIndex st) = Some cur →
  (∀ prev,
     history st !! Z.to_nat (historyIndex st - 1) = Some prev →
     (0 < historyIndex st)%Z →
     let st1 := handleUndo H st in
     let st2 := handleRedo H st1 in
     history st1 = history st
     ∧ historyIndex st1 = (historyIndex st - 1)%Z
     ∧ currentMarkup st1 = Some (restoredMarkup H prev)
     ∧ selectedElements st1 = [] ∧ controlPoints st1 = []
     ∧ history st2 = history st
     ∧ historyIndex st2 = historyIndex st
     ∧ currentMarkup st2 = Some (restoredMarkup H cur))
  ∧ (∀ next,
       history st !! Z.to_nat (historyIndex st + 1) = Some next →
       let st1 := handleRedo H st in
       let st2 := handleUndo H st1 in
       history st1 = history st
       ∧ historyIndex st1 = (historyIndex st + 1)%Z
       ∧ currentMarkup st1 = Some (restoredMarkup H next)
       ∧ selectedElements st1 = [] ∧ controlPoints st1 = []
       ∧ history st2 = history st
       ∧ historyIndex st2 = historyIndex st
       ∧ currentMarkup st2 = Some (restoredMarkup H cur)).
Proof.
  intros Hi Hcur.
  pose proof (lookup_lt_Some _ _ _ Hcur) as Hlen.
  split.
  - intros prev Hprev Hpos st1 st2.
    destruct (handleUndo_spec H st Hpos) as (Hh1 & Hi1 & Hm1 & Hs1 & Hc1).
    fold st1 in Hh1, Hi1, Hm1, Hs1, Hc1.
    rewrite (historyEntry_lookup st _ prev) in Hm1 by (done || lia).
    assert (historyIndex st1 < Z.of_nat (length (history st1)) - 1)%Z as Hlt
      by (rewrite Hh1, Hi1; lia).
    destruct (handleRedo_spec H st1 Hlt) as (Hh2 & Hi2 & Hm2 & _).
    fold st2 in Hh2, Hi2, Hm2.
    rewrite (historyEntry_history st st1) in Hm2 by done.
    rewrite Hi1 in Hi2, Hm2.
    replace (historyIndex st - 1 + 1)%Z with (historyIndex st) in * by lia.
    rewrite (historyEntry_lookup st _ cur) in Hm2 by done.
    rewrite Hh1 in Hh2. done.
  - intros next Hnext st1 st2.
    pose proof (lookup_lt_Some _ _ _ Hnext) as Hlen'.
    assert (historyIndex st < Z.of_nat (length (history st)) - 1)%Z as Hlt
      by lia.
    destruct (handleRedo_spec H st Hlt) as (Hh1 & Hi1 & Hm1 & Hs1 & Hc1).
    fold st1 in Hh1, Hi1, Hm1, Hs1, Hc1.
    rewrite (historyEntry_lookup st _ next) in Hm1 by (done || lia).
    assert (0 < historyIndex st1)%Z as Hpos by (rewrite Hi1; lia).
    destruct (handleUndo_spec H st1 Hpos) as (Hh2 & Hi2 & Hm2 & _).
    fold st2 in Hh2, Hi2, Hm2.
    rewrite (historyEntry_history st st1) in Hm2 by done.
    rewrite Hi1 in Hi2, Hm2.
    replace (historyIndex st + 1 - 1)%Z with (historyIndex st) in * by lia.
    rewrite (historyEntry_lookup st _ cur) in Hm2 by done.
    rewrite Hh1 in Hh2. done.
Qed.

(** The edited sample, at the last of its three snapshots: undo goes to
    the second, redo comes back. *)
Lemma undo_and_redo_walk_the_snapshots_witness :
  let st := Samples.edited in
  let st1 := handleUndo TestHost.host st in
  let st2 := handleRedo TestHost.host st1 in
  historyIndex st = 2%Z
  ∧ historyIndex st1 = 1%Z ∧ historyIndex st2 = 2%Z
  ∧ history st2 = history st.
Proof.
  cbv zeta.
  epose proof (undo_and_redo_walk_the_snapshots TestHost.host Samples.edited _)
    as T.
  destruct T as [T _].
  - vm_compute. discriminate.
  - vm_compute. reflexivity.
  - edestruct T as (_ & Hi1 & _ & _ & _ & Hh2 & Hi2 & _).
    + vm_compute. reflexivity.
    + vm_compute. reflexivity.
    + split; [vm_compute; reflexivity |].
      split; [etransitivity; [exact Hi1 | vm_compute; reflexivity] |].
      split; [etransitivity; [exact Hi2 | vm_compute; reflexivity] |].
      exact Hh2.
Defined.

(** ** A release that ends a drag and a drawing at once *)

Lemma finishDrag_commits (H : Host) (i : Z) (st : EditorState)
      (content : string) :
  dragMode st ≠ DragNone → didChange st = true →
  getCurrentSVGString H st = Some content → content ≠ "" →
  let st' := finishDrag H i st in
  history st' = (slice0 (history st) (i + 1) ++ [content])%list
  ∧ historyIndex st' = (historyIndex st + 1)%Z
  ∧ heap st' = heap st ∧ mount st' = mount st
  ∧ isDrawing st' = isDrawing st
  ∧ currentDrawElement st' = currentDrawElement st.
Proof.
  intros Hd Hc Hs Hne. cbv zeta. unfold finishDrag.
  apply String.eqb_neq in Hne.
  destruct st as [? ? ? ? ? ? ? ? ? ? mode ? ? ? ? ? ? ? ?]; fields. subst.
  unfold getCurrentSVGString, currentMarkup in Hs. fields.
  destruct mode; [done | ..];
    unfold updateSelectionBBox, addToHistoryFrom, getCurrentSVGString,
      currentMarkup; fields; rewrite Hs, Hne; by fields.
Qed.

Lemma finishDrawing_commits (H : Host) (i : Z) (st : EditorState)
      (el : nat) (obj : Element) (content : string) :
  isDrawing st = true → currentDrawElement st = Some el →
  heap st !! el = Some obj → isTiny H obj = false →
  getCurrentSVGString H st = Some content → content ≠ "" →
  let st' := finishDrawing H i st in
  history st' = (slice0 (history st) (i + 1) ++ [content])%list
  ∧ historyIndex st' = (historyIndex st + 1)%Z
  ∧ heap st' = heap st ∧ mount st' = mount st
  ∧ selectedElements st' = [el] ∧ tool st' = ToolSelect.
Proof.
  intros Hw Hcur Hobj Htiny Hs Hne. cbv zeta. unfold finishDrawing.
  apply String.eqb_neq in Hne.
  destruct st; fields. subst.
  unfold getCurrentSVGString, currentMarkup in Hs. fields.
  rewrite Hobj. change (default (createElementNS "") (Some obj)) with obj.
  rewrite Htiny.
  unfold updateSelectionBBox, addToHistoryFrom, getCurrentSVGString,
    currentMarkup; fields; rewrite Hs, Hne; by fields.
Qed.

(** X7. When one release ends both a drag that changed something and the
    drawing of a shape that is kept, the two commits are made by the same
    render: the second drops the snapshot of the first, and the index,
    advanced twice, passes the end of the history. The undo that follows
    mounts the last snapshot, the document that is on screen already. *)
Theorem release_of_two_gestures_overruns_history (H : Host)
        (st : EditorState) (el : nat) (obj : Element) (content : string) :
  validHistory st →
  dragMode st ≠ DragNone → didChange st = true →
  isDrawing st = true → currentDrawElement st = Some el →
  heap st !! el = Some obj → isTiny H obj = false →
  getCurrentSVGString H st = Some content → content ≠ "" →
  let st' := handleMouseUp H st in
  history st'
  = (take (Z.to_nat (historyIndex st + 1)) (history st) ++ [content])%list
  ∧ historyIndex st' = (historyIndex st + 2)%Z
  ∧ historyIndex st' = Z.of_nat (length (history st'))
  ∧ at_index (history st') (historyIndex st') = None
  ∧ historyIndex (handleUndo H st') = (historyIndex st + 1)%Z
  ∧ currentMarkup (handleUndo H st') = Some (restoredMarkup H content).
Proof.
  intros Hv Hd Hc Hw Hcur Hobj Htiny Hs Hne st'. subst st'.
  unfold handleMouseUp. cbv zeta.
  destruct (finishDrag_commits H (historyIndex st) st content Hd Hc Hs Hne)
    as (Hh1 & Hi1 & Hheap1 & Hm1 & Hw1 & Hcur1).
  set (st1 := finishDrag H (historyIndex st) st) in *.
  assert (getCurrentSVGString H st1 = Some content) as Hs1.
  { unfold getCurrentSVGString.
    by rewrite (currentMarkup_heap_mount st st1). }
  destruct (finishDrawing_commits H (historyIndex st) st1 el obj content)
    as (Hh2 & Hi2 & _); try congruence.
  set (st2 := finishDrawing H (historyIndex st) st1) in *.
  unfold validHistory in Hv.
  assert (slice0 (history st1) (historyIndex st + 1)
          = take (Z.to_nat (historyIndex st + 1)) (history st)) as Hslice.
  { rewrite Hh1, (slice0_take (history st)) by done.
    unfold slice0. rewrite length_app, length_take. cbn [length].
    destruct (Z.ltb_spec (historyIndex st + 1) 0); [lia |].
    rewrite Z.min_l by lia.
    rewrite take_app_le by (rewrite length_take; lia).
    by rewrite take_take, Nat.min_id. }
  rewrite Hslice in Hh2.
  assert (length (history st2) = Z.to_nat (historyIndex st + 2)) as Hlen.
  { rewrite Hh2, length_app, length_take. cbn [length]. lia. }
  split; [exact Hh2 |]. split; [lia |]. split; [lia |].
  split.
  { unfold at_index. destruct (Z.ltb_spec (historyIndex st2) 0); [done |].
    apply lookup_ge_None. lia. }
  assert (0 < historyIndex st2)%Z as Hpos by lia.
  destruct (handleUndo_spec H st2 Hpos) as (_ & Hi3 & Hm3 & _).
  split; [lia |].
  rewrite Hm3. do 2 f_equal.
  apply historyEntry_lookup; [lia |].
  rewrite Hh2, Hi2, Hi1.
  replace (Z.to_nat (historyIndex st + 1 + 1 - 1))
    with (length (take (Z.to_nat (historyIndex st + 1)) (history st)) + 0)
    by (rewrite length_take; lia).
  by rewrite lookup_app_r, Nat.add_comm, Nat.add_sub by lia.
Qed.

(** The sample with a drag and a drawing under way, released: one
    snapshot before, two after, and the index at 2. *)
Lemma release_of_two_gestures_overruns_history_witness :
  let st := MoreSamples.twoGestures in
  let st' := handleMouseUp TestHost.host st in
  historyIndex st = 0%Z ∧ length (history st) = 1
  ∧ length (history st') = 2 ∧ historyIndex st' = 2%Z.
Proof.
  cbv zeta.
  epose proof (release_of_two_gestures_overruns_history TestHost.host
                 MoreSamples.twoGestures 3 _ _) as T.
  edestruct T as (Hh & Hi & _).
  - unfold validHistory. vm_compute. split; discriminate || reflexivity.
  - vm_compute. discriminate.
  - vm_compute. reflexivity.
  - vm_compute. reflexivity.
  - vm_compute. reflexivity.
  - vm_compute. reflexivity.
  - vm_compute. reflexivity.
  - vm_compute. reflexivity.
  - vm_compute. discriminate.
  - split; [vm_compute; reflexivity |]. split; [vm_compute; reflexivity |].
    split.
    + etransitivity; [exact (f_equal length Hh) |]. vm_compute. reflexivity.
    + etransitivity; [exact Hi |]. vm_compute. reflexivity.
Defined.

(** ** A drag of a control point from press to release *)

Lemma same_document_same_text (H : Host) (st st' : EditorState) :
  heap st' = heap st → mount st' = mount st →
  getCurrentSVGString H st' = getCurrentSVGString H st.
Proof.
  intros Hh Hm. unfold getCurrentSVGString, currentMarkup.
  by rewrite Hh, Hm.
Qed.

(** X8. A control point of the one selected shape is pressed while nothing is
    being drawn. Released at once, the press records nothing. Released
    after one pointer move, it records one snapshot after the current one,
    also when the edit left the shape as it was (a rectangle that would
    turn inside out, an index with no point): the document is unchanged
    and its text is recorded once more. *)
Theorem handle_drag_records_even_an_edit_without_effect (H : Host)
        (st : EditorState) (idx : nat) (e : MouseEvent) (id : nat)
        (el : Element) (content : string) :
  isDrawing st = false →
  selectedElements st = [id] →
  heap st !! id = Some el →
  getCurrentSVGString H st = Some content → content ≠ "" →
  let pressed := handleVertexMouseDown idx st in
  let released := handleMouseUp H pressed in
  (history released = history st
   ∧ historyIndex released = historyIndex st
   ∧ heap released = heap st ∧ mount released = mount st
   ∧ dragMode released = DragNone)
  ∧ (let localPt := getLocalPoint H pressed (clientX e) (clientY e) el in
     updateElementShape H el idx (pt_x localPt) (pt_y localPt) = Some el →
     let st' := handleMouseUp H (handleMouseMove H e pressed) in
     heap st' = heap st ∧ mount st' = mount st
     ∧ history st'
       = (slice0 (history st) (historyIndex st + 1) ++ [content])%list
     ∧ historyIndex st' = (historyIndex st + 1)%Z
     ∧ dragMode st' = DragNone).
Proof.
  intros Hw Hsel Hel Hs Hne. cbv zeta. split.
  - unfold handleMouseUp, handleVertexMouseDown. cbv zeta.
    rewrite finishDrawing_idle
      by (rewrite finishDrag_idle_ledger; by destruct st).
    unfold finishDrag. by destruct st.
  - intros Hedit.
    set (moved := handleMouseMove H e (handleVertexMouseDown idx st)).
    assert (heap moved = heap st ∧ mount moved = mount st
            ∧ history moved = history st
            ∧ historyIndex moved = historyIndex st
            ∧ isDrawing moved = false
            ∧ dragMode moved = DragVertex ∧ didChange moved = true)
      as (Hh & Hm & Hhist & Hidx & Hdraw & Hmode & Hch).
    { subst moved. unfold handleMouseMove, handleVertexMouseDown.
      cbv zeta. unfold getLocalPoint, handleVertexMouseDown in Hedit.
      destruct st; fields. subst.
      unfold currentMarkup in *. fields. rewrite Hel.
      change (default (createElementNS "") (Some el)) with el.
      unfold getLocalPoint, currentMarkup. fields.
      rewrite Hedit. unfold updateSelectionBBox, mutate. fields.
      rewrite alter_id by (intros x Hx; congruence). done. }
    clearbody moved.
    pose proof (handleMouseUp_ends_gesture H moved) as [Hend _].
    revert Hend. unfold handleMouseUp. cbv zeta.
    rewrite finishDrawing_idle
      by (rewrite finishDrag_idle_ledger; exact Hdraw).
    intros Hend.
    pose proof (finishDrag_commits H (historyIndex moved) moved content
                  ltac:(by rewrite Hmode) Hch
                  ltac:(by rewrite (same_document_same_text H st moved Hh Hm))
                  Hne) as (F1 & F2 & F3 & F4 & _).
    cbv zeta in F1, F2, F3, F4.
    rewrite F1, F2, F3, F4, Hh, Hm, Hhist, Hidx.
    do 4 (split; [done |]).
    rewrite Hidx in Hend. exact Hend.
Qed.

(** The rectangle [{x: 10, y: 10, width: 50, height: 50}] of the sample,
    its first corner dragged to [(80, 10)]: the rectangle stays, and the
    history grows from one snapshot to two. *)
Lemma handle_drag_records_even_an_edit_without_effect_witness :
  let st := MoreSamples.rectSelected in
  let st' :=
    run TestHost.host st
        [VertexMouseDown 0; MouseMove MoreSamples.pastCorner; MouseUp] in
  heap st' = heap st
  ∧ length (history st) = 1 ∧ length (history st') = 2
  ∧ history st' !! 1%nat = history st' !! 0%nat.
Proof.
  cbv zeta.
  epose proof (handle_drag_records_even_an_edit_without_effect TestHost.host
                 MoreSamples.rectSelected 0 MoreSamples.pastCorner 1
                 Samples.rectEl _
                 ltac:(vm_compute; reflexivity) ltac:(vm_compute; reflexivity)
                 ltac:(vm_compute; reflexivity) ltac:(vm_compute; reflexivity)
                 ltac:(vm_compute; discriminate)) as [_ T].
  cbv zeta in T.
  specialize (T ltac:(vm_compute; reflexivity)) as (T1 & _ & T3 & _).
  change (run TestHost.host MoreSamples.rectSelected
            [VertexMouseDown 0; MouseMove MoreSamples.pastCorner; MouseUp])
    with (handleMouseUp TestHost.host
            (handleMouseMove TestHost.host MoreSamples.pastCorner
               (handleVertexMouseDown 0 MoreSamples.rectSelected))).
  split; [exact T1 |].
  split; [vm_compute; reflexivity |].
  rewrite T3. split; vm_compute; reflexivity.
Defined.

(** ** Control-point edits *)

Lemma differOnlyIn_refl (names : list string) (el : Element) :
  differOnlyIn names el el.
Proof. by repeat split. Qed.

Lemma differOnlyIn_set (names : list string) (el el' : Element)
      (k v : string) :
  k ∈ names → differOnlyIn names el el' →
  differOnlyIn names el (setAttribute el' k v).
Proof.
  intros Hk (Ht & Hs & Hc & Ha). repeat split; try done.
  intros a Hna. rewrite getAttribute_set_ne; [by apply Ha |].
  by intros ->.
Qed.

Ltac only_geometry :=
  repeat (apply differOnlyIn_set; [unfold geometryAttrs; in_list |]);
  apply differOnlyIn_refl.

Lemma updateElementShape_frame (H : Host) (el el' : Element) (idx : nat)
      (x y : float) :
  updateElementShape H el idx x y = Some el' →
  differOnlyIn geometryAttrs el el'.
Proof.
  unfold updateElementShape. cbv zeta.
  repeat match goal with
         | |- context [if ?b then _ else _] => destruct b
         | |- context [match ?o with Some _ => _ | None => _ end] => destruct o
         end;
    intros [= <-]; only_geometry.
Qed.

(** Testing that a name is not in an explicit list. *)
Ltac not_in_list :=
  let Hin := fresh "Hin" in
  intros Hin;
  repeat (apply elem_of_cons in Hin as [Hin | Hin]; [discriminate |]);
  by apply elem_of_nil in Hin.

(** X9. An edit of a control point rewrites geometry attributes of the shape
    and nothing else: the tag, the inline style, the text, the stroke and
    every other attribute stay, and so do the stored transform and the
    dash state. A shape of a kind the editor does not know is left as it
    is. *)
Theorem control_point_edit_touches_geometry_only (H : Host) (el el' : Element)
        (idx : nat) (x y : float) :
  updateElementShape H el idx x y = Some el' →
  differOnlyIn geometryAttrs el el'
  ∧ getElementTransform H el' = getElementTransform H el
  ∧ getAttribute el' "transform" = getAttribute el "transform"
  ∧ isDashed el' = isDashed el
  ∧ (Js.toLowerCase (tagName el) ∉ validShapeTags → el' = el).
Proof.
  intros Hu. pose proof (updateElementShape_frame H el el' idx x y Hu)
    as (Ht & Hs & Hc & Ha).
  split; [done |].
  split.
  { unfold getElementTransform, numAttr.
    rewrite !Ha; [done | unfold geometryAttrs; not_in_list ..]. }
  split; [apply Ha; unfold geometryAttrs; not_in_list |].
  split.
  { unfold isDashed, getStyle. rewrite Hs, Ha; [done |].
    unfold geometryAttrs; not_in_list. }
  intros Hkind. revert Hu. unfold updateElementShape. cbv zeta.
  destruct (String.eqb_spec (Js.toLowerCase (tagName el)) "line") as [E | _];
    [exfalso; apply Hkind; rewrite E; unfold validShapeTags; in_list |].
  destruct (String.eqb_spec (Js.toLowerCase (tagName el)) "circle") as [E | _];
    [exfalso; apply Hkind; rewrite E; unfold validShapeTags; in_list |].
  destruct (String.eqb_spec (Js.toLowerCase (tagName el)) "ellipse") as [E | _];
    [exfalso; apply Hkind; rewrite E; unfold validShapeTags; in_list |].
  destruct (String.eqb_spec (Js.toLowerCase (tagName el)) "rect") as [E | _];
    [exfalso; apply Hkind; rewrite E; unfold validShapeTags; in_list |].
  destruct (String.eqb_spec (Js.toLowerCase (tagName el)) "polygon") as [E | _];
    [exfalso; apply Hkind; rewrite E; unfold validShapeTags; in_list |].
  destruct (String.eqb_spec (Js.toLowerCase (tagName el)) "polyline") as [E | _];
    [exfalso; apply Hkind; rewrite E; unfold validShapeTags; in_list |].
  destruct (String.eqb_spec (Js.toLowerCase (tagName el)) "path") as [E | _];
    [exfalso; apply Hkind; rewrite E; unfold validShapeTags; in_list |].
  destruct (String.eqb_spec (Js.toLowerCase (tagName el)) "text") as [E | _];
    [exfalso; apply Hkind; rewrite E; unfold validShapeTags; in_list |].
  cbn [orb]. by intros [= <-].
Qed.

(** The top-left handle of the sample's rectangle, moved to [(20, 20)]:
    the stroke stays. *)
Lemma control_point_edit_touches_geometry_only_witness :
  ∃ el',
    updateElementShape TestHost.host Samples.rectEl 0 20 20 = Some el'
    ∧ getAttribute el' "x" = Some "20"
    ∧ getAttribute el' "width" = Some "40"
    ∧ getAttribute el' "stroke" = Some "#000000".
Proof.
  eexists. split; [vm_compute; reflexivity |].
  split; [vm_compute; reflexivity |]. split; [vm_compute; reflexivity |].
  epose proof (control_point_edit_touches_geometry_only TestHost.host
                 Samples.rectEl _ 0 20 20 _) as (Hd & _).
  destruct Hd as (_ & _ & _ & Ha).
  etransitivity; [apply Ha; unfold geometryAttrs; not_in_list |].
  vm_compute. reflexivity.
  Unshelve. vm_compute. reflexivity.
Defined.

Lemma float_abs_not_negative (v : float) :
  PrimFloat.ltb (PrimFloat.abs v) 0 = false.
Proof.
  rewrite ltb_spec, abs_spec.
  change (Prim2SF 0) with (S754_zero false).
  by destruct (Prim2SF v) as [[] | [] | | [] ? ?].
Qed.

(** X10. Moving an end of a line (the first handle moves the first end, any
    other the second) or the anchor of a text: the handle reads back at
    the new position, and the other end of the line stays where it was. *)
Theorem anchor_edit_reads_back (H : Host) (el : Element) (idx : nat)
        (x y : float) :
  reads_back H x → reads_back H y →
  (Js.toLowerCase (tagName el) = "line" →
   ∃ el',
     updateElementShape H el idx x y = Some el'
     ∧ parseControlPoints H el'
       = if Nat.eqb idx 0
         then [mkControlPoint x y 0 CpVertex;
               mkControlPoint (numAttr H el "x2") (numAttr H el "y2") 1 CpVertex]
         else [mkControlPoint (numAttr H el "x1") (numAttr H el "y1") 0 CpVertex;
               mkControlPoint x y 1 CpVertex])
  ∧ (Js.toLowerCase (tagName el) = "text" →
     ∃ el',
       updateElementShape H el idx x y = Some el'
       ∧ parseControlPoints H el' = [mkControlPoint x y 0 CpCenter]).
Proof.
  intros Rx Ry. split; intros Htag.
  - unfold updateElementShape. cbv zeta. rewrite Htag.
    change (String.eqb "line" "line") with true. cbv iota.
    destruct (Nat.eqb idx 0); eexists; (split; [reflexivity |]);
      unfold parseControlPoints; cbv zeta;
      cbn [tagName setAttribute]; rewrite Htag;
      change (String.eqb "line" "line") with true; cbv iota.
    + rewrite (numAttr_set_ne H _ "y1" "x1") by done.
      rewrite !numAttr_written by done.
      by rewrite !numAttr_set_ne by done.
    + rewrite (numAttr_set_ne H _ "y2" "x2") by done.
      rewrite !numAttr_written by done.
      by rewrite !numAttr_set_ne by done.
  - unfold updateElementShape. cbv zeta. rewrite Htag.
    change (String.eqb "text" "line") with false.
    change (String.eqb "text" "circle") with false.
    change (String.eqb "text" "ellipse") with false.
    change (String.eqb "text" "rect") with false.
    change (String.eqb "text" "polygon") with false.
    change (String.eqb "text" "polyline") with false.
    change (String.eqb "text" "path") with false.
    change (String.eqb "text" "text") with true.
    cbv iota. cbn [orb]. cbv iota.
    eexists; (split; [reflexivity |]).
    unfold parseControlPoints; cbv zeta.
    cbn [tagName setAttribute]; rewrite Htag.
    change (String.eqb "text" "line") with false.
    change (String.eqb "text" "circle") with false.
    change (String.eqb "text" "ellipse") with false.
    change (String.eqb "text" "rect") with false.
    change (String.eqb "text" "polygon") with false.
    change (String.eqb "text" "polyline") with false.
    change (String.eqb "text" "path") with false.
    change (String.eqb "text" "text") with true.
    cbv iota. cbn [orb]. cbv iota.
    rewrite (numAttr_set_ne H _ "y" "x") by done.
    by rewrite !numAttr_written by done.
Qed.

(** The second end of the sample's line, moved to [(50, 60)]. *)
Lemma anchor_edit_reads_back_witness :
  ∃ el',
    updateElementShape TestHost.host MoreSamples.lineEl 1 50 60 = Some el'
    ∧ parseControlPoints TestHost.host el'
      = [mkControlPoint 10 10 0 CpVertex; mkControlPoint 50 60 1 CpVertex].
Proof.
  destruct (anchor_edit_reads_back TestHost.host MoreSamples.lineEl 1 50 60)
    as [T _].
  - vm_compute. reflexivity.
  - vm_compute. reflexivity.
  - destruct T as (el' & Hu & Hp); [vm_compute; reflexivity |].
    exists el'. split; [exact Hu |].
    etransitivity; [exact Hp |]. vm_compute. reflexivity.
Defined.

(** Comparisons of tag names that are known. *)
Ltac compare_tags :=
  repeat match goal with
         | |- context [String.eqb ?a ?b] =>
             let v := eval vm_compute in (String.eqb a b) in
             match v with
             | true => change (String.eqb a b) with true
             | false => change (String.eqb a b) with false
             end
         end;
  cbn [orb andb negb]; cbv iota.

(** X11. The handles of a circle and of an ellipse. The centre handle moves the
    centre and keeps the radii. A radius handle of a circle sets the
    radius to the distance between the pointer and the centre, and the
    handle is then drawn on the horizontal through the centre; a radius
    handle of an ellipse sets its radius to the distance along its own
    axis, which is never negative. A handle beyond the third changes
    nothing on an ellipse. *)
Theorem radius_edit_follows_pointer (H : Host) (el : Element) (idx : nat)
        (x y : float) :
  let cx := numAttr H el "cx" in
  let cy := numAttr H el "cy" in
  (Js.toLowerCase (tagName el) = "circle" →
   let r := numAttr H el "r" in
   let newR := Math_sqrt H (Math_pow H (x - cx) 2 + Math_pow H (y - cy) 2) in
   ∃ el',
     updateElementShape H el idx x y = Some el'
     ∧ (idx = 0 → reads_back H x → reads_back H y →
        parseControlPoints H el'
        = [mkControlPoint x y 0 CpCenter;
           mkControlPoint (x + r) y 1 CpRadius])
     ∧ (idx ≠ 0 → reads_back H newR →
        parseControlPoints H el'
        = [mkControlPoint cx cy 0 CpCenter;
           mkControlPoint (cx + newR) cy 1 CpRadius]))
  ∧ (Js.toLowerCase (tagName el) = "ellipse" →
     let rx := numAttr H el "rx" in
     let ry := numAttr H el "ry" in
     let newRx := Js.Math_abs (x - cx) in
     let newRy := Js.Math_abs (y - cy) in
     PrimFloat.ltb newRx 0 = false ∧ PrimFloat.ltb newRy 0 = false
     ∧ ∃ el',
         updateElementShape H el idx x y = Some el'
         ∧ (idx = 0 → reads_back H x → reads_back H y →
            parseControlPoints H el'
            = [mkControlPoint x y 0 CpCenter;
               mkControlPoint (x + rx) y 1 CpRadiusX;
               mkControlPoint x (y + ry) 2 CpRadiusY])
         ∧ (idx = 1 → reads_back H newRx →
            parseControlPoints H el'
            = [mkControlPoint cx cy 0 CpCenter;
               mkControlPoint (cx + newRx) cy 1 CpRadiusX;
               mkControlPoint cx (cy + ry) 2 CpRadiusY])
         ∧ (idx = 2 → reads_back H newRy →
            parseControlPoints H el'
            = [mkControlPoint cx cy 0 CpCenter;
               mkControlPoint (cx + rx) cy 1 CpRadiusX;
               mkControlPoint cx (cy + newRy) 2 CpRadiusY])
         ∧ ((3 ≤ idx)%nat → el' = el)).
Proof.
  cbv zeta. split; intros Htag.
  - unfold updateElementShape. cbv zeta. rewrite Htag. compare_tags.
    destruct (Nat.eqb_spec idx 0) as [-> | Hidx]; eexists;
      (split; [reflexivity |]); (split; [| intros ?; try done]);
      try done; intros;
      unfold parseControlPoints; cbv zeta; cbn [tagName setAttribute];
      rewrite Htag; compare_tags.
    + rewrite (numAttr_set_ne H _ "cy" "cx") by done.
      rewrite !numAttr_written by done.
      by rewrite !numAttr_set_ne by done.
    + rewrite !numAttr_written by done.
      by rewrite !numAttr_set_ne by done.
  - split; [apply float_abs_not_negative |].
    split; [apply float_abs_not_negative |].
    unfold updateElementShape. cbv zeta. rewrite Htag. compare_tags.
    destruct idx as [| [| [| idx]]]; cbn [Nat.eqb]; eexists;
      (split; [reflexivity |]);
      (split; [intros ? | split; [intros ? | split; [intros ? | intros ?]]]);
      try done; try lia; intros;
      unfold parseControlPoints; cbv zeta; cbn [tagName setAttribute];
      rewrite Htag; compare_tags.
    + rewrite (numAttr_set_ne H _ "cy" "cx") by done.
      rewrite !numAttr_written by done.
      by rewrite !numAttr_set_ne by done.
    + rewrite !numAttr_written by done.
      by rewrite !numAttr_set_ne by done.
    + rewrite !numAttr_written by done.
      by rewrite !numAttr_set_ne by done.
Qed.

(** The radius handle of the sample's circle, dragged to [(203, 204)]: the
    radius becomes 5. *)
Lemma radius_edit_follows_pointer_witness :
  ∃ el',
    updateElementShape TestHost.host MoreSamples.circleEl 1 203 204 = Some el'
    ∧ parseControlPoints TestHost.host el'
      = [mkControlPoint 200 200 0 CpCenter; mkControlPoint 205 200 1 CpRadius].
Proof.
  destruct (radius_edit_follows_pointer TestHost.host MoreSamples.circleEl 1
              203 204) as [T _].
  destruct T as (el' & Hu & _ & Hp); [vm_compute; reflexivity |].
  exists el'. split; [exact Hu |].
  etransitivity; [apply Hp; [done | vm_compute; reflexivity] |].
  vm_compute. reflexivity.
Defined.

(** ** Vertices of polygons and polylines *)

Lemma string_app_cons (x : ascii) (a b : string) :
  String x a ++ b = String x (a ++ b).
Proof. reflexivity. Qed.

Lemma string_app_assoc (a b c : string) : (a ++ b) ++ c = a ++ (b ++ c).
Proof.
  induction a as [| x a IH]; [done |]. by rewrite !string_app_cons, IH.
Qed.

Lemma string_app_nil_r (a : string) : a ++ "" = a.
Proof.
  induction a as [| x a IH]; [done |]. by rewrite string_app_cons, IH.
Qed.

Lemma string_app_eq_nil (a b : string) : a ++ b = "" → a = "".
Proof. by destruct a. Qed.

(** A piece free of separators is read into the piece under way. *)
Lemma tokens_from_free (sep : ascii → bool) (s cur rest : string) :
  freeOf sep s = true →
  tokens_from sep cur (s ++ rest) = tokens_from sep (cur ++ s) rest.
Proof.
  revert cur. induction s as [| c s IH]; intros cur Hs.
  - by rewrite string_app_nil_r.
  - cbn [freeOf] in Hs. apply andb_prop in Hs as [Hc Hs].
    apply negb_true_iff in Hc. rewrite string_app_cons.
    cbn [tokens_from]. rewrite Hc.
    rewrite IH by done. by rewrite string_app_assoc.
Qed.

Lemma tokens_from_separator (sep : ascii → bool) (c : ascii)
      (cur rest : string) :
  sep c = true → cur ≠ "" →
  tokens_from sep cur (String c rest) = cur :: tokens_from sep "" rest.
Proof.
  intros Hc Hcur. cbn [tokens_from]. rewrite Hc.
  by destruct (String.eqb_spec cur "").
Qed.

(** Trimming changes nothing for the pieces, white space being a
    separator. *)
Lemma tokens_from_trimEnd (sep : ascii → bool) (s cur : string) :
  (∀ c, Js.is_white c = true → sep c = true) →
  tokens_from sep cur (Js.trimEnd s) = tokens_from sep cur s.
Proof.
  intros Hw. revert cur. induction s as [| c s IH]; intros cur; [done |].
  cbn [Js.trimEnd]. cbv zeta.
  destruct (String.eqb_spec (Js.trimEnd s) "") as [E | _]; cbn [andb].
  - destruct (Js.is_white c) eqn:Ec.
    + cbn [tokens_from]. rewrite (Hw c Ec), <- IH, E. cbn [tokens_from].
      by destruct (String.eqb cur "").
    + cbn [tokens_from]. by rewrite !IH.
  - cbn [tokens_from]. by rewrite !IH.
Qed.

Lemma tokens_from_trim (sep : ascii → bool) (s : string) :
  (∀ c, Js.is_white c = true → sep c = true) →
  tokens_from sep "" (Js.trim s) = tokens_from sep "" s.
Proof.
  intros Hw. unfold Js.trim. rewrite tokens_from_trimEnd by done.
  induction s as [| c s IH]; [done |].
  cbn [Js.trimStart]. destruct (Js.is_white c) eqn:Ec; [| done].
  cbn [tokens_from]. rewrite (Hw c Ec). by cbn.
Qed.

Lemma split_points_untrimmed (s : string) :
  split_points s = tokens_from pointSeparator "" s.
Proof.
  unfold split_points. apply (tokens_from_trim pointSeparator).
  intros c Hc. unfold pointSeparator. by rewrite Hc.
Qed.

(** No piece is empty. *)
Lemma tokens_from_nonempty (sep : ascii → bool) (s cur : string) :
  Forall (λ t, t ≠ "") (tokens_from sep cur s).
Proof.
  revert cur. induction s as [| c s IH]; intros cur; cbn [tokens_from].
  - destruct (String.eqb_spec cur ""); [constructor |].
    by repeat constructor.
  - destruct (sep c); [| apply IH].
    destruct (String.eqb_spec cur ""); [apply IH |].
    constructor; [done | apply IH].
Qed.

(** The pieces of the text written for a list of vertices. *)
Lemma tokens_of_pointsText (H : Host) (pts : list ControlPoint) :
  Forall (λ q, formatsAsToken H (cp_x q) ∧ formatsAsToken H (cp_y q)) pts →
  tokens_from pointSeparator "" (pointsText H pts)
  = concat (map (λ q, [JsString H (cp_x q); JsString H (cp_y q)]) pts).
Proof.
  unfold pointsText.
  induction pts as [| p pts IH]; intros Hall; [done |].
  apply Forall_cons in Hall as [[(Hx0 & Hx & _) (Hy0 & Hy & _)] Hall].
  specialize (IH Hall).
  assert (∀ rest,
            tokens_from pointSeparator ""
              ((JsString H (cp_x p) ++ "," ++ JsString H (cp_y p)) ++ rest)
            = JsString H (cp_x p)
              :: tokens_from pointSeparator (JsString H (cp_y p)) rest) as Hp.
  { intros rest. rewrite string_app_assoc, tokens_from_free by done.
    rewrite string_app_assoc.
    change ("," ++ ?r) with (String "," r).
    rewrite tokens_from_separator by done.
    by rewrite tokens_from_free by done. }
  destruct pts as [| q pts].
  - cbn [map Js.join concat app].
    pose proof (Hp "") as Hp0. rewrite string_app_nil_r in Hp0.
    rewrite Hp0. cbn [tokens_from].
    by destruct (String.eqb_spec (JsString H (cp_y p)) "").
  - change (Js.join " " (map ?f (p :: q :: pts)))
      with (f p ++ " " ++ Js.join " " (map f (q :: pts))).
    cbv beta. rewrite Hp.
    change (" " ++ ?r) with (String " " r).
    rewrite tokens_from_separator by done.
    by rewrite IH.
Qed.

(** The points read from pieces that are the texts of vertices. *)
Lemma pair_points_of_texts (H : Host) (pts : list ControlPoint) (k : nat) :
  Forall (λ q, formatsAsToken H (cp_x q) ∧ formatsAsToken H (cp_y q)) pts →
  pair_points H
    (concat (map (λ q, [JsString H (cp_x q); JsString H (cp_y q)]) pts)) k
  = imap (λ i q, mkControlPoint (cp_x q) (cp_y q) (k + i) CpVertex) pts.
Proof.
  revert k. induction pts as [| p pts IH]; intros k Hall; [done |].
  apply Forall_cons in Hall as [[(Hx0 & _ & Hx) (Hy0 & _ & Hy)] Hall].
  cbn [map concat app pair_points imap].
  destruct (String.eqb_spec (JsString H (cp_x p)) ""); [done |].
  destruct (String.eqb_spec (JsString H (cp_y p)) ""); [done |].
  cbn [negb andb app]. rewrite Hx, Hy, Nat.add_0_r. f_equal.
  rewrite IH by done. apply imap_ext. intros i q _. cbn. f_equal. lia.
Qed.

(** Lists, two items at a time. *)
Lemma list_pair_ind {A} (P : list A → Prop) :
  P [] → (∀ a, P [a]) → (∀ a b l, P l → P (a :: b :: l)) → ∀ l, P l.
Proof.
  intros H0 H1 H2 l.
  assert (P l ∧ ∀ a, P (a :: l)) as [Hl _]; [| exact Hl].
  induction l as [| b l [IH1 IH2]]; [by split |].
  split; [apply IH2 |]. intros a. by apply H2.
Qed.

(** The points read from any pieces are vertices numbered in order. *)
Lemma pair_points_numbered (H : Host) (l : list string) (k : nat) :
  Forall (λ t, t ≠ "") l →
  ∀ i q, pair_points H l k !! i = Some q →
         cp_id q = k + i ∧ cp_type q = CpVertex.
Proof.
  revert k. induction l as [| a | b c rest IH] using list_pair_ind;
    intros k Hall i q; cbn [pair_points]; try done.
  apply Forall_cons in Hall as [Hb Hall].
  apply Forall_cons in Hall as [Hc Hall].
  destruct (String.eqb_spec b ""); [done |].
  destruct (String.eqb_spec c ""); [done |].
  cbn [negb andb app]. destruct i as [| i]; cbn [lookup list_lookup].
  - intros [= <-]. cbn. split; [lia | done].
  - intros Hq. destruct (IH (S k) Hall i q Hq) as [-> ->].
    split; [lia | done].
Qed.

Lemma polygon_points_numbered (H : Host) (el : Element) :
  (Js.toLowerCase (tagName el) = "polygon"
   ∨ Js.toLowerCase (tagName el) = "polyline") →
  ∀ i q, parseControlPoints H el !! i = Some q →
         cp_id q = i ∧ cp_type q = CpVertex.
Proof.
  intros Htag i q. unfold parseControlPoints. cbv zeta.
  destruct Htag as [-> | ->]; compare_tags; unfold split_points;
    apply (pair_points_numbered H _ 0), tokens_from_nonempty.
Qed.

(** X12. Moving a vertex of a polygon or of a polyline rewrites the [points]
    attribute from the vertices read, the moved one at its new position;
    read again, the attribute gives these vertices, provided that the
    text of each coordinate is one piece of the attribute (no white space
    and no comma in it) and reads back as the coordinate. A handle that
    names no vertex changes nothing. *)
Theorem polygon_vertex_edit_reads_back (H : Host) (el : Element) (idx : nat)
        (x y : float) :
  (Js.toLowerCase (tagName el) = "polygon"
   ∨ Js.toLowerCase (tagName el) = "polyline") →
  (∀ p,
     parseControlPoints H el !! idx = Some p →
     let pts' := <[idx := setPoint p x y]> (parseControlPoints H el) in
     Forall (λ q, formatsAsToken H (cp_x q) ∧ formatsAsToken H (cp_y q)) pts' →
     ∃ el',
       updateElementShape H el idx x y = Some el'
       ∧ getAttribute el' "points" = Some (pointsText H pts')
       ∧ parseControlPoints H el' = pts'
       ∧ pts' !! idx = Some (mkControlPoint x y idx CpVertex)
       ∧ length pts' = length (parseControlPoints H el))
  ∧ (parseControlPoints H el !! idx = None →
     updateElementShape H el idx x y = Some el).
Proof.
  intros Htag.
  assert (∀ el0, tagName el0 = tagName el →
            parseControlPoints H el0
            = pair_points H
                (split_points (Js.or_default (getAttribute el0 "points") "")) 0)
    as Hparse.
  { intros el0 E. unfold parseControlPoints. cbv zeta. rewrite E.
    by destruct Htag as [-> | ->]; compare_tags. }
  assert (updateElementShape H el idx x y
          = match parseControlPoints H el !! idx with
            | Some p =>
                Some (setAttribute el "points"
                        (pointsText H
                           (<[idx := setPoint p x y]> (parseControlPoints H el))))
            | None => Some el
            end) as Hupd.
  { unfold updateElementShape. cbv zeta.
    by destruct Htag as [-> | ->]; compare_tags. }
  rewrite Hupd. split.
  - intros p Hp pts' Hall. rewrite Hp. eexists. split; [reflexivity |].
    split; [apply getAttribute_set_eq |].
    destruct (polygon_points_numbered H el Htag idx p Hp) as [Hid Hty].
    assert (idx < length (parseControlPoints H el)) as Hlt
      by (by apply lookup_lt_Some in Hp).
    split; [| split].
    + rewrite Hparse by done. rewrite getAttribute_set_eq.
      assert (∀ s, Js.or_default (Some s) "" = s) as ->
        by (intros s; cbn; by destruct (String.eqb_spec s "")).
      fold pts'.
      rewrite split_points_untrimmed, tokens_of_pointsText by done.
      rewrite pair_points_of_texts by done.
      apply list_eq. intros i. rewrite list_lookup_imap.
      destruct (pts' !! i) as [q |] eqn:Eq; [| done]. cbn.
      f_equal. subst pts'.
      destruct (decide (i = idx)) as [-> | Hne].
      * rewrite list_lookup_insert_eq in Eq by done. injection Eq as <-.
        unfold setPoint. cbn. by rewrite Hid, Hty.
      * rewrite list_lookup_insert_ne in Eq by done.
        destruct (polygon_points_numbered H el Htag i q Eq) as [Hid' Hty'].
        destruct q. cbn in *. by subst.
    + subst pts'. rewrite list_lookup_insert_eq by done.
      unfold setPoint. by rewrite Hid, Hty.
    + subst pts'. by rewrite length_insert.
  - by intros ->.
Qed.

(** The second vertex of a triangle, moved to [(70, 20)]. *)
Lemma polygon_vertex_edit_reads_back_witness :
  ∃ el',
    updateElementShape TestHost.host MoreSamples.triangleEl 1 70 20 = Some el'
    ∧ getAttribute el' "points" = Some "10,10 70,20 35,50"
    ∧ parseControlPoints TestHost.host el'
      = [mkControlPoint 10 10 0 CpVertex; mkControlPoint 70 20 1 CpVertex;
         mkControlPoint 35 50 2 CpVertex].
Proof.
  destruct (polygon_vertex_edit_reads_back TestHost.host
              MoreSamples.triangleEl 1 70 20) as [T _].
  - left. vm_compute. reflexivity.
  - edestruct T as (el' & Hu & Ha & Hp & _).
    + vm_compute. reflexivity.
    + cbv zeta.
      match goal with
      | |- Forall ?P ?l =>
          let l' := eval vm_compute in l in change (Forall P l')
      end.
      repeat constructor; vm_compute; done.
    + exists el'. split; [exact Hu |].
      split; [etransitivity; [exact Ha | vm_compute; reflexivity] |].
      etransitivity; [exact Hp | vm_compute; reflexivity].
Defined.

(** ** Rotating the selection *)

(** The transforms captured at a press: those of the shapes pressed on
    that exist. *)
Lemma captureTransforms_lookup (H : Host) (ids : list nat) (st : EditorState)
      (j : nat) :
  startTransformsMap (captureTransforms H ids st) !! j
  = if bool_decide (j ∈ ids) then getElementTransform H <$> heap st !! j
    else None.
Proof.
  unfold captureTransforms.
  cbn [startTransformsMap set_startTransformsMap].
  assert (∀ m : gmap nat TransformData,
            foldl (λ m id,
                   match heap st !! id with
                   | Some el => <[id := getElementTransform H el]> m
                   | None => m
                   end) m ids !! j
            = if bool_decide (j ∈ ids)
              then match heap st !! j with
                   | Some el => Some (getElementTransform H el)
                   | None => m !! j
                   end
              else m !! j) as Hgen.
  { induction ids as [| a ids IH]; intros m.
    - cbn [foldl]. by rewrite bool_decide_eq_false_2 by apply not_elem_of_nil.
    - cbn [foldl]. rewrite IH.
      destruct (decide (j = a)) as [-> | Hne].
      + rewrite (bool_decide_eq_true_2 (a ∈ a :: ids)) by in_list.
        destruct (heap st !! a) as [el |] eqn:Ea.
        * rewrite lookup_insert_eq. by destruct (bool_decide (a ∈ ids)).
        * by destruct (bool_decide (a ∈ ids)).
      + assert (bool_decide (j ∈ a :: ids) = bool_decide (j ∈ ids)) as ->.
        { apply bool_decide_ext. rewrite elem_of_cons. tauto. }
        destruct (heap st !! a) as [el |]; [| done].
        by rewrite lookup_insert_ne by done. }
  rewrite Hgen. destruct (bool_decide (j ∈ ids)); [| done].
  by destruct (heap st !! j).
Qed.

(** Every selected shape with a captured transform gets that transform
    back through [g]. *)
Lemma foldl_retransform_spec (H : Host) (g : TransformData → TransformData)
      (f : EditorState → nat → EditorState) (ids : list nat)
      (st : EditorState) :
  (∀ st id,
     f st id = match startTransformsMap st !! id with
               | Some t0 => mutate id (λ el, setElementTransform H el (g t0)) st
               | None => st
               end) →
  let st' := foldl f st ids in
  st' = set_heap (heap st') st
  ∧ ∀ j, heap st' !! j
         = match startTransformsMap st !! j with
           | Some t0 =>
               if bool_decide (j ∈ ids)
               then (λ el, setElementTransform H el (g t0)) <$> heap st !! j
               else heap st !! j
           | None => heap st !! j
           end.
Proof.
  intros Hf. revert st. induction ids as [| a ids IH]; intros st; cbv zeta.
  - cbn [foldl]. split; [by rewrite set_heap_id |].
    intros j. by destruct (startTransformsMap st !! j).
  - cbn [foldl].
    assert (f st a = set_heap (heap (f st a)) st
            ∧ ∀ j, heap (f st a) !! j
                   = match startTransformsMap st !! a with
                     | Some t0 =>
                         if decide (j = a)
                         then (λ el, setElementTransform H el (g t0))
                                <$> heap st !! j
                         else heap st !! j
                     | None => heap st !! j
                     end) as [E1 L1].
    { rewrite Hf. destruct (startTransformsMap st !! a) as [t0 |].
      - rewrite mutate_spec.
        destruct (set_heap_fields
                    (alter (λ el, setElementTransform H el (g t0)) a (heap st))
                    st) as (-> & _).
        split; [done |]. intros j.
        destruct (decide (j = a)) as [-> | Hne];
          [apply lookup_alter_eq | by apply lookup_alter_ne].
      - split; [by rewrite set_heap_id | done]. }
    set (st1 := f st a) in *.
    destruct (IH st1) as [E2 L2].
    set (st2 := foldl f st1 ids) in *.
    assert (startTransformsMap st1 = startTransformsMap st) as Emap.
    { rewrite E1. by destruct st. }
    split.
    { rewrite E2 at 1. rewrite E1. apply set_heap_set_heap. }
    intros j. rewrite L2, Emap, L1.
    destruct (startTransformsMap st !! j) as [t0 |] eqn:Ej.
    + destruct (decide (j = a)) as [-> | Hne].
      * rewrite Ej. rewrite (bool_decide_eq_true_2 (a ∈ a :: ids)) by in_list.
        destruct (bool_decide (a ∈ ids)); [| done].
        destruct (heap st !! a) as [el |]; [| done]. cbn.
        by rewrite setElementTransform_idem.
      * assert (bool_decide (j ∈ a :: ids) = bool_decide (j ∈ ids)) as ->.
        { apply bool_decide_ext. rewrite elem_of_cons. tauto. }
        destruct (startTransformsMap st !! a); by destruct (bool_decide (j ∈ ids)).
    + destruct (startTransformsMap st !! a) eqn:Ea; [| done].
      destruct (decide (j = a)) as [-> | Hne]; [congruence | done].
Qed.

Lemma rotateBranch_spec (H : Host) (pt start center : Point)
      (st : EditorState) :
  dragMode st = DragRotate → startPoint st = Some start →
  rotationCenter st = Some center →
  let angleDelta :=
    ((Math_atan2 H (pt_y pt - pt_y center) (pt_x pt - pt_x center)
      - Math_atan2 H (pt_y start - pt_y center) (pt_x start - pt_x center))
     * (180 / Math_PI H))%float in
  let st' := rotateBranch H pt st in
  (∃ b c, st' = set_selectionBBox b (set_heap (heap st') (set_didChange c st)))
  ∧ ∀ j, heap st' !! j
         = match startTransformsMap st !! j with
           | Some t0 =>
               if bool_decide (j ∈ selectedElements st)
               then (λ el, setElementTransform H el
                             (rotateBy t0 angleDelta (pt_x center) (pt_y center)))
                      <$> heap st !! j
               else heap st !! j
           | None => heap st !! j
           end.
Proof.
  intros Hd Hs Hc. cbv zeta. unfold rotateBranch. rewrite Hd, Hs, Hc.
  destruct (selectedElements st) as [| a l] eqn:Esel.
  - split.
    + exists (selectionBBox st), (didChange st). by destruct st.
    + intros j. destruct (startTransformsMap st !! j); [| done].
      by rewrite bool_decide_eq_false_2 by apply not_elem_of_nil.
  - cbv zeta. set (st1 := set_didChange true st).
    assert (selectedElements st1 = a :: l) as E1 by (subst st1; by destruct st).
    assert (startTransformsMap st1 = startTransformsMap st) as E2
      by (subst st1; by destruct st).
    assert (heap st1 = heap st) as E3 by (subst st1; by destruct st).
    rewrite E1.
    set (angleDelta := (_ * (180 / Math_PI H))%float).
    destruct (foldl_retransform_spec H
                (λ t0, rotateBy t0 angleDelta (pt_x center) (pt_y center))
                (rotateElement H angleDelta (pt_x center) (pt_y center))
                (a :: l) st1) as [F1 F2]; [done |].
    set (st2 := foldl _ st1 (a :: l)) in *.
    rewrite (updateSelectionBBox_spec H (selectedElements st2) st2).
    set (b := selectionBBox _).
    assert (heap (set_selectionBBox b st2) = heap st2) as E4 by (by destruct st2).
    split.
    + exists b, true. rewrite E4. by rewrite F1 at 1.
    + intros j. rewrite E4, F2, E2, E3. done.
Qed.

(** X13. A press on the rotation handle followed by a pointer move, with the
    selection tool and no drawing pending: every selected shape is turned
    by the angle the pointer has swept around the centre of the selection
    box, added to the rotation it had at the press; its pivot becomes that
    centre and its translate stays. No other attribute of any shape
    changes, and shapes outside the selection are left alone. *)
Theorem rotate_drag_turns_about_box_centre (H : Host) (st : EditorState)
        (e1 e2 : MouseEvent) (bbox : BoundingBox) :
  tool st = ToolSelect → selectionBBox st = Some bbox →
  isDrawing st = false →
  let st1 := handleRotateMouseDown H e1 st in
  let start := getSVGPoint H st (clientX e1) (clientY e1) in
  let pt := getSVGPoint H st1 (clientX e2) (clientY e2) in
  let angleDelta :=
    ((Math_atan2 H (pt_y pt - bb_cy bbox) (pt_x pt - bb_cx bbox)
      - Math_atan2 H (pt_y start - bb_cy bbox) (pt_x start - bb_cx bbox))
     * (180 / Math_PI H))%float in
  let st' := handleMouseMove H e2 st1 in
  selectedElements st' = selectedElements st
  ∧ (∀ id el,
       id ∈ selectedElements st → heap st !! id = Some el →
       let t0 := getElementTransform H el in
       ∃ el',
         heap st' !! id = Some el'
         ∧ el' = setElementTransform H el
                   (rotateBy t0 angleDelta (bb_cx bbox) (bb_cy bbox))
         ∧ getAttribute el' "data-rotation"
           = Some (JsString H (rotation t0 + angleDelta))
         ∧ getAttribute el' "data-cx" = Some (JsString H (bb_cx bbox))
         ∧ getAttribute el' "data-cy" = Some (JsString H (bb_cy bbox))
         ∧ getAttribute el' "data-tx" = Some (JsString H (tx t0))
         ∧ getAttribute el' "data-ty" = Some (JsString H (ty t0)))
  ∧ (∀ id, id ∉ selectedElements st → heap st' !! id = heap st !! id)
  ∧ (∀ id el,
       heap st !! id = Some el →
       ∃ el',
         heap st' !! id = Some el'
         ∧ differOnlyIn transformAttrs el el').
Proof.
  intros Htool Hbox Hdraw st1 start pt angleDelta st'.
  assert (st1 = captureTransforms H (selectedElements st)
                  (set_rotationCenter (Some (mkPoint (bb_cx bbox) (bb_cy bbox)))
                     (set_didChange false
                        (set_startPoint (Some start)
                           (set_dragMode DragRotate st))))) as E1.
  { subst st1 start. unfold handleRotateMouseDown. rewrite Htool, Hbox.
    cbv zeta.
    assert (getSVGPoint H (set_dragMode DragRotate st) (clientX e1) (clientY e1)
            = getSVGPoint H st (clientX e1) (clientY e1)) as ->
      by (unfold getSVGPoint, currentMarkup; by destruct st).
    by destruct st. }
  assert (dragMode st1 = DragRotate ∧ startPoint st1 = Some start
          ∧ rotationCenter st1 = Some (mkPoint (bb_cx bbox) (bb_cy bbox))
          ∧ selectedElements st1 = selectedElements st
          ∧ heap st1 = heap st ∧ isDrawing st1 = false)
    as (Hd & Hs & Hc & Hsel & Hheap1 & Hdraw1).
  { rewrite E1. unfold captureTransforms. destruct st; cbn in *. by subst. }
  assert (∀ j, startTransformsMap st1 !! j
               = if bool_decide (j ∈ selectedElements st)
                 then getElementTransform H <$> heap st !! j else None) as Hcap.
  { intros j. rewrite E1, captureTransforms_lookup.
    destruct (bool_decide _); [| done]. by destruct st. }
  destruct (rotateBranch_spec H pt start (mkPoint (bb_cx bbox) (bb_cy bbox))
              st1 Hd Hs Hc) as [(b & c & Est) Hheap].
  cbn [pt_x pt_y] in Hheap. fold angleDelta in Hheap.
  assert (st' = rotateBranch H pt st1) as ->.
  { subst st'. rewrite handleMouseMove_not_vertex by (rewrite Hd; discriminate).
    cbv zeta. fold pt.
    assert (moveBranch H pt st1 = st1) as ->
      by (unfold moveBranch; by rewrite Hd).
    rewrite drawBranch_not_drawing; [done |].
    rewrite Est. destruct st1; exact Hdraw1. }
  split; [rewrite Est, <- Hsel; by destruct st1 |].
  split; [| split].
  - intros id el Hin Hel t0.
    exists (setElementTransform H el
              (rotateBy t0 angleDelta (bb_cx bbox) (bb_cy bbox))).
    rewrite Hheap, Hcap, Hsel, Hheap1, bool_decide_eq_true_2, Hel by done.
    cbn [fmap option_fmap option_map]. fold t0.
    split; [done |]. split; [done |].
    destruct (setElementTransform_fields H el
                (rotateBy t0 angleDelta (bb_cx bbox) (bb_cy bbox)))
      as (E1' & E2 & E3 & E4 & E5 & _).
    by rewrite E1', E2, E3, E4, E5.
  - intros id Hnot. rewrite Hheap, Hcap.
    rewrite bool_decide_eq_false_2 by done. by rewrite Hheap1.
  - intros id el Hel. rewrite Hheap, Hcap, Hsel, Hheap1, Hel.
    destruct (bool_decide (id ∈ selectedElements st)).
    + cbn [fmap option_fmap option_map]. eexists. split; [reflexivity |].
      apply setElementTransform_frame.
    + by exists el.
Qed.

(** The sample's line, selected, turned from east to south around the
    centre of its selection box: a quarter turn. *)
Lemma rotate_drag_turns_about_box_centre_witness :
  let st := MoreSamples.lineSelected in
  let st' :=
    handleMouseMove MoreSamples.axisHost MoreSamples.moveSouth
      (handleRotateMouseDown MoreSamples.axisHost MoreSamples.pressEast st) in
  selectedElements st = [0]
  ∧ ∃ el',
      heap st' !! 0 = Some el'
      ∧ getAttribute el' "data-rotation" = Some "90"
      ∧ getAttribute el' "x2" = Some "100".
Proof.
  cbv zeta.
  epose proof (rotate_drag_turns_about_box_centre MoreSamples.axisHost
                 MoreSamples.lineSelected MoreSamples.pressEast
                 MoreSamples.moveSouth _) as T.
  edestruct T as (_ & Hturned & _ & Hframe);
    [vm_compute; reflexivity | vm_compute; reflexivity
     | vm_compute; reflexivity |].
  split; [vm_compute; reflexivity |].
  edestruct (Hturned 0) as (el' & Hl & _ & Erot & _);
    [ apply (bool_decide_unpack _); vm_compute; exact I
    | vm_compute; reflexivity |].
  edestruct (Hframe 0) as (el'' & Hl' & _ & _ & _ & Hattr);
    [vm_compute; reflexivity |].
  rewrite Hl in Hl'. injection Hl' as <-.
  exists el'. split; [exact Hl |].
  split; [etransitivity; [exact Erot | vm_compute; reflexivity] |].
  etransitivity;
    [apply Hattr, not_transform_attr; vm_compute; reflexivity
    | vm_compute; reflexivity].
Defined.

(** ** Pressing with the selection tool *)

(** X14. A press with the selection tool, without a modifier key. On a shape
    of the document: a shape outside the selection becomes the whole
    selection, a shape inside it leaves the selection as it is, so that
    the group can be dragged by any of its members; a move drag is armed
    at the pointer, with the transforms of exactly the selected shapes
    captured as they stand. Anywhere else: the selection is emptied and
    no drag is armed. Neither changes the document or the history. *)
Theorem plain_press_selects_and_arms_drag (H : Host) (st : EditorState)
        (e : MouseEvent) (answer : option string) :
  tool st = ToolSelect →
  let st' := handleMouseDownCanvas H e answer st in
  heap st' = heap st ∧ mount st' = mount st
  ∧ history st' = history st ∧ historyIndex st' = historyIndex st
  ∧ tool st' = ToolSelect
  ∧ (∀ shape,
       target e = Some shape →
       svgContains st shape = true → isValidShape st shape = true →
       ctrlKey e = false → metaKey e = false →
       selectedElements st'
       = (if bool_decide (shape ∈ selectedElements st)
          then selectedElements st else [shape])
       ∧ shape ∈ selectedElements st'
       ∧ dragMode st' = DragMove ∧ didChange st' = false
       ∧ startPoint st' = Some (getSVGPoint H st (clientX e) (clientY e))
       ∧ ∀ j, startTransformsMap st' !! j
              = if bool_decide (j ∈ selectedElements st')
                then getElementTransform H <$> heap st !! j else None)
  ∧ ((target e = None
      ∨ ∃ shape, target e = Some shape
                 ∧ (svgContains st shape && isValidShape st shape)%bool = false) →
     selectedElements st' = [] ∧ controlPoints st' = []
     ∧ selectionBBox st' = None ∧ dragMode st' = DragNone
     ∧ startTransformsMap st' = startTransformsMap st).
Proof.
  intros Htool st'.
  assert (∀ sel,
            let stc :=
              captureTransforms H sel
                (set_didChange false
                   (set_startPoint
                      (Some (getSVGPoint H st (clientX e) (clientY e)))
                      (set_dragMode DragMove
                         (updateSelectionBBox H sel
                            match sel with
                            | [only] =>
                                set_controlPoints
                                  (controlPointsOf H
                                     (set_selectedElements sel st) only)
                                  (set_selectedElements sel st)
                            | _ => set_controlPoints []
                                     (set_selectedElements sel st)
                            end)))) in
            heap stc = heap st ∧ mount stc = mount st
            ∧ history stc = history st ∧ historyIndex stc = historyIndex st
            ∧ tool stc = tool st
            ∧ selectedElements stc = sel
            ∧ dragMode stc = DragMove ∧ didChange stc = false
            ∧ startPoint stc = Some (getSVGPoint H st (clientX e) (clientY e))
            ∧ ∀ j, startTransformsMap stc !! j
                   = if bool_decide (j ∈ sel)
                     then getElementTransform H <$> heap st !! j else None)
    as Hhit.
  { intros sel stc. subst stc.
    do 9 (split; [unfold captureTransforms, updateSelectionBBox;
                  destruct sel as [| ? [| ? ?]]; by destruct st |]).
    intros j. rewrite captureTransforms_lookup.
    destruct (bool_decide (j ∈ sel)); [| done].
    unfold updateSelectionBBox. destruct sel as [| ? [| ? ?]]; by destruct st. }
  assert (∀ stm, stm = set_dragMode DragNone (deselect st) →
            heap stm = heap st ∧ mount stm = mount st
            ∧ history stm = history st ∧ historyIndex stm = historyIndex st
            ∧ tool stm = tool st
            ∧ selectedElements stm = [] ∧ controlPoints stm = []
            ∧ selectionBBox stm = None ∧ dragMode stm = DragNone
            ∧ startTransformsMap stm = startTransformsMap st) as Hmiss.
  { intros stm ->. by destruct st. }
  subst st'. unfold handleMouseDownCanvas. cbv zeta. rewrite Htool.
  destruct (target e) as [shape |] eqn:Et.
  - destruct (svgContains st shape && isValidShape st shape)%bool eqn:Ehit.
    + destruct (Hhit (clickSelection (ctrlKey e || metaKey e)
                        (selectedElements st) shape))
        as (Hh & Hm & Hhi & Hi & Hto & Hs & Hd & Hc & Hsp & Hcap).
      rewrite Htool in Hto.
      do 5 (split; [done |]). split.
      * intros ? [= <-] Hc1 Hv1 Hctrl Hmeta.
        rewrite Hctrl, Hmeta in *. cbn [orb] in *.
        unfold clickSelection in *. cbn [negb] in *.
        rewrite Hs. split; [by destruct (bool_decide _) |].
        split; [| done].
        destruct (bool_decide (shape ∈ selectedElements st)) eqn:Ein; cbn [negb].
        -- by apply bool_decide_eq_true in Ein.
        -- in_list.
      * intros [? | (? & [= <-] & Hno)]; [done | congruence].
    + destruct (Hmiss _ eq_refl)
        as (Hh & Hm & Hhi & Hi & Hto & Hs & Hc & Hb & Hd & Hmap).
      rewrite Htool in Hto.
      do 5 (split; [done |]). split; [| done].
      intros ? [= <-] Hc1 Hv1. by rewrite Hc1, Hv1 in Ehit.
  - destruct (Hmiss _ eq_refl)
      as (Hh & Hm & Hhi & Hi & Hto & Hs & Hc & Hb & Hd & Hmap).
    rewrite Htool in Hto.
    do 5 (split; [done |]). split; [done | done].
Qed.

(** The line and the rectangle of the sample selected, the drag released,
    and a plain press on the line: both stay selected, and the transforms
    of both are captured. *)
Lemma plain_press_selects_and_arms_drag_witness :
  let st := handleMouseUp TestHost.host Samples.dragging in
  let st' := handleMouseDownCanvas TestHost.host Samples.pressLine None st in
  selectedElements st = [0; 1]
  ∧ selectedElements st' = [0; 1]
  ∧ dragMode st' = DragMove
  ∧ startTransformsMap st' !! 1 = Some (mkTransformData 0 0 0 0 0).
Proof.
  cbv zeta.
  edestruct (plain_press_selects_and_arms_drag TestHost.host
               (handleMouseUp TestHost.host Samples.dragging)
               Samples.pressLine None)
    as (_ & _ & _ & _ & _ & Hhit & _); [vm_compute; reflexivity |].
  edestruct (Hhit 0) as (Hs & _ & Hd & _ & _ & Hcap); try (vm_compute; reflexivity).
  split; [vm_compute; reflexivity |].
  split; [etransitivity; [exact Hs | vm_compute; reflexivity] |].
  split; [exact Hd |].
  etransitivity; [apply Hcap | vm_compute; reflexivity].
Defined.

(** ** Deleting and restyling the selection *)

Lemma filter_all {A} (P : A → Prop) `{∀ x, Decision (P x)} (l : list A) :
  (∀ x, P x) → filter P l = l.
Proof.
  intros HP. induction l as [| a l IH]; [done |].
  by rewrite filter_cons_True, IH.
Qed.

Lemma foldl_removeChild_spec (ids : list nat) (st : EditorState) :
  foldl (λ st el, removeChild el st) st ids
  = set_mount ((λ t, mkSvgTree (root t)
                       (filter (λ j, j ∉ ids) (children t))) <$> mount st) st.
Proof.
  revert st. induction ids as [| a ids IH]; intros st.
  - cbn [foldl]. destruct st as [? ? ? ? [[r c] |] ? ? ? ? ? ? ? ? ? ? ? ? ? ?];
      fields; cbn [fmap option_fmap option_map root children]; [| done].
    rewrite filter_all; [done |]. intros j. apply not_elem_of_nil.
  - cbn [foldl]. rewrite IH. unfold removeChild.
    destruct st as [? ? ? ? [[r c] |] ? ? ? ? ? ? ? ? ? ? ? ? ? ?]; fields;
      cbn [fmap option_fmap option_map root children]; [| done].
    rewrite list_filter_filter.
    rewrite (list_filter_iff _ (λ j, j ∉ a :: ids)); [done |].
    intros j. rewrite not_elem_of_cons. tauto.
Qed.

(** A commit that can be made adds one snapshot at the index. *)
Lemma addToHistory_commits (H : Host) (st : EditorState) (content : string) :
  getCurrentSVGString H st = Some content → content ≠ "" →
  addToHistory H st
  = set_historyIndex (historyIndex st + 1)
      (set_history (slice0 (history st) (historyIndex st + 1) ++ [content]) st).
Proof.
  intros Hc Hne. unfold addToHistory, addToHistoryFrom. rewrite Hc.
  by destruct (String.eqb_spec content "").
Qed.

(** X15. The delete command takes every selected shape out of the document,
    the others keeping their order, empties the selection and commits
    once; the element objects themselves are not touched. With nothing
    selected it does nothing. *)
Theorem delete_removes_selected_shapes (H : Host) (st : EditorState) :
  (selectedElements st = [] → handleDelete H st = st)
  ∧ (selectedElements st ≠ [] →
     let st' := handleDelete H st in
     let emptied :=
       deselect (foldl (λ st el, removeChild el st) st (selectedElements st)) in
     mount st'
     = (λ t, mkSvgTree (root t)
               (filter (λ j, j ∉ selectedElements st) (children t)))
         <$> mount st
     ∧ (∀ t', mount st' = Some t' →
              ∀ j, j ∈ selectedElements st → j ∉ children t')
     ∧ heap st' = heap st
     ∧ selectedElements st' = [] ∧ controlPoints st' = []
     ∧ selectionBBox st' = None
     ∧ st' = addToHistory H emptied
     ∧ ∀ content,
         getCurrentSVGString H emptied = Some content → content ≠ "" →
         history st'
         = (slice0 (history st) (historyIndex st + 1) ++ [content])%list
         ∧ historyIndex st' = (historyIndex st + 1)%Z).
Proof.
  split.
  { intros E. unfold handleDelete. by rewrite E. }
  intros Hne st' emptied.
  assert (st' = addToHistory H emptied) as Est.
  { subst st' emptied. unfold handleDelete. by destruct (selectedElements st). }
  assert (emptied
          = deselect
              (set_mount ((λ t, mkSvgTree (root t)
                                  (filter (λ j, j ∉ selectedElements st)
                                          (children t))) <$> mount st) st))
    as Eem by (subst emptied; by rewrite foldl_removeChild_spec).
  assert (mount st' = mount emptied ∧ heap st' = heap emptied
          ∧ selectedElements st' = selectedElements emptied
          ∧ controlPoints st' = controlPoints emptied
          ∧ selectionBBox st' = selectionBBox emptied)
    as (Hm & Hh & Hs & Hc & Hb).
  { rewrite Est. unfold addToHistory, addToHistoryFrom.
    destruct (getCurrentSVGString H emptied) as [c |]; [| done].
    destruct (String.eqb c ""); [done |]. by destruct emptied. }
  assert (mount emptied
          = (λ t, mkSvgTree (root t)
                    (filter (λ j, j ∉ selectedElements st) (children t)))
              <$> mount st) as Hm'
    by (rewrite Eem; by destruct st).
  split; [by rewrite Hm |].
  split.
  { intros t' Ht' j Hj. rewrite Hm, Hm' in Ht'.
    destruct (mount st) as [t |]; [| done]. injection Ht' as <-.
    cbn [children]. rewrite list_elem_of_filter. tauto. }
  split; [rewrite Hh, Eem; by destruct st |].
  split; [rewrite Hs, Eem; by destruct st |].
  split; [rewrite Hc, Eem; by destruct st |].
  split; [rewrite Hb, Eem; by destruct st |].
  split; [exact Est |].
  intros content Hcur Hnec.
  rewrite Est, (addToHistory_commits H emptied content Hcur Hnec).
  rewrite Eem. by destruct st.
Qed.

(** The line and the rectangle of the sample deleted: the circle is what
    is left, and there is one more snapshot. *)
Lemma delete_removes_selected_shapes_witness :
  let st := Samples.solidSelected in
  let st' := handleDelete TestHost.host st in
  (children <$> mount st) = Some [0; 1; 2]
  ∧ (children <$> mount st') = Some [2]
  ∧ selectedElements st' = []
  ∧ length (history st') = 2.
Proof.
  cbv zeta.
  destruct (delete_removes_selected_shapes TestHost.host Samples.solidSelected)
    as [_ T].
  destruct T as (Hm & _ & _ & Hs & _); [vm_compute; discriminate |].
  split; [vm_compute; reflexivity |].
  split; [rewrite Hm; vm_compute; reflexivity |].
  split; [exact Hs | vm_compute; reflexivity].
Defined.

(** A function applied to the selected objects, when applying it twice is
    applying it once. *)
Lemma foldl_mutate_idem (f : Element → Element) (ids : list nat)
      (st : EditorState) :
  (∀ el, f (f el) = f el) →
  let st' := foldl (λ st el, mutate el f st) st ids in
  st' = set_heap (heap st') st
  ∧ ∀ j, heap st' !! j
         = if bool_decide (j ∈ ids) then f <$> heap st !! j else heap st !! j.
Proof.
  intros Hf. revert st. induction ids as [| a ids IH]; intros st; cbv zeta.
  - cbn [foldl]. split; [by rewrite set_heap_id | done].
  - cbn [foldl].
    destruct (IH (mutate a f st)) as [E L].
    set (st2 := foldl _ (mutate a f st) ids) in *.
    split.
    + rewrite E at 1. rewrite mutate_spec. apply set_heap_set_heap.
    + intros j. rewrite L, mutate_spec.
      destruct (set_heap_fields (alter f a (heap st)) st) as (-> & _).
      destruct (decide (j = a)) as [-> | Hne].
      * rewrite (bool_decide_eq_true_2 (a ∈ a :: ids)) by in_list.
        rewrite lookup_alter_eq.
        destruct (bool_decide (a ∈ ids)); [| done].
        destruct (heap st !! a); [| done]. cbn. by rewrite Hf.
      * rewrite lookup_alter_ne by done.
        apply (f_equal (λ b : bool, if b then _ else _)).
        apply bool_decide_ext. rewrite elem_of_cons. tauto.
Qed.

(** X16. The stroke-width command writes the width to the attribute and, with
    the unit, to the inline style of every selected shape, changes nothing
    else about any shape (the dash state included), and commits once.
    With nothing selected it does nothing. *)
Theorem stroke_width_applies_to_selection (H : Host) (st : EditorState)
        (width : string) :
  (selectedElements st = [] → handleChangeStrokeWidth H width st = st)
  ∧ (selectedElements st ≠ [] →
     let st' := handleChangeStrokeWidth H width st in
     let restyled :=
       foldl (λ st el,
              mutate el (λ el, setStyle (setAttribute el "stroke-width" width)
                                        "stroke-width" (width ++ "px")) st)
             st (selectedElements st) in
     (∀ id el, id ∈ selectedElements st → heap st !! id = Some el →
        ∃ el',
          heap st' !! id = Some el'
          ∧ getAttribute el' "stroke-width" = Some width
          ∧ getStyle el' "stroke-width" = width ++ "px"
          ∧ tagName el' = tagName el ∧ textContent el' = textContent el
          ∧ (∀ a, a ≠ "stroke-width" → getAttribute el' a = getAttribute el a)
          ∧ (∀ p, p ≠ "stroke-width" → getStyle el' p = getStyle el p)
          ∧ isDashed el' = isDashed el)
     ∧ (∀ id, id ∉ selectedElements st → heap st' !! id = heap st !! id)
     ∧ selectedElements st' = selectedElements st
     ∧ mount st' = mount st
     ∧ st' = addToHistory H restyled
     ∧ ∀ content,
         getCurrentSVGString H restyled = Some content → content ≠ "" →
         history st'
         = (slice0 (history st) (historyIndex st + 1) ++ [content])%list
         ∧ historyIndex st' = (historyIndex st + 1)%Z).
Proof.
  split.
  { intros E. unfold handleChangeStrokeWidth. by rewrite E. }
  intros Hne st' restyled.
  set (f := λ el, setStyle (setAttribute el "stroke-width" width)
                           "stroke-width" (width ++ "px")) in *.
  assert (∀ el, f (f el) = f el) as Hidem.
  { intros [t a s c]. unfold f, setStyle, setAttribute.
    cbn [tagName attributes style textContent].
    by rewrite !insert_insert_eq. }
  destruct (foldl_mutate_idem f (selectedElements st) st Hidem) as [E L].
  fold restyled in E, L.
  assert (st' = addToHistory H restyled) as Est.
  { subst st' restyled. unfold handleChangeStrokeWidth.
    by destruct (selectedElements st). }
  assert (history restyled = history st ∧ historyIndex restyled = historyIndex st
          ∧ selectedElements restyled = selectedElements st
          ∧ mount restyled = mount st) as (Fh & Fi & Fs & Fm).
  { rewrite E. by destruct st. }
  assert (heap st' = heap restyled
          ∧ selectedElements st' = selectedElements restyled
          ∧ mount st' = mount restyled) as (Hheap & Hsel & Hmount).
  { rewrite Est. unfold addToHistory, addToHistoryFrom.
    destruct (getCurrentSVGString H restyled) as [c |]; [| done].
    destruct (String.eqb c ""); [done |]. by destruct restyled. }
  split.
  { intros id el Hin Hel. exists (f el).
    rewrite Hheap, L, bool_decide_eq_true_2, Hel by done.
    split; [done |]. destruct el as [t a s c].
    unfold f, isDashed, getStyle, getAttribute, setStyle, setAttribute.
    cbn [tagName attributes style textContent].
    split; [by rewrite lookup_insert_eq |].
    split; [by rewrite lookup_insert_eq |].
    split; [done |]. split; [done |].
    split; [intros k Hk; by rewrite lookup_insert_ne |].
    split; [intros k Hk; by rewrite lookup_insert_ne |].
    by rewrite !lookup_insert_ne. }
  split.
  { intros id Hnot. by rewrite Hheap, L, bool_decide_eq_false_2. }
  split; [by rewrite Hsel, Fs |].
  split; [by rewrite Hmount, Fm |].
  split; [exact Est |].
  intros content Hc Hnec.
  destruct (addToHistory_spec H restyled content Hc Hnec) as (Hh & Hi & _).
  rewrite <- Est in Hh, Hi. rewrite Fh, Fi in Hh. rewrite Fi in Hi.
  by split.
Qed.

(** The three shapes of the sample given the width 4: the dashed circle
    is still dashed. *)
Lemma stroke_width_applies_to_selection_witness :
  let st := Samples.allSelected in
  let st' := handleChangeStrokeWidth TestHost.host "4" st in
  ∃ el',
    heap st' !! 2 = Some el'
    ∧ getAttribute el' "stroke-width" = Some "4"
    ∧ getStyle el' "stroke-width" = "4px"
    ∧ isDashed el' = true
    ∧ length (history st') = 2.
Proof.
  cbv zeta.
  destruct (stroke_width_applies_to_selection TestHost.host Samples.allSelected
              "4") as [_ T].
  destruct T as (Hall & _); [vm_compute; discriminate |].
  edestruct (Hall 2) as (el' & Hl & Ha & Hs & _ & _ & _ & _ & Hd).
  - apply (bool_decide_unpack _). vm_compute. exact I.
  - vm_compute. reflexivity.
  - exists el'. split; [exact Hl |]. split; [exact Ha |].
    split; [exact Hs |].
    split; [etransitivity; [exact Hd | vm_compute; reflexivity] |].
    vm_compute. reflexivity.
Defined.

(** ** Drawing *)

Lemma kept_shape_committed (H : Host) (st : EditorState) (el : nat)
      (obj : Element) :
  dragMode st = DragNone →
  isDrawing st = true →
  currentDrawElement st = Some el →
  heap st !! el = Some obj →
  isTiny H obj = false →
  handleMouseUp H st
  = set_currentDrawElement None
      (set_tool ToolSelect
         (addToHistory H
            (updateSelectionBBox H [el]
               (set_controlPoints (parseControlPoints H obj)
                  (set_selectedElements [el] (set_isDrawing false st)))))).
Proof.
  intros Hd Hdraw Hcur Hobj Htiny.
  unfold handleMouseUp. cbv zeta. rewrite finishDrag_idle by done.
  unfold finishDrawing, addToHistory. rewrite Hdraw.
  destruct st; fields. subst. rewrite Hobj.
  change (default (createElementNS "") (Some obj)) with obj.
  rewrite Htiny. unfold updateSelectionBBox. by fields.
Qed.

(** X17. A press with the line tool, a move and a release, between two points
    that are 1 or more apart on one axis at least: the document gains one
    line from the first point to the second, in the current colour, after
    the shapes it had; the line is selected with a handle at each end, the
    tool goes back to the selection tool, and the change is committed
    once. *)
Theorem drawn_line_joins_document (H : Host) (st : EditorState) (t : SvgTree)
        (e1 e2 : MouseEvent) (answer : option string) :
  tool st = ToolLine →
  mount st = Some t →
  dragMode st = DragNone →
  shiftKey e2 = false →
  let p1 := getSVGPoint H st (clientX e1) (clientY e1) in
  let st1 := handleMouseDownCanvas H e1 answer st in
  let p2 := getSVGPoint H st1 (clientX e2) (clientY e2) in
  reads_back H (pt_x p1) → reads_back H (pt_y p1) →
  reads_back H (pt_x p2) → reads_back H (pt_y p2) →
  (PrimFloat.ltb (PrimFloat.abs (pt_x p1 - pt_x p2)) 1
   && PrimFloat.ltb (PrimFloat.abs (pt_y p1 - pt_y p2)) 1)%bool = false →
  let st' := handleMouseUp H (handleMouseMove H e2 st1) in
  ∃ obj,
    heap st' !! nextId st = Some obj
    ∧ mount st'
      = Some (mkSvgTree (root t) (children t ++ [nextId st])%list)
    ∧ (∀ j, j ≠ nextId st → heap st' !! j = heap st !! j)
    ∧ tagName obj = "line"
    ∧ getAttribute obj "stroke" = Some (currentHexColor st)
    ∧ getAttribute obj "stroke-width" = Some "2"
    ∧ getAttribute obj "fill" = Some "none"
    ∧ parseControlPoints H obj
      = [mkControlPoint (pt_x p1) (pt_y p1) 0 CpVertex;
         mkControlPoint (pt_x p2) (pt_y p2) 1 CpVertex]
    ∧ selectedElements st' = [nextId st]
    ∧ controlPoints st' = parseControlPoints H obj
    ∧ tool st' = ToolSelect
    ∧ isDrawing st' = false ∧ currentDrawElement st' = None
    ∧ ∀ content,
        getCurrentSVGString H st' = Some content → content ≠ "" →
        history st'
        = (slice0 (history st) (historyIndex st + 1) ++ [content])%list
        ∧ historyIndex st' = (historyIndex st + 1)%Z.
Proof.
  intros Htool Hmount Hd Hshift p1 st1 p2 Rx1 Ry1 Rx2 Ry2 Hfar st'.
  pose proof (press_with_line_tool H e1 answer st t Htool Hmount) as E1.
  cbv zeta in E1. fold p1 st1 in E1.
  assert (handleMouseMove H e2 st1
          = set_heap (alter (growShape H ToolLine false p1 p2) (nextId st)
                            (heap st1))
                     (set_didChange true st1)) as E2.
  { apply move_while_drawing_line; try rewrite E1; fields; done. }
  set (st2 := handleMouseMove H e2 st1) in *.
  set (obj := growShape H ToolLine false p1 p2
                        (newShape H ToolLine (currentHexColor st) p1)).
  assert (heap st2 !! nextId st = Some obj) as Hobj.
  { rewrite E2, E1. fields. rewrite lookup_alter_eq, lookup_insert_eq. done. }
  destruct (drawn_line_attrs H (currentHexColor st) p1 p2)
    as (Htag & A1 & A2 & A3 & A4).
  fold obj in Htag, A1, A2, A3, A4.
  assert (isTiny H obj = false) as Hkeep.
  { rewrite isTiny_line by exact Htag.
    unfold numAttr. rewrite A1, A2, A3, A4.
    unfold reads_back in *. by rewrite Rx1, Ry1, Rx2, Ry2. }
  assert (handleMouseUp H st2
          = set_currentDrawElement None
              (set_tool ToolSelect
                 (addToHistory H
                    (updateSelectionBBox H [nextId st]
                       (set_controlPoints (parseControlPoints H obj)
                          (set_selectedElements [nextId st]
                             (set_isDrawing false st2))))))) as E3.
  { apply (kept_shape_committed H st2 (nextId st) obj); try done.
    - rewrite E2, E1. fields. exact Hd.
    - rewrite E2, E1. by fields.
    - rewrite E2, E1. by fields. }
  assert (mount st2 = Some (mkSvgTree (root t) (children t ++ [nextId st])%list)
          ∧ history st2 = history st ∧ historyIndex st2 = historyIndex st)
    as (Hm2 & Hh2 & Hi2) by (rewrite E2, E1; by fields).
  assert (∀ j, j ≠ nextId st → heap st2 !! j = heap st !! j) as Hheap.
  { intros j Hj. rewrite E2, E1. fields.
    by rewrite lookup_alter_ne, lookup_insert_ne. }
  set (st3 := updateSelectionBBox H [nextId st] _) in E3.
  assert (heap st3 = heap st2 ∧ mount st3 = mount st2
          ∧ history st3 = history st2 ∧ historyIndex st3 = historyIndex st2
          ∧ selectedElements st3 = [nextId st]
          ∧ controlPoints st3 = parseControlPoints H obj
          ∧ isDrawing st3 = false)
    as (Hh3 & Hm3 & Hhi3 & Hi3 & Hs3 & Hc3 & Hw3)
    by (subst st3; unfold updateSelectionBBox; by destruct st2).
  clearbody st3.
  assert (heap st' = heap st3 ∧ mount st' = mount st3
          ∧ selectedElements st' = selectedElements st3
          ∧ controlPoints st' = controlPoints st3
          ∧ isDrawing st' = isDrawing st3
          ∧ tool st' = ToolSelect ∧ currentDrawElement st' = None
          ∧ history st' = history (addToHistory H st3)
          ∧ historyIndex st' = historyIndex (addToHistory H st3))
    as (Hh' & Hm' & Hs' & Hc' & Hw' & Ht' & Hcur' & Hhi' & Hi').
  { subst st'. rewrite E3. unfold addToHistory, addToHistoryFrom.
    destruct (getCurrentSVGString H st3) as [c |];
      [destruct (String.eqb c "") |]; by destruct st3. }
  exists obj.
  split; [by rewrite Hh', Hh3 |].
  split; [by rewrite Hm', Hm3 |].
  split; [intros j Hj; rewrite Hh', Hh3; by apply Hheap |].
  split; [done |].
  split; [reflexivity |]. split; [reflexivity |]. split; [reflexivity |].
  split.
  { unfold parseControlPoints. cbv zeta. rewrite Htag.
    change (Js.toLowerCase "line") with "line".
    change (String.eqb "line" "line") with true. cbv iota.
    unfold numAttr. rewrite A1, A2, A3, A4.
    unfold reads_back in *. by rewrite Rx1, Ry1, Rx2, Ry2. }
  split; [by rewrite Hs' |]. split; [by rewrite Hc' |].
  split; [done |]. split; [by rewrite Hw' |]. split; [done |].
  intros content Hcur Hne.
  assert (getCurrentSVGString H st3 = Some content) as Hcur3.
  { rewrite <- Hcur. unfold getCurrentSVGString, currentMarkup.
    by rewrite Hh', Hm'. }
  destruct (addToHistory_spec H st3 content Hcur3 Hne) as (Ea & Eb & _).
  by rewrite Hhi', Hi', Ea, Eb, Hhi3, Hi3, Hh2, Hi2.
Qed.

(** A line drawn on the sample from [(10, 10)] to [(260, 340)]: a fourth
    shape, selected, and a second snapshot. *)
Lemma drawn_line_joins_document_witness :
  let st := Samples.lineTool in
  let st' :=
    handleMouseUp TestHost.host
      (handleMouseMove TestHost.host MoreSamples.drawEnd
         (handleMouseDownCanvas TestHost.host Samples.strokeStart None st)) in
  (children <$> mount st) = Some [0; 1; 2]
  ∧ (children <$> mount st') = Some [0; 1; 2; 3]
  ∧ selectedElements st' = [3]
  ∧ tool st' = ToolSelect
  ∧ length (history st') = 2.
Proof.
  cbv zeta.
  epose proof (drawn_line_joins_document TestHost.host Samples.lineTool _
                 Samples.strokeStart MoreSamples.drawEnd None) as T.
  edestruct T as (obj & _ & Hm & _ & _ & _ & _ & _ & _ & Hs & _ & Ht & _).
  1-9: vm_compute; reflexivity.
  split; [vm_compute; reflexivity |].
  split; [rewrite Hm; vm_compute; reflexivity |].
  split; [etransitivity; [exact Hs | vm_compute; reflexivity] |].
  split; [exact Ht | vm_compute; reflexivity].
Defined.

(** ** A line too short to keep *)

(** X25. In any state the editor can be in, a press with the line tool, a move
    without the constrain key and a release, between two points less than
    1 apart on both axes, leave the document, the history and its index as
    they were, with nothing selected: the pending line is taken out again
    and nothing is committed. *)
Theorem short_line_is_discarded (H : Host) (st : EditorState) (t : SvgTree)
        (e1 e2 : MouseEvent) (answer : option string) :
  tool st = ToolLine →
  mount st = Some t →
  dragMode st = DragNone →
  reachable H st →
  shiftKey e2 = false →
  let p1 := getSVGPoint H st (clientX e1) (clientY e1) in
  let st1 := handleMouseDownCanvas H e1 answer st in
  let p2 := getSVGPoint H st1 (clientX e2) (clientY e2) in
  reads_back H (pt_x p1) → reads_back H (pt_y p1) →
  reads_back H (pt_x p2) → reads_back H (pt_y p2) →
  PrimFloat.ltb (PrimFloat.abs (pt_x p1 - pt_x p2)) 1 = true →
  PrimFloat.ltb (PrimFloat.abs (pt_y p1 - pt_y p2)) 1 = true →
  let st' := handleMouseUp H (handleMouseMove H e2 st1) in
  mount st' = mount st
  ∧ currentMarkup st' = currentMarkup st
  ∧ history st' = history st
  ∧ historyIndex st' = historyIndex st
  ∧ selectedElements st' = []
  ∧ isDrawing st' = false ∧ currentDrawElement st' = None.
Proof.
  intros Htool Hmount Hd Hrun Hshift p1 st1 p2
         Rx1 Ry1 Rx2 Ry2 Hx Hy st'.
  assert (nextId st ∉ children t) as Hfresh.
  { intros Hin. apply (reachable_older H st Hrun t Hmount) in Hin. lia. }
  pose proof (press_with_line_tool H e1 answer st t Htool Hmount) as E1.
  cbv zeta in E1. fold p1 st1 in E1.
  assert (handleMouseMove H e2 st1
          = set_heap (alter (growShape H ToolLine false p1 p2) (nextId st)
                            (heap st1))
                     (set_didChange true st1)) as E2.
  { apply move_while_drawing_line; try rewrite E1; fields; done. }
  set (st2 := handleMouseMove H e2 st1) in *.
  set (obj := growShape H ToolLine false p1 p2
                        (newShape H ToolLine (currentHexColor st) p1)).
  assert (heap st2 !! nextId st = Some obj) as Hobj.
  { rewrite E2, E1. fields. rewrite lookup_alter_eq, lookup_insert_eq. done. }
  assert (handleMouseUp H st2
          = set_currentDrawElement None
              (removeChild (nextId st) (set_isDrawing false st2))) as E3.
  { apply (tiny_removed H st2 (nextId st) obj); try exact Hobj.
    - rewrite E2, E1. fields. exact Hd.
    - rewrite E2, E1. by fields.
    - rewrite E2, E1. by fields.
    - by apply drawn_line_tiny. }
  subst st'. rewrite E3.
  assert (mount st2 = Some (mkSvgTree (root t) (children t ++ [nextId st])%list))
    as Hm2 by (rewrite E2, E1; by fields).
  assert (history st2 = history st ∧ historyIndex st2 = historyIndex st
          ∧ selectedElements st2 = []) as (Hh & Hi & Hs)
    by (rewrite E2, E1; by fields).
  assert (∀ j, j ≠ nextId st → heap st2 !! j = heap st !! j) as Hheap.
  { intros j Hj. rewrite E2, E1. fields.
    by rewrite lookup_alter_ne, lookup_insert_ne. }
  clearbody st2. clear E1 E2 E3 Hobj.
  unfold removeChild.
  destruct st2; fields. subst.
  cbn [root children]. rewrite filter_fresh by exact Hfresh.
  split; [by destruct t |].
  split; [| done].
  unfold currentMarkup. fields. rewrite Hmount. cbn [fmap option_fmap option_map].
  f_equal. unfold treeMarkup. cbn [root children]. f_equal.
  apply omap_ext_in. intros j Hj. apply Hheap. intros ->. by apply Hfresh.
Qed.

(** A line drawn from [(10, 10)] to [(10.5, 10.3)] on the sample document
    and released: the document has its three shapes, as before, and the
    history its single snapshot. *)
Lemma short_line_is_discarded_witness :
  let st := Samples.lineTool in
  let st' :=
    handleMouseUp TestHost.host
      (handleMouseMove TestHost.host Samples.strokeEnd
         (handleMouseDownCanvas TestHost.host Samples.strokeStart None st)) in
  (children <$> mount st) = Some [0; 1; 2]
  ∧ mount st' = mount st
  ∧ currentMarkup st' = currentMarkup st
  ∧ history st' = history st
  ∧ historyIndex st' = historyIndex st.
Proof.
  cbv zeta.
  epose proof (short_line_is_discarded TestHost.host Samples.lineTool _
                 Samples.strokeStart Samples.strokeEnd None) as T.
  edestruct T as (Hm & Hc & Hh & Hi & _).
  1: vm_compute; reflexivity.
  1: vm_compute; reflexivity.
  1: vm_compute; reflexivity.
  1: by exists "#000000", [SvgContentChanged (Some Samples.svgText);
                          ToolPicked ToolLine]; vm_compute.
  1-7: vm_compute; reflexivity.
  split; [vm_compute; reflexivity |].
  split; [exact Hm |]. split; [exact Hc |]. split; [exact Hh | exact Hi].
Defined.

(** ** Text *)

Lemma getAttribute_setTextContent (el : Element) (t k : string) :
  getAttribute (setTextContent el t) k = getAttribute el k.
Proof. reflexivity. Qed.

(** X18. A press with the text tool asks for the text. An answer that is
    empty, or no answer, adds nothing: the document and the history stay
    as they are, though the selection is dropped. Any other answer appends
    one text element in the current colour, anchored at the pointer, to the
    document; the element is committed, selected with its one handle, and
    the tool goes back to the selection tool. *)
Theorem text_tool_asks_before_adding (H : Host) (st : EditorState)
        (t : SvgTree) (e : MouseEvent) (answer : option string) :
  tool st = ToolText → mount st = Some t →
  let pt := getSVGPoint H st (clientX e) (clientY e) in
  let st' := handleMouseDownCanvas H e answer st in
  (Js.truthy answer = false →
   mount st' = mount st ∧ heap st' = heap st
   ∧ history st' = history st ∧ historyIndex st' = historyIndex st
   ∧ selectedElements st' = [] ∧ controlPoints st' = []
   ∧ tool st' = ToolText ∧ isDrawing st' = false
   ∧ currentDrawElement st' = currentDrawElement st)
  ∧ (∀ text,
       answer = Some text → text ≠ "" →
       ∃ obj,
         heap st' !! nextId st = Some obj
         ∧ mount st'
           = Some (mkSvgTree (root t) (children t ++ [nextId st])%list)
         ∧ (∀ j, j ≠ nextId st → heap st' !! j = heap st !! j)
         ∧ tagName obj = "text" ∧ textContent obj = text
         ∧ getAttribute obj "fill" = Some (currentHexColor st)
         ∧ getAttribute obj "x" = Some (JsString H (pt_x pt))
         ∧ getAttribute obj "y" = Some (JsString H (pt_y pt))
         ∧ getAttribute obj "font-size" = Some "16"
         ∧ getAttribute obj "text-anchor" = Some "middle"
         ∧ selectedElements st' = [nextId st]
         ∧ controlPoints st' = parseControlPoints H obj
         ∧ tool st' = ToolSelect ∧ isDrawing st' = false
         ∧ currentDrawElement st' = currentDrawElement st
         ∧ ∀ content,
             getCurrentSVGString H st' = Some content → content ≠ "" →
             history st'
             = (slice0 (history st) (historyIndex st + 1) ++ [content])%list
             ∧ historyIndex st' = (historyIndex st + 1)%Z).
Proof.
  intros Htool Hmount pt st'. subst st'.
  unfold handleMouseDownCanvas. cbv zeta. rewrite Htool, Hmount. fold pt.
  split.
  - intros ->. by destruct st.
  - intros text -> Hne.
    assert (Js.truthy (Some text) = true) as ->
      by (cbn; by destruct (String.eqb_spec text "")).
    change (default "" (Some text)) with text.
    set (obj := newText H (newShape H ToolText _ pt) text pt).
    unfold allocElement.
    set (st1 := appendChild _ _).
    assert (heap st1 = <[nextId st := obj]> (heap st)
            ∧ mount st1
              = Some (mkSvgTree (root t) (children t ++ [nextId st])%list)
            ∧ history st1 = history st ∧ historyIndex st1 = historyIndex st
            ∧ currentDrawElement st1 = currentDrawElement st)
      as (Hh1 & Hm1 & Hhi1 & Hi1 & Hc1).
    { subst st1 obj. unfold appendChild.
      destruct st; fields. subst. by fields. }
    clearbody st1.
    set (st2 := addToHistory H st1).
    assert (heap st2 = heap st1 ∧ mount st2 = mount st1
            ∧ currentDrawElement st2 = currentDrawElement st1)
      as (Hh2 & Hm2 & Hc2).
    { subst st2. unfold addToHistory, addToHistoryFrom.
      destruct (getCurrentSVGString H st1) as [c |];
        [destruct (String.eqb c "") |]; by destruct st1. }
    exists obj.
    split.
    { transitivity (heap st2 !! nextId st);
        [unfold updateSelectionBBox; by destruct st2 |].
      by rewrite Hh2, Hh1, lookup_insert_eq. }
    split.
    { transitivity (mount st2); [unfold updateSelectionBBox; by destruct st2 |].
      by rewrite Hm2. }
    split.
    { intros j Hj. transitivity (heap st2 !! j);
        [unfold updateSelectionBBox; by destruct st2 |].
      by rewrite Hh2, Hh1, lookup_insert_ne. }
    split; [reflexivity |]. split; [reflexivity |].
    do 5 (split; [unfold obj, newText, newShape; cbv zeta;
                  repeat (first [ rewrite getAttribute_set_eq
                                | rewrite getAttribute_set_ne by discriminate
                                | rewrite getAttribute_setTextContent ]);
                  by destruct st
                 |]).
    split; [unfold updateSelectionBBox; by destruct st2 |].
    split; [unfold updateSelectionBBox; by destruct st2 |].
    split; [unfold updateSelectionBBox; by destruct st2 |].
    split; [unfold updateSelectionBBox; by destruct st2 |].
    split.
    { transitivity (currentDrawElement st2);
        [unfold updateSelectionBBox; by destruct st2 |].
      by rewrite Hc2. }
    intros content Hcur Hnec.
    assert (getCurrentSVGString H st1 = Some content) as Hcur1.
    { rewrite <- Hcur. unfold getCurrentSVGString, currentMarkup.
      rewrite <- Hh2, <- Hm2. unfold updateSelectionBBox. by destruct st2. }
    destruct (addToHistory_spec H st1 content Hcur1 Hnec) as (Ea & Eb & _).
    fold st2 in Ea, Eb.
    split.
    + transitivity (history st2);
        [unfold updateSelectionBBox; by destruct st2 |].
      by rewrite Ea, Hhi1, Hi1.
    + transitivity (historyIndex st2);
        [unfold updateSelectionBBox; by destruct st2 |].
      by rewrite Eb, Hi1.
Qed.

(** The text tool on the sample: the answer [A] adds a fourth shape, no
    answer adds none. *)
Lemma text_tool_asks_before_adding_witness :
  let st := MoreSamples.textTool in
  let added := handleMouseDownCanvas TestHost.host MoreSamples.drawStart
                 (Some "A") st in
  let cancelled := handleMouseDownCanvas TestHost.host MoreSamples.drawStart
                     None st in
  (children <$> mount st) = Some [0; 1; 2]
  ∧ (children <$> mount added) = Some [0; 1; 2; 3]
  ∧ (textContent <$> heap added !! 3) = Some "A"
  ∧ tool added = ToolSelect
  ∧ mount cancelled = mount st ∧ history cancelled = history st.
Proof.
  cbv zeta.
  epose proof (text_tool_asks_before_adding TestHost.host MoreSamples.textTool
                 _ MoreSamples.drawStart (Some "A")) as [_ TA];
    [vm_compute; reflexivity | vm_compute; reflexivity |].
  epose proof (text_tool_asks_before_adding TestHost.host MoreSamples.textTool
                 _ MoreSamples.drawStart None) as [TN _];
    [vm_compute; reflexivity | vm_compute; reflexivity |].
  pose proof (TA "A" eq_refl ltac:(done))
    as (obj & Hl & Hm & _ & _ & Htxt & _ & _ & _ & _ & _ & _ & _ & Htool & _).
  pose proof (TN eq_refl) as (Hmn & _ & Hhn & _).
  split; [vm_compute; reflexivity |].
  split; [rewrite Hm; vm_compute; reflexivity |].
  split.
  { change 3 with (nextId MoreSamples.textTool).
    rewrite Hl. cbn [fmap option_fmap option_map]. by rewrite Htxt. }
  split; [exact Htool |]. split; [exact Hmn | exact Hhn].
Defined.

(** X19. A double click with the selection tool on a text asks for its new
    content. No answer, or the content it has, changes nothing. Any other
    answer, the empty one included, becomes the content and is committed
    once; the selection stays. A double click on another kind of shape, or
    with another tool, changes nothing. *)
Theorem double_click_rewrites_text (H : Host) (st : EditorState)
        (e : MouseEvent) (answer : option string) :
  let st' := handleDoubleClick H e answer st in
  (tool st ≠ ToolSelect → st' = st)
  ∧ (∀ id obj,
       target e = Some id → heap st !! id = Some obj →
       Js.toLowerCase (tagName obj) ≠ "text" → st' = st)
  ∧ (∀ id obj,
       tool st = ToolSelect →
       target e = Some id → heap st !! id = Some obj →
       Js.toLowerCase (tagName obj) = "text" →
       (answer = None ∨ answer = Some (textContent obj) → st' = st)
       ∧ (∀ newText,
            answer = Some newText → newText ≠ textContent obj →
            heap st' !! id = Some (setTextContent obj newText)
            ∧ (∀ j, j ≠ id → heap st' !! j = heap st !! j)
            ∧ mount st' = mount st
            ∧ selectedElements st' = selectedElements st
            ∧ ∀ content,
                getCurrentSVGString H st' = Some content → content ≠ "" →
                history st'
                = (slice0 (history st) (historyIndex st + 1) ++ [content])%list
                ∧ historyIndex st' = (historyIndex st + 1)%Z)).
Proof.
  cbv zeta. split; [| split].
  - intros Ht. unfold handleDoubleClick. by destruct (tool st).
  - intros id obj Hid Hobj Htag. unfold handleDoubleClick. rewrite Hid, Hobj.
    destruct (tool st); try done.
    by destruct (String.eqb_spec (Js.toLowerCase (tagName obj)) "text").
  - intros id obj Htool Hid Hobj Htag.
    unfold handleDoubleClick. rewrite Htool, Hid, Hobj, Htag.
    change (String.eqb "text" "text") with true. cbv iota zeta.
    split.
    + intros [-> | ->]; [done |]. by rewrite String.eqb_refl.
    + intros newText -> Hne.
      destruct (String.eqb_spec newText (textContent obj)) as [? | _]; [done |].
      cbn [negb].
      set (st1 := mutate id (λ el, setTextContent el newText) st).
      assert (heap st1 = alter (λ el, setTextContent el newText) id (heap st)
              ∧ mount st1 = mount st
              ∧ selectedElements st1 = selectedElements st
              ∧ history st1 = history st ∧ historyIndex st1 = historyIndex st)
        as (Hh1 & Hm1 & Hs1 & Hhi1 & Hi1) by (subst st1; by destruct st).
      clearbody st1.
      set (st2 := if (_ && _)%bool then _ else st1).
      assert (heap st2 = heap st1 ∧ mount st2 = mount st1
              ∧ selectedElements st2 = selectedElements st1
              ∧ history st2 = history st1 ∧ historyIndex st2 = historyIndex st1)
        as (Hh2 & Hm2 & Hs2 & Hhi2 & Hi2).
      { subst st2. destruct (_ && _)%bool; [| done].
        unfold updateSelectionBBox. by destruct st1. }
      clearbody st2.
      assert (heap (addToHistory H st2) = heap st2
              ∧ mount (addToHistory H st2) = mount st2
              ∧ selectedElements (addToHistory H st2) = selectedElements st2)
        as (Hh3 & Hm3 & Hs3).
      { unfold addToHistory, addToHistoryFrom.
        destruct (getCurrentSVGString H st2) as [c |];
          [destruct (String.eqb c "") |]; by destruct st2. }
      split; [by rewrite Hh3, Hh2, Hh1, lookup_alter_eq, Hobj |].
      split; [intros j Hj; by rewrite Hh3, Hh2, Hh1, lookup_alter_ne |].
      split; [by rewrite Hm3, Hm2, Hm1 |].
      split; [by rewrite Hs3, Hs2, Hs1 |].
      intros content Hcur Hnec.
      assert (getCurrentSVGString H st2 = Some content) as Hcur2.
      { rewrite <- Hcur. unfold getCurrentSVGString, currentMarkup.
        by rewrite Hh3, Hm3. }
      destruct (addToHistory_spec H st2 content Hcur2 Hnec) as (Ea & Eb & _).
      by rewrite Ea, Eb, Hhi2, Hi2, Hhi1, Hi1.
Qed.

(** The label of the sample, rewritten as [B], and emptied. *)
Lemma double_click_rewrites_text_witness :
  let st := MoreSamples.labelled in
  let renamed := handleDoubleClick TestHost.host MoreSamples.onLabel
                   (Some "B") st in
  let emptied := handleDoubleClick TestHost.host MoreSamples.onLabel
                   (Some "") st in
  (textContent <$> heap st !! 3) = Some "A"
  ∧ (textContent <$> heap renamed !! 3) = Some "B"
  ∧ (textContent <$> heap emptied !! 3) = Some ""
  ∧ handleDoubleClick TestHost.host MoreSamples.onLabel None st = st.
Proof.
  cbv zeta.
  destruct (double_click_rewrites_text TestHost.host MoreSamples.labelled
              MoreSamples.onLabel (Some "B")) as (_ & _ & TB).
  destruct (double_click_rewrites_text TestHost.host MoreSamples.labelled
              MoreSamples.onLabel (Some "")) as (_ & _ & TE).
  destruct (double_click_rewrites_text TestHost.host MoreSamples.labelled
              MoreSamples.onLabel None) as (_ & _ & TN).
  edestruct (TB 3) as (_ & TB'); try (vm_compute; reflexivity).
  edestruct (TE 3) as (_ & TE'); try (vm_compute; reflexivity).
  edestruct (TN 3) as (TN' & _); try (vm_compute; reflexivity).
  pose proof (TB' "B" eq_refl ltac:(vm_compute; discriminate)) as (HB & _).
  pose proof (TE' "" eq_refl ltac:(vm_compute; discriminate)) as (HE & _).
  split; [vm_compute; reflexivity |].
  split; [rewrite HB; reflexivity |].
  split; [rewrite HE; reflexivity |].
  apply TN'. by left.
Defined.

(** ** Saving the drawing *)

Lemma prefix_app (p r : string) : String.prefix p (p ++ r) = true.
Proof.
  induction p as [| c p IH]; [by destruct r |].
  rewrite string_app_cons. cbn [String.prefix].
  destruct (ascii_dec c c) as [_ | Hne]; [exact IH | done].
Qed.

Lemma declaresNamespace_added (rest : string) :
  declaresNamespace ("<svg " ++ svgNamespaceDecl ++ rest) = true.
Proof.
  change ("<svg " ++ svgNamespaceDecl ++ rest)
    with (String "<" (String "s" (String "v" (String "g"
            (String " " (svgNamespaceDecl ++ rest)))))).
  cbn [declaresNamespace declFollows].
  change (Ascii.eqb " " ">") with false. cbv iota.
  by rewrite prefix_app.
Qed.

(** A text begins with [<svg], or the expressions anchored at [<svg] do
    not apply to it. *)
Lemma begins_with_svg_or_not (source : string) :
  (∃ rest, source = "<svg" ++ rest)
  ∨ (Js.startsWith source "<svg" = false
     ∧ addNamespace source = source ∧ declaresNamespace source = false).
Proof.
  destruct source as [| c1 [| c2 [| c3 [| c4 rest]]]];
    try (right; by repeat split).
  - right. destruct c1 as [[] [] [] [] [] [] [] []]; by repeat split.
  - right. destruct c1 as [[] [] [] [] [] [] [] []]; try by repeat split.
    destruct c2 as [[] [] [] [] [] [] [] []]; by repeat split.
  - right. destruct c1 as [[] [] [] [] [] [] [] []]; try by repeat split.
    destruct c2 as [[] [] [] [] [] [] [] []]; try by repeat split.
    destruct c3 as [[] [] [] [] [] [] [] []]; by repeat split.
  - destruct (Ascii.eqb_spec c1 "<") as [-> | N1];
      [| right; destruct c1 as [[] [] [] [] [] [] [] []];
         first [by repeat split | by destruct N1]].
    destruct (Ascii.eqb_spec c2 "s") as [-> | N2];
      [| right; destruct c2 as [[] [] [] [] [] [] [] []];
         first [by repeat split | by destruct N2]].
    destruct (Ascii.eqb_spec c3 "v") as [-> | N3];
      [| right; destruct c3 as [[] [] [] [] [] [] [] []];
         first [by repeat split | by destruct N3]].
    destruct (Ascii.eqb_spec c4 "g") as [-> | N4];
      [| right; destruct c4 as [[] [] [] [] [] [] [] []];
         first [by repeat split | by destruct N4]].
    left. by exists rest.
Qed.

(** X20. The text handed to the browser for saving is the serialization of the
    mounted document, with the SVG namespace declared right after the name
    of the root tag when the root tag does not declare it already; what
    follows the name of the root tag is kept as it is. A text that does
    not begin with [<svg] is saved unchanged. Fixing a fixed text changes
    nothing. The selection and the history play no part. *)
Theorem saved_drawing_declares_namespace (H : Host) (now : float)
        (st : EditorState) :
  (currentMarkup st = None → handleDownload H now st = None)
  ∧ (∀ svg,
       currentMarkup st = Some svg →
       let source := serializeToString H svg in
       ∃ d,
         handleDownload H now st = Some d
         ∧ blobText d = withNamespace source
         ∧ blobType d = "image/svg+xml"
         ∧ fileName d = "hinh-hoc-" ++ JsString H now ++ ".svg"
         ∧ (∀ rest, source = "<svg" ++ rest →
              declaresNamespace (blobText d) = true
              ∧ (blobText d = source
                 ∨ blobText d = "<svg " ++ svgNamespaceDecl ++ rest))
         ∧ (Js.startsWith source "<svg" = false → blobText d = source)
         ∧ withNamespace (blobText d) = blobText d).
Proof.
  assert (∀ source rest, source = "<svg" ++ rest →
            declaresNamespace (withNamespace source) = true
            ∧ (withNamespace source = source
               ∨ withNamespace source = "<svg " ++ svgNamespaceDecl ++ rest))
    as Hfix.
  { intros source rest ->. unfold withNamespace.
    destruct (declaresNamespace ("<svg" ++ rest)) eqn:E; cbn [negb].
    - split; [done | by left].
    - split; [apply declaresNamespace_added | by right]. }
  assert (∀ source, Js.startsWith source "<svg" = false →
            withNamespace source = source) as Hother.
  { intros source Hs. unfold withNamespace.
    destruct (begins_with_svg_or_not source) as [[rest ->] | (_ & -> & _)];
      [unfold Js.startsWith in Hs; by rewrite prefix_app in Hs |].
    by destruct (declaresNamespace source). }
  assert (∀ source, withNamespace (withNamespace source) = withNamespace source)
    as Hidem.
  { intros source.
    destruct (begins_with_svg_or_not source) as [[rest E] | (Hs & _)].
    - destruct (Hfix source rest E) as [Hd _].
      unfold withNamespace at 1. by rewrite Hd.
    - by rewrite !(Hother source Hs). }
  unfold handleDownload. split; [by intros -> |].
  intros svg ->. cbv zeta. eexists. split; [reflexivity |].
  cbn [blobText blobType fileName].
  split; [done |]. split; [done |]. split; [done |].
  split; [apply Hfix |]. split; [apply Hother | apply Hidem].
Qed.

(** The sample is serialized with the namespace its root declares: the
    saved text is that serialization, unchanged. *)
Lemma saved_drawing_declares_namespace_witness :
  ∃ d,
    handleDownload TestHost.host 1700000000000 Samples.loaded = Some d
    ∧ declaresNamespace (blobText d) = true
    ∧ blobText d = serializeToString TestHost.host MoreSamples.loadedMarkup
    ∧ fileName d = "hinh-hoc-1700000000000.svg".
Proof.
  destruct (saved_drawing_declares_namespace TestHost.host 1700000000000
              Samples.loaded) as [_ T].
  pose proof (T MoreSamples.loadedMarkup ltac:(vm_compute; reflexivity))
    as (d & Hd & Hb & _ & Hn & _).
  exists d. split; [exact Hd |].
  split; [rewrite Hb; vm_compute; reflexivity |].
  split; [rewrite Hb; vm_compute; reflexivity |].
  rewrite Hn. vm_compute. reflexivity.
Defined.

(* ===================================================================== *)
(** * Properties of the application shell                                 *)
(* ===================================================================== *)

Lemma slice0_nonneg {A} (l : list A) (n : nat) :
  slice0 l (Z.of_nat n) = take n l.
Proof.
  unfold slice0. destruct (Z.ltb_spec (Z.of_nat n) 0); [lia |].
  destruct (decide (n ≤ length l)%nat).
  - f_equal. lia.
  - rewrite Z.min_r by lia. rewrite Nat2Z.id.
    by rewrite !take_ge by lia.
Qed.

Ltac split_invariant := split; [| split; [| split; [| split; [| split]]]].

Lemma step_appInvariant (H : Host) (s : App.Session) (ev : App.Event) :
  appInvariant s → appInvariant (App.step H s ev).
Proof.
  destruct s as [st fl]. intros Hinv.
  pose proof Hinv as (Hlen & Hc & Hw & Hitems & Hreq & Hload).
  cbn [App.ui App.inFlight] in Hlen, Hc, Hw, Hitems, Hreq, Hload.
  destruct ev; cbn [App.step App.ui App.inFlight].
  - split_invariant; by destruct st.
  - split_invariant; by destruct st.
  - destruct (App.palette !! i) as [c |] eqn:E; [| done].
    apply list_elem_of_lookup_2 in E. split_invariant; by destruct st.
  - destruct (App.widths !! i) as [w |] eqn:E; [| done].
    apply list_elem_of_lookup_2 in E. split_invariant; by destruct st.
  - unfold App.generateDisabled, App.startGenerate.
    destruct (App.isLoading st) eqn:El; cbn [orb]; [done |].
    destruct (String.eqb (Js.trim (App.prompt st)) ""); [done |].
    split_invariant; cbn [App.ui App.inFlight]; try by destruct st.
    intros r [= <-]. split; by destruct st.
  - destruct fl as [request |]; [| done].
    unfold App.finishGenerate.
    destruct (App.requestOutcome _ _ _) as [svg | message];
      (split_invariant; cbn [App.ui App.inFlight]; try by destruct st).
    + change 10%Z with (Z.of_nat 10). rewrite slice0_nonneg.
      transitivity (length (take 10 (App.mkHistoryItem (JsString H now1)
                                       (App.req_prompt request) svg now2
                                       (Some (App.req_options request))
                                     :: App.history st)));
        [by destruct st |].
      rewrite length_take. lia.
    + change 10%Z with (Z.of_nat 10). rewrite slice0_nonneg.
      assert (Forall (λ item, ∀ o, App.options item = Some o → App.offered o)
                (take 10 (App.mkHistoryItem (JsString H now1)
                            (App.req_prompt request) svg now2
                            (Some (App.req_options request))
                          :: App.history st))) as Hnew.
      { apply Forall_take. constructor; [| done].
        cbn. intros o [= <-]. by apply Hreq. }
      by destruct st.
  - destruct (App.history st !! i) as [item |] eqn:E; [| done].
    unfold App.loadHistoryItem.
    pose proof (proj1 (Forall_lookup _ _) Hitems i item E) as Hitem.
    destruct (App.options item) as [o |] eqn:Eo.
    + destruct (Hitem o Eo) as [Ho1 Ho2].
      split_invariant; by destruct st.
    + split_invariant; try by destruct st.
      * destruct st; unfold App.palette; cbn; in_list.
      * destruct st; unfold App.widths; cbn; in_list.
  - split_invariant; try by destruct st.
    destruct st; cbn. lia.
Qed.

Lemma run_appInvariant (H : Host) (evs : list App.Event) :
  appInvariant (App.run H evs).
Proof.
  unfold App.run. induction evs as [| ev evs IH] using rev_ind.
  - split_invariant; cbn; unfold App.palette, App.widths;
      first [done | lia | by in_list | by constructor].
  - rewrite foldl_snoc. by apply step_appInvariant.
Qed.

(** X21. The list of past generations never holds more than ten: a generation
    that succeeds is put in front of the list, which is then cut to its
    first ten, and one that fails leaves the list alone. And a request is
    in flight exactly while the application shows that it is loading. *)
Theorem app_history_holds_ten_newest (H : Host) :
  (∀ evs, (length (App.history (App.ui (App.run H evs))) ≤ 10)%nat
          ∧ App.isLoading (App.ui (App.run H evs))
            = match App.inFlight (App.run H evs) with
              | Some _ => true
              | None => false
              end)
  ∧ (∀ request outcome now1 now2 st,
       let st' := App.finishGenerate H request outcome now1 now2 st in
       match outcome with
       | Gemini.Resolved svg =>
           App.history st'
           = take 10 (App.mkHistoryItem (JsString H now1)
                        (App.req_prompt request) svg now2
                        (Some (App.req_options request))
                      :: App.history st)
       | Gemini.Rejected _ => App.history st' = App.history st
       end).
Proof.
  split.
  - intros evs. by destruct (run_appInvariant H evs) as (? & _ & _ & _ & _ & ?).
  - intros request [svg | message] now1 now2 st; cbv zeta;
      unfold App.finishGenerate.
    + change 10%Z with (Z.of_nat 10). rewrite slice0_nonneg. by destruct st.
    + by destruct st.
Qed.

(** X22. The colour and the width of the form are always among those offered,
    and so are those of the request in flight and of every past
    generation. For such a choice the technical section of the prompt
    names the colour that the canvas is given for new shapes, and the
    service never falls back on its default colour or width. *)
Theorem prompt_and_canvas_agree_on_colour (H : Host) (evs : list App.Event) :
  let s := App.run H evs in
  App.strokeColor (App.ui s) ∈ App.palette
  ∧ App.strokeWidth (App.ui s) ∈ App.widths
  ∧ (∀ r, App.inFlight s = Some r → App.offered (App.req_options r))
  ∧ (∀ item o, item ∈ App.history (App.ui s) → App.options item = Some o →
               App.offered o)
  ∧ (∀ c, c ∈ App.palette →
          Gemini.lookupKey Gemini.colorMap c = Some (App.getColorCode c))
  ∧ (∀ w, w ∈ App.widths → is_Some (Gemini.lookupKey Gemini.widthMap w)).
Proof.
  cbv zeta.
  destruct (run_appInvariant H evs) as (_ & Hc & Hw & Hitems & Hreq & _).
  split; [done |]. split; [done |]. split; [done |].
  split.
  { intros item o Hin. by apply (proj1 (Forall_forall _ _) Hitems). }
  split.
  - intros c Hin. unfold App.palette in Hin.
    repeat (apply elem_of_cons in Hin as [-> | Hin]; [reflexivity |]).
    by apply elem_of_nil in Hin.
  - intros w Hin. unfold App.widths in Hin.
    repeat (apply elem_of_cons in Hin as [-> | Hin]; [by eexists |]).
    by apply elem_of_nil in Hin.
Qed.

(** X23. One generation, with nothing else happening meanwhile. A blank prompt
    does nothing. Otherwise the loading flag is down again at the end; a
    success shows the markup, clears the error and records prompt, markup
    and options in front of the past generations; picking that record
    later brings back the markup, the prompt, the colour, the width and
    the annotations exactly as they were. A failure shows a message that
    is never empty and leaves the markup and the past generations as they
    were. *)
Theorem generation_is_recorded_and_recalled (H : Host)
        (envApiKey : option string)
        (generateContent : string → Gemini.Upstream) (now1 now2 : float)
        (st : App.AppState) :
  let st' := App.handleGenerate H envApiKey generateContent now1 now2 st in
  let request :=
    App.mkRequest (App.prompt st)
      (Gemini.mkDrawingOptions (App.strokeColor st) (App.strokeWidth st)
                               (Some (App.annotations st))) in
  let outcome := App.requestOutcome request envApiKey generateContent in
  (Js.trim (App.prompt st) = "" → st' = st)
  ∧ (Js.trim (App.prompt st) ≠ "" →
     App.isLoading st' = false
     ∧ App.prompt st' = App.prompt st
     ∧ App.strokeColor st' = App.strokeColor st
     ∧ App.strokeWidth st' = App.strokeWidth st
     ∧ App.annotations st' = App.annotations st
     ∧ (∀ svg,
          outcome = Gemini.Resolved svg →
          let item :=
            App.mkHistoryItem (JsString H now1) (App.prompt st) svg now2
                              (Some (App.req_options request)) in
          App.currentSvg st' = Some svg ∧ App.error st' = None
          ∧ App.history st' = take 10 (item :: App.history st)
          ∧ ∀ later,
              let back := App.loadHistoryItem item later in
              App.currentSvg back = Some svg
              ∧ App.prompt back = App.prompt st
              ∧ App.strokeColor back = App.strokeColor st
              ∧ App.strokeWidth back = App.strokeWidth st
              ∧ App.annotations back = App.annotations st
              ∧ App.error back = None
              ∧ App.history back = App.history later
              ∧ App.isLoading back = App.isLoading later)
     ∧ (∀ message,
          outcome = Gemini.Rejected message →
          ∃ shown,
            App.error st' = Some shown ∧ shown ≠ ""
            ∧ (message ≠ "" → shown = message)
            ∧ App.currentSvg st' = App.currentSvg st
            ∧ App.history st' = App.history st)).
Proof.
  cbv zeta. unfold App.handleGenerate, App.startGenerate. split.
  - intros ->. done.
  - intros Hne. destruct (String.eqb_spec (Js.trim (App.prompt st)) "");
      [done |].
    unfold App.finishGenerate.
    split; [by destruct (App.requestOutcome _ _ _), st |].
    split; [by destruct (App.requestOutcome _ _ _), st |].
    split; [by destruct (App.requestOutcome _ _ _), st |].
    split; [by destruct (App.requestOutcome _ _ _), st |].
    split; [by destruct (App.requestOutcome _ _ _), st |].
    split.
    + intros svg ->. change 10%Z with (Z.of_nat 10). rewrite slice0_nonneg.
      split; [by destruct st |]. split; [by destruct st |].
      split; [by destruct st |].
      intros later. unfold App.loadHistoryItem.
      cbn [App.options App.req_options Gemini.strokeColor Gemini.strokeWidth
           Gemini.annotations App.item_prompt App.svgContent].
      assert (Js.or_default (Some (App.annotations st)) "" = App.annotations st)
        as -> by (cbn; by destruct (String.eqb_spec (App.annotations st) "")).
      by destruct later.
    + intros message ->.
      exists (Js.or_default (Some message) App.msgCannotDraw).
      split; [by destruct st |].
      split; [cbn; by destruct (String.eqb_spec message "") |].
      split; [intros Hm; cbn; by destruct (String.eqb_spec message "") |].
      split; by destruct st.
Qed.

(** A request for a triangle, answered with markup, and the record of it
    picked after the form has been changed. *)
Lemma generation_is_recorded_and_recalled_witness :
  let st := App.mkAppState "a triangle" "AB = 5cm" false None None []
                           "blue" "thick" in
  let st' :=
    App.handleGenerate TestHost.host (Some "key")
      (λ _, Gemini.Responds (Some "<svg></svg>")) 1000 1001 st in
  App.currentSvg st' = Some "<svg></svg>"
  ∧ length (App.history st') = 1
  ∧ ∀ item, App.history st' !! 0 = Some item →
      App.strokeColor
        (App.loadHistoryItem item (App.set_strokeColor "red" st')) = "blue".
Proof.
  cbv zeta.
  epose proof (generation_is_recorded_and_recalled TestHost.host (Some "key")
                 (λ _, Gemini.Responds (Some "<svg></svg>")) 1000 1001
                 (App.mkAppState "a triangle" "AB = 5cm" false None None []
                                 "blue" "thick")) as [_ T].
  destruct T as (_ & _ & _ & _ & _ & T & _); [vm_compute; discriminate |].
  destruct (T "<svg></svg>") as (Hs & _ & Hh & Hback);
    [vm_compute; reflexivity |].
  split; [exact Hs |].
  split; [rewrite Hh; reflexivity |].
  intros item. rewrite Hh. intros [= <-].
  cbv zeta in Hback.
  exact (proj1 (proj2 (proj2 (Hback _)))).
Defined.

(** ** The generation service: the remaining cases *)

Lemma substring_length_bound (s : string) (a n : nat) :
  (String.length (String.substring a n s) ≤ n)%nat.
Proof.
  revert a n. induction s as [| c s IH]; intros [| a] [| n]; cbn; try lia.
  - specialize (IH 0%nat n). lia.
  - apply IH.
  - apply IH.
Qed.

Lemma substring_of_substring (s : string) (a n j m : nat) :
  (j + m ≤ n)%nat →
  String.substring j m (String.substring a n s) = String.substring (a + j) m s.
Proof.
  revert a n j m. induction s as [| c s IH]; intros a n j m Hle.
  - by destruct a, n, j, m.
  - destruct a as [| a].
    + destruct n as [| n].
      * assert (j = 0 ∧ m = 0)%nat as [-> ->] by lia. reflexivity.
      * destruct j as [| j].
        -- destruct m as [| m]; [reflexivity |].
           cbn. f_equal. rewrite (IH 0%nat n 0%nat m) by lia. reflexivity.
        -- cbn. rewrite (IH 0%nat n j m) by lia. reflexivity.
    + cbn. apply IH. lia.
Qed.

Lemma startsWith_indexOf (s p : string) :
  Js.startsWith s p = true → Js.indexOf s p = Some 0%nat.
Proof.
  unfold Js.startsWith, Js.indexOf. intros Hp.
  destruct s as [| c s]; cbn [String.index].
  - by destruct p.
  - by rewrite Hp.
Qed.

(** The opening tag cannot begin inside the closing tag. *)
Lemma opening_tag_after_closing_tag (text : string) (s e : nat) :
  String.substring s 4 text = "<svg" →
  String.substring e 6 text = "</svg>" →
  (e < s)%nat → (e + 6 ≤ s)%nat.
Proof.
  intros Hs He Hlt.
  assert (String.get s text = Some "<"%char) as Hget.
  { pose proof (substring_correct1 text s 4 0 ltac:(lia)) as G.
    rewrite Hs in G. cbn in G. by rewrite <- G. }
  assert (∀ k, (k < 6)%nat →
               String.get (k + e) text = String.get k "</svg>") as Hclose.
  { intros k Hk. pose proof (substring_correct1 text e 6 k Hk) as G.
    by rewrite He in G. }
  destruct (Nat.le_gt_cases (e + 6) s) as [| Hin]; [done |].
  exfalso.
  assert (∃ k, (1 ≤ k < 6)%nat ∧ s = (k + e)%nat) as (k & Hk & ->)
    by (exists (s - e)%nat; lia).
  rewrite Hclose in Hget by lia.
  assert (k = 1 ∨ k = 2 ∨ k = 3 ∨ k = 4 ∨ k = 5)%nat
    as [-> | [-> | [-> | [-> | ->]]]] by lia; discriminate.
Qed.

(** X24. A reply whose first closing root tag comes before its first opening
    root tag is not refused: the opening tag then begins after the closing
    tag has ended, and the service resolves with the text that lies
    between the two, in which no [<svg] occurs. *)
Theorem reply_closed_before_opened_resolves_with_text_between
        (prompt : string) (options : option Gemini.DrawingOptions)
        (userApiKey envApiKey : option string)
        (generateContent : string → Gemini.Upstream)
        (text : string) (s e : nat) :
  let outcome :=
    Gemini.generateGeometrySvg prompt options userApiKey envApiKey
                               generateContent in
  let cleaned := Gemini.stripFences text in
  let between := String.substring (e + 6) (s - (e + 6)) cleaned in
  (Js.truthy userApiKey || Js.truthy envApiKey)%bool = true →
  generateContent (Gemini.buildPrompt prompt options)
  = Gemini.Responds (Some text) →
  text ≠ "" →
  Js.indexOf cleaned "<svg" = Some s →
  Js.indexOf cleaned "</svg>" = Some e →
  (e < s)%nat →
  (e + 6 ≤ s)%nat
  ∧ outcome = Gemini.Resolved between
  ∧ Js.includes between "<svg" = false.
Proof.
  cbv zeta. intros Hkey Hup Htext Hs He Hlt.
  pose proof (indexOf_found _ _ _ Hs) as (S1 & S2 & S3).
  pose proof (indexOf_found _ _ _ He) as (E1 & _ & _).
  cbn [String.length] in S1, S2, S3, E1.
  specialize (S2 ltac:(discriminate)).
  pose proof (opening_tag_after_closing_tag _ _ _ S1 E1 Hlt) as Hafter.
  split; [exact Hafter |]. split.
  - unfold Gemini.generateGeometrySvg. rewrite Hkey, Hup. cbn [negb].
    unfold Gemini.extractSvg.
    assert (Js.truthy (Some text) = true) as ->
        by (cbn; by destruct (String.eqb_spec text "")).
    cbn [negb]. change (default "" (Some text)) with text.
    assert (Js.startsWith (Gemini.stripFences text) "<svg" = false) as ->.
    { destruct (Js.startsWith _ _) eqn:Hst; [| done].
      apply startsWith_indexOf in Hst. rewrite Hs in Hst.
      injection Hst as ->. lia. }
    cbn [negb orb]. rewrite Hs, He. f_equal.
    unfold Js.substring. cbv zeta.
    rewrite (Nat.min_l s) by lia. rewrite (Nat.min_l (e + 6)) by lia.
    rewrite Nat.min_r, Nat.max_l by lia. reflexivity.
  - unfold Js.includes, Js.indexOf.
    destruct (String.index 0 "<svg" _) as [j |] eqn:Hj; [| done].
    exfalso. apply index_correct1 in Hj. cbn [String.length] in Hj.
    pose proof (substring_length_le
                  (String.substring (e + 6) (s - (e + 6))
                                    (Gemini.stripFences text)) j 4) as L1.
    rewrite Hj in L1. cbn [String.length] in L1.
    pose proof (substring_length_bound (Gemini.stripFences text)
                                       (e + 6) (s - (e + 6))) as L2.
    rewrite substring_of_substring in Hj by lia.
    apply (S3 (e + 6 + j)%nat); [lia | exact Hj].
Qed.

(** A reply that closes a root tag before it opens one: the service
    answers with the prose between the two. *)
Lemma reply_closed_before_opened_resolves_with_text_between_witness :
  Gemini.generateGeometrySvg "a square" None None (Some "key")
    (λ _, Gemini.Responds (Some "</svg> sorry <svg"))
  = Gemini.Resolved " sorry ".
Proof.
  pose proof (reply_closed_before_opened_resolves_with_text_between
                "a square" None None (Some "key")
                (λ _, Gemini.Responds (Some "</svg> sorry <svg"))
                "</svg> sorry <svg" 13 0
                ltac:(reflexivity) ltac:(reflexivity) ltac:(discriminate)
                ltac:(vm_compute; reflexivity) ltac:(vm_compute; reflexivity)
                ltac:(lia)) as (_ & T & _).
  etransitivity; [exact T | vm_compute; reflexivity].
Defined.
